(** * sequelize-model-loader: the loader of src/index.js, embedded and verified

    The repository is one JavaScript file.  It scans a directory for files
    whose name ends in [.model.js], calls each of them to obtain a model
    definition, fills in a default table name, registers the model with the
    ORM and returns the map from model name to model.

    Layout of this development:
    - JavaScript strings and the built-ins the loader uses on them;
    - JavaScript values, objects as ordered property lists;
    - the vendor functions (inflection, lodash.defaultsdeep, path.basename);
    - the pure helpers of the source, under their own names;
    - the collaborators (file system, model files, ORM, logger) as a record
      of state-passing functions, and a small monad that threads the world
      and records every call with its answer;
    - the two exported loader functions of the source file (the file holds
      two copies of the module; the second assignment to [module.exports]
      is the one in force);
    - what can be read off a trace of calls;
    - a small concrete world to run the loader on;
    - the properties, claim by claim. *)

From Stdlib Require Import String Ascii List ZArith Bool Lia Sorted Permutation.
From stdpp Require Import base option gmap strings list fin_maps sorting pretty.

Import ListNotations.
Local Open Scope string_scope.
Local Open Scope list_scope.

(** ** JavaScript strings

    A JavaScript string is modelled as a [string]: a sequence of code units,
    compared unit by unit. *)

Module JsString.

(** [s.endsWith(suffix)] *)
Definition endsWith (s suffix : string) : bool :=
  (String.length suffix <=? String.length s)%nat
  && String.eqb
       (substring (String.length s - String.length suffix)
                  (String.length suffix) s)
       suffix.

(** [s.split(sep)] for a separator of one code unit: the pieces between the
    occurrences of [sep]; a string without [sep] (the empty string too)
    gives one piece. *)
Fixpoint split (sep : ascii) (s : string) : list string :=
  match s with
  | EmptyString => [EmptyString]
  | String c rest =>
      if Ascii.eqb c sep then EmptyString :: split sep rest
      else match split sep rest with
           | seg :: segs => String c seg :: segs
           | [] => [String c EmptyString]
           end
  end.

(** [pieces.join(sep)] on an array of strings. *)
Definition join (sep : string) (pieces : list string) : string :=
  String.concat sep pieces.

(** [sep] does not occur in [s]. *)
Fixpoint free_of (sep : ascii) (s : string) : bool :=
  match s with
  | EmptyString => true
  | String c rest => negb (Ascii.eqb c sep) && free_of sep rest
  end.

(** [array.sort()] on an array of strings, with the default comparison:
    code unit by code unit.  The order is total and two strings that
    compare equal are the same string, so the sorted array does not depend
    on the algorithm. *)
Definition sort (array : list string) : list string :=
  merge_sort String.le array.

End JsString.

(** ** JavaScript values

    Numbers are integers here (the loader computes with none).  An object
    the loader builds or reads field by field (a definition, its
    parameters, its maps of methods) is a [VObj]: its own enumerable
    properties, in enumeration order.  An object that belongs to a
    collaborator (a function, an ORM data type, a model class) is a [VRef]:
    the loader reaches inside it only through the collaborators below, and
    where it is met in the place of a definition or of parameters it
    behaves as a frozen object without properties.  A definition that is
    itself a function or a class has properties the loader reads ([name],
    for one) and can be assigned to: it is given as the [VObj] of those
    properties, not as a [VRef], and what is stated below about the name of
    a definition is stated for a [VObj]. *)

#[warnings="-register-all"]
Inductive value : Type :=
| VUndefined
| VNull
| VBool (b : bool)
| VNum (n : Z)
| VStr (s : string)
| VRef (r : nat)
| VObj (props : list (string * value)).

(** What a [throw] carries: an [Error] made by the loader with its message,
    a [TypeError] of the language, or whatever a collaborator raised. *)
Inductive exn : Type :=
| Error (message : string)
| TypeError
| Raised (reason : value).

Inductive outcome (A : Type) : Type :=
| Ok (a : A)
| Throw (e : exn).

Arguments Ok {A} a.
Arguments Throw {A} e.

Module Js.

(** [!!v] *)
Definition truthy (v : value) : bool :=
  match v with
  | VUndefined | VNull => false
  | VBool b => b
  | VNum n => negb (n =? 0)%Z
  | VStr s => negb (String.eqb s EmptyString)
  | VRef _ | VObj _ => true
  end.

Fixpoint lookup_prop (key : string) (props : list (string * value)) : option value :=
  match props with
  | [] => None
  | (k, v) :: rest => if String.eqb key k then Some v else lookup_prop key rest
  end.

(** Assignment keeps the place of a property that exists and appends a new
    one. *)
Fixpoint assign_prop (key : string) (v : value) (props : list (string * value))
  : list (string * value) :=
  match props with
  | [] => [(key, v)]
  | (k, v') :: rest =>
      if String.eqb key k then (k, v) :: rest
      else (k, v') :: assign_prop key v rest
  end.

(** [object.key] for an [object] that is neither [undefined] nor [null]
    and a [key] that no built-in prototype defines.  A primitive has no such
    property; of a [VRef] the loader holds none. *)
Definition get (object : value) (key : string) : value :=
  match object with
  | VObj props => default VUndefined (lookup_prop key props)
  | _ => VUndefined
  end.

(** [key in object]: a [TypeError] on a primitive. *)
Definition has (key : string) (object : value) : outcome bool :=
  match object with
  | VObj props => Ok (bool_decide (is_Some (lookup_prop key props)))
  | VRef _ => Ok false
  | _ => Throw TypeError
  end.

(** [object.key = v] in strict mode (the file starts with ['use strict']):
    a [TypeError] on a primitive.  A [VRef] is not written to through this
    function: it is treated as a frozen object. *)
Definition set (object : value) (key : string) (v : value) : outcome value :=
  match object with
  | VObj props => Ok (VObj (assign_prop key v props))
  | _ => Throw TypeError
  end.

(** The characters of a string as [Object.entries] lists them, from index
    [i] on. *)
Fixpoint string_entries (i : nat) (s : string) : list (string * value) :=
  match s with
  | EmptyString => []
  | String c rest =>
      (pretty i, VStr (String c EmptyString)) :: string_entries (S i) rest
  end.

(** [Object.entries(object)] for an [object] that is neither [undefined]
    nor [null]. *)
Definition entries (object : value) : list (string * value) :=
  match object with
  | VObj props => props
  | VStr s => string_entries 0 s
  | _ => []
  end.

(** lodash's [isObject]: objects and functions. *)
Definition isObject (v : value) : bool :=
  match v with
  | VObj _ | VRef _ => true
  | _ => false
  end.

(** The value found by following [path] from [v]. *)
Fixpoint get_path (v : value) (path : list string) : value :=
  match path with
  | [] => v
  | key :: rest => get_path (get v key) rest
  end.

End Js.

(** ** Vendor: inflection

    [inflection.underscore] and [inflection.pluralize] are functions of an
    npm package; the loader only composes them, so they are parameters. *)

Record Inflection : Type := {
  underscore : string -> string;
  pluralize : string -> string
}.

(** ** Vendor: lodash.defaultsdeep *)

(** One default [key: srcValue] against the properties of the destination;
    [merge] is the merge of a default into a property. *)
Definition mergeDefault (merge : value -> value -> value) (key : string)
    (srcValue : value) (props : list (string * value))
  : list (string * value) :=
  match Js.lookup_prop key props with
  | None | Some VUndefined => Js.assign_prop key srcValue props
  | Some objValue =>
      if Js.isObject objValue && Js.isObject srcValue
      then Js.assign_prop key (merge objValue srcValue) props
      else props
  end.

Fixpoint mergeDefaults (merge : value -> value -> value)
    (defaults props : list (string * value)) {struct defaults}
  : list (string * value) :=
  match defaults with
  | [] => props
  | (key, srcValue) :: defaults' =>
      mergeDefaults merge defaults' (mergeDefault merge key srcValue props)
  end.

(** Modelled from the spec: [lodash.defaultsdeep] is an npm package that
    src/ does not contain.  The spec has it merge the defaults into the
    object recursively without overwriting what is there, existing values
    winning at any depth.  Following lodash, a property is filled in when it
    resolves to [undefined]; when the property and its default are both
    objects the default is merged into the property; anything else is left
    as it is.  A destination that is no [VObj] stays as it is. *)
Fixpoint defaultsDeep (object source : value) {struct source} : value :=
  match object, source with
  | VObj props, VObj defaults =>
      VObj (mergeDefaults defaultsDeep defaults props)
  | _, _ => object
  end.

(** A value that is there and is no object the merge could add to. *)
Definition settled (v : value) : Prop :=
  match v with
  | VUndefined | VObj _ => False
  | _ => True
  end.

(** ** Node: path.basename *)

Module Path.

Fixpoint drop_slashes (rev_path : list ascii) : list ascii :=
  match rev_path with
  | c :: rest => if Ascii.eqb c "/" then drop_slashes rest else rev_path
  | [] => []
  end.

Fixpoint take_component (rev_path : list ascii) : list ascii :=
  match rev_path with
  | c :: rest => if Ascii.eqb c "/" then [] else c :: take_component rest
  | [] => []
  end.

(** The last portion of a path, trailing separators ignored. *)
Definition last_component (path : string) : string :=
  string_of_list_ascii
    (rev (take_component (drop_slashes (rev (list_ascii_of_string path))))).

(** Modelled from the spec: [path.basename] belongs to the Node.js runtime,
    not to src/.  The spec derives the model name "from the file's base
    name (suffix stripped)": the last portion of the path, without [ext]
    when it ends with it (POSIX separators). *)
Definition basename (path ext : string) : string :=
  let base := last_component path in
  if JsString.endsWith base ext
  then substring 0 (String.length base - String.length ext) base
  else base.

End Path.

(** ** The helpers of src/index.js *)

(** All files ending with this are treated as models. *)
Definition kModelFileNameSuffix : string := ".model.js".

Definition nameFromFileName (modelFileName : string) : string :=
  Path.basename modelFileName kModelFileNameSuffix.

(** ['name' in definition ? definition.name : nameFromFileName(...)] *)
Definition nameForDefinition (definition : value) (modelFileName : string)
  : outcome value :=
  match Js.has "name" definition with
  | Ok true => Ok (Js.get definition "name")
  | Ok false => Ok (VStr (nameFromFileName modelFileName))
  | Throw e => Throw e
  end.

Section TableName.

Variable inflection : Inflection.

Definition defaultTableName (modelName : string) : string :=
  JsString.join "_"
    (map (fun val => pluralize inflection val)
         (JsString.split "_" (underscore inflection modelName))).

(** [setupDefinition] changes [definition] in place; here it returns the
    changed definition.  [inflection.underscore] calls [split] on its
    argument, which a model name that is no string does not have: a
    [TypeError], before anything is assigned. *)
Definition setupDefinition (definition modelName : value) : outcome value :=
  match modelName with
  | VStr name =>
      let defaultParams := VObj [("tableName", VStr (defaultTableName name))] in
      if negb (Js.truthy (Js.get definition "params"))
      then Js.set definition "params" defaultParams
      else Js.set definition "params"
             (defaultsDeep (Js.get definition "params") defaultParams)
  | _ => Throw TypeError
  end.

End TableName.

(** The [options] argument of the loader; [{}] when it is left out. *)
Record Options : Type := {
  schema : value;
  logger : value;
  context : value
}.

Definition no_options : Options :=
  {| schema := VUndefined; logger := VUndefined; context := VUndefined |}.

(** Lines 124-125 (37-38 in the first copy):
    [if (!definition.params.schema && options.schema)
       definition.params.schema = options.schema]. *)
Definition applySchemaOption (options : Options) (definition : value)
  : outcome value :=
  let params := Js.get definition "params" in
  if negb (Js.truthy (Js.get params "schema")) && Js.truthy (schema options)
  then match Js.set params "schema" (schema options) with
       | Ok params' => Js.set definition "params" params'
       | Throw e => Throw e
       end
  else Ok definition.

(** What [for (const [methodName, methodFn] of Object.entries(methods))]
    runs over, behind its guard [if (methods)]. *)
Definition methodEntries (methods : value) : list (string * value) :=
  if Js.truthy methods then Js.entries methods else [].

(** ** The registry and the collaborators

    [models], the registry, is a JavaScript object used as a map from model
    name to model: what [models[key]] gives, key by key. *)

Abbreviation registry := (gmap string value).


(** Every call the loader makes on something it does not own, with the
    answer it got.  [ERequire] stands for
    [require(path.resolve(directory, modelFileName))]; [ECallModelFile] for
    calling what the file exports, with the registry as it is then and, in
    the answer, as the call left it; [EGetTableName] for
    [model.getTableName().toString()]. *)
Inductive event : Type :=
| EReaddirSync (directory : string) (answer : outcome (list string))
| ERequire (directory modelFileName : string) (answer : outcome value)
| EGetProperty (object : value) (key : string) (answer : outcome value)
| ECallModelFile (modelFileName : string) (modelFile types : value)
    (models : registry) (context : value) (answer : outcome (value * registry))
| EDefine (sequelize : value) (modelName : string) (fields params : value)
    (answer : outcome value)
| ERemoveAttribute (model : value) (attribute : string) (answer : outcome unit)
| ESetProperty (object : value) (key : string) (v : value) (answer : outcome unit)
| EGetTableName (model : value) (answer : outcome string)
| ELoggerInfo (logger fields : value) (message : string) (answer : outcome unit).

(** The file system, the module loader with the model files, the ORM and
    the logger, over a world [W] that they may read and change.  Each of
    them may throw.  What the loader hands them (a definition, its fields
    and parameters) they leave as it is; the registry alone comes back from
    the call of a model file, as the call left it. *)
Record Collaborators (W : Type) : Type := {
  readdirSync : string -> W -> outcome (list string) * W;
  require : string -> string -> W -> outcome value * W;
  getProperty : value -> string -> W -> outcome value * W;
  callModelFile : value -> value -> registry -> value -> W
                  -> outcome (value * registry) * W;
  define : value -> string -> value -> value -> W -> outcome value * W;
  removeAttribute : value -> string -> W -> outcome unit * W;
  setProperty : value -> string -> value -> W -> outcome unit * W;
  getTableName : value -> W -> outcome string * W;
  loggerInfo : value -> value -> string -> W -> outcome unit * W
}.

Arguments readdirSync {W} c _ _.
Arguments require {W} c _ _ _.
Arguments getProperty {W} c _ _ _.
Arguments callModelFile {W} c _ _ _ _ _.
Arguments define {W} c _ _ _ _ _.
Arguments removeAttribute {W} c _ _ _.
Arguments setProperty {W} c _ _ _ _.
Arguments getTableName {W} c _ _.
Arguments loggerInfo {W} c _ _ _ _.

(** ** The loader monad

    A computation starts in a world and ends with a value or a [throw], the
    world it left, and the calls it made, oldest first.  A [throw] ends the
    computation; the world stays as it is then (nothing is rolled back). *)

Definition M (W A : Type) : Type := W -> outcome A * W * list event.

Definition ret {W A : Type} (a : A) : M W A :=
  fun w => (Ok a, w, []).

Definition throw {W A : Type} (e : exn) : M W A :=
  fun w => (Throw e, w, []).

Definition bind {W A B : Type} (m : M W A) (k : A -> M W B) : M W B :=
  fun w =>
    match m w with
    | (Ok a, w1, t1) =>
        match k a w1 with
        | (r, w2, t2) => (r, w2, t1 ++ t2)
        end
    | (Throw e, w1, t1) => (Throw e, w1, t1)
    end.

(** A pure step that may throw. *)
Definition lift {W A : Type} (r : outcome A) : M W A :=
  fun w => (r, w, []).

(** A call on a collaborator, recorded with its answer. *)
Definition call {W A : Type} (op : W -> outcome A * W) (ev : outcome A -> event)
  : M W A :=
  fun w => match op w with (r, w') => (r, w', [ev r]) end.

Definition obind {A B : Type} (r : outcome A) (k : A -> outcome B) : outcome B :=
  match r with
  | Ok a => k a
  | Throw e => Throw e
  end.

Notation "'let*' x ':=' m 'in' k" := (bind m (fun x => k))
  (at level 10, x pattern, m at level 100, k at level 200).

Notation "'let?' x ':=' r 'in' k" := (obind r (fun x => k))
  (at level 10, x pattern, r at level 100, k at level 200).

(** [for (const item of items) body(item)] *)
Fixpoint forOf {W A : Type} (items : list A) (body : A -> M W unit) : M W unit :=
  match items with
  | [] => ret tt
  | item :: rest => let* _ := body item in forOf rest body
  end.

(** [array.forEach(callbackfn)].  The callback of the loader changes the
    registry [models] it closes over; here the registry goes in and comes
    out. *)
Fixpoint forEach {W : Type} (array : list string)
    (callbackfn : registry -> string -> M W registry) (models : registry)
  : M W registry :=
  match array with
  | [] => ret models
  | element :: rest =>
      let* models := callbackfn models element in
      forEach rest callbackfn models
  end.

(** [names.filter((modelFileName) => modelFileName.endsWith(suffix)).sort()],
    the part of [getModelFileNames] behind [fs.readdirSync]. *)
Definition modelFilesOf (names : list string) : list string :=
  JsString.sort
    (List.filter
       (fun modelFileName =>
          JsString.endsWith modelFileName kModelFileNameSuffix)
       names).

(** ** The loader (src/index.js, [module.exports]) *)

Section Loader.

Context {W : Type}.
Variable env : Collaborators W.
Variable inflection : Inflection.

(** [fs.readdirSync(directory).filter(...endsWith(suffix)).sort()] *)
Definition getModelFileNames (directory : string) : M W (list string) :=
  let* names := call (readdirSync env directory) (EReaddirSync directory) in
  ret (modelFilesOf names).

(** Lines 115-119 (28-32): load the file, call what it exports, and throw
    when it returns something falsy. *)
Definition obtainDefinition (directory : string) (sequelize : value)
    (options : Options) (models : registry) (modelFileName : string)
  : M W (value * registry) :=
  let* modelFile :=
    call (require env directory modelFileName)
         (ERequire directory modelFileName) in
  let* types :=
    call (getProperty env sequelize "Sequelize")
         (EGetProperty sequelize "Sequelize") in
  let* (definition, models) :=
    call (callModelFile env modelFile types models (context options))
         (ECallModelFile modelFileName modelFile types models (context options)) in
  if negb (Js.truthy definition)
  then throw (Error ("Missing return value from model file, " +:+ modelFileName))
  else ret (definition, models).

(** Lines 121-125 (34-38): the model name, the default parameters and the
    schema option.  Past [setupDefinition] the name is a string. *)
Definition prepareDefinition (options : Options) (definition : value)
    (modelFileName : string) : outcome (string * value) :=
  let? modelName := nameForDefinition definition modelFileName in
  let? definition := setupDefinition inflection definition modelName in
  let? definition := applySchemaOption options definition in
  match modelName with
  | VStr name => Ok (name, definition)
  | _ => Throw TypeError
  end.

(** Lines 129-130 (42-43). *)
Definition dropPrimaryKey (definition model : value) : M W unit :=
  if Js.truthy (Js.get (Js.get definition "params") "noPrimaryKey")
  then call (removeAttribute env model "id") (ERemoveAttribute model "id")
  else ret tt.

(** Lines 132-140; the first copy of the function has no such lines. *)
Definition attachMethods (definition model : value) : M W unit :=
  let* _ :=
    forOf (methodEntries (Js.get definition "classMethods"))
      (fun '(methodName, methodFn) =>
         call (setProperty env model methodName methodFn)
              (ESetProperty model methodName methodFn)) in
  forOf (methodEntries (Js.get definition "instanceMethods"))
    (fun '(methodName, methodFn) =>
       let* prototype :=
         call (getProperty env model "prototype")
              (EGetProperty model "prototype") in
       call (setProperty env prototype methodName methodFn)
            (ESetProperty prototype methodName methodFn)).

(** Lines 142-147 (45-50): [model.definition = definition], then the log
    record, whose two parts each ask the model for its table name. *)
Definition exposeDefinition (options : Options) (modelName : string)
    (definition model : value) : M W unit :=
  let* _ :=
    call (setProperty env model "definition" definition)
         (ESetProperty model "definition" definition) in
  if Js.truthy (logger options)
  then
    let* table :=
      call (getTableName env model) (EGetTableName model) in
    let* table' :=
      call (getTableName env model) (EGetTableName model) in
    let fields := VObj [("modelName", VStr modelName); ("table", VStr table)] in
    let message :=
      "Loaded model: " +:+ modelName +:+ " (" +:+ table' +:+ " table)" in
    call (loggerInfo env (logger options) fields message)
         (ELoggerInfo (logger options) fields message)
  else ret tt.

(** [sequelize.define(modelName, definition.fields, definition.params)] *)
Definition defineModel (sequelize : value) (modelName : string)
    (definition : value) : M W value :=
  call (define env sequelize modelName
          (Js.get definition "fields") (Js.get definition "params"))
       (EDefine sequelize modelName
          (Js.get definition "fields") (Js.get definition "params")).

(** The callback of the second [module.exports] (lines 114-148), the one
    the module ends up exporting.  [models[modelName] = model] puts the
    model into the registry under the name; for the name [__proto__] what
    is put there is the prototype of the registry, see [ownKeys]. *)
Definition eachModelFile (directory : string) (sequelize : value)
    (options : Options) (models : registry) (modelFileName : string)
  : M W registry :=
  let* (definition, models) :=
    obtainDefinition directory sequelize options models modelFileName in
  let* (modelName, definition) :=
    lift (prepareDefinition options definition modelFileName) in
  let* model := defineModel sequelize modelName definition in
  let models := <[modelName := model]> models in
  let* _ := dropPrimaryKey definition model in
  let* _ := attachMethods definition model in
  let* _ := exposeDefinition options modelName definition model in
  ret models.

(** The second [module.exports] (lines 110-151). *)
Definition module_exports (directory : string) (sequelize : value)
    (options : Options) : M W registry :=
  let* modelFileNames := getModelFileNames directory in
  forEach modelFileNames (eachModelFile directory sequelize options) ∅.

(** The callback of the first [module.exports] (lines 27-51). *)
Definition eachModelFile_first (directory : string) (sequelize : value)
    (options : Options) (models : registry) (modelFileName : string)
  : M W registry :=
  let* (definition, models) :=
    obtainDefinition directory sequelize options models modelFileName in
  let* (modelName, definition) :=
    lift (prepareDefinition options definition modelFileName) in
  let* model := defineModel sequelize modelName definition in
  let models := <[modelName := model]> models in
  let* _ := dropPrimaryKey definition model in
  let* _ := exposeDefinition options modelName definition model in
  ret models.

(** The first [module.exports] (lines 23-54). *)
Definition module_exports_first (directory : string) (sequelize : value)
    (options : Options) : M W registry :=
  let* modelFileNames := getModelFileNames directory in
  forEach modelFileNames (eachModelFile_first directory sequelize options) ∅.

End Loader.

(** ** Reading a trace *)

(** The files loaded, in order. *)
Definition requiredFiles (t : list event) : list string :=
  omap (fun e => match e with
                 | ERequire _ modelFileName _ => Some modelFileName
                 | _ => None
                 end) t.

(** The calls of model files: the file, the registry it was given, the
    answer. *)
Definition invocations (t : list event)
  : list (string * registry * outcome (value * registry)) :=
  omap (fun e => match e with
                 | ECallModelFile modelFileName _ _ models _ answer =>
                     Some (modelFileName, models, answer)
                 | _ => None
                 end) t.

(** The models the ORM defined: name and model. *)
Definition registrations (t : list event) : list (string * value) :=
  omap (fun e => match e with
                 | EDefine _ modelName _ _ (Ok model) => Some (modelName, model)
                 | _ => None
                 end) t.

(** The [define] calls: name, fields and parameters. *)
Definition definitions (t : list event) : list (string * value * value) :=
  omap (fun e => match e with
                 | EDefine _ modelName fields params _ =>
                     Some (modelName, fields, params)
                 | _ => None
                 end) t.

(** The attribute removals asked of the ORM. *)
Definition removals (t : list event) : list (value * string) :=
  omap (fun e => match e with
                 | ERemoveAttribute model attribute _ => Some (model, attribute)
                 | _ => None
                 end) t.

(** The property assignments made on collaborators' objects. *)
Definition propertyWrites (t : list event) : list (value * string * value) :=
  omap (fun e => match e with
                 | ESetProperty object key v _ => Some (object, key, v)
                 | _ => None
                 end) t.

(** The properties read from collaborators' objects, with what was read. *)
Definition propertyReads (t : list event) : list (value * string * outcome value) :=
  omap (fun e => match e with
                 | EGetProperty object key answer => Some (object, key, answer)
                 | _ => None
                 end) t.

(** The names the called files resolve to, where they resolve to one. *)
Definition resolvedNames (t : list event) : list string :=
  omap (fun e => match e with
                 | ECallModelFile modelFileName _ _ _ _ (Ok (definition, _)) =>
                     match nameForDefinition definition modelFileName with
                     | Ok (VStr name) => Some name
                     | _ => None
                     end
                 | _ => None
                 end) t.

(** The events of lines 132-135 when nothing throws: one assignment on the
    model per class method. *)
Definition classEvents (model : value) (methods : list (string * value))
  : list event :=
  map (fun '(methodName, methodFn) =>
         ESetProperty model methodName methodFn (Ok tt)) methods.

(** The events of lines 137-140 when nothing throws: per instance method,
    [model.prototype] is read and the method assigned on what was read. *)
Definition instanceEvents (model : value)
    (methods : list (string * value * value)) : list event :=
  flat_map (fun '(methodName, methodFn, prototype) =>
              [EGetProperty model "prototype" (Ok prototype);
               ESetProperty prototype methodName methodFn (Ok tt)]) methods.

(** The events of lines 146-147 when nothing throws. *)
Definition logEvents (options : Options) (modelName : string) (model : value)
    (table table' : string) : list event :=
  if Js.truthy (logger options)
  then [EGetTableName model (Ok table);
        EGetTableName model (Ok table');
        ELoggerInfo (logger options)
          (VObj [("modelName", VStr modelName); ("table", VStr table)])
          ("Loaded model: " +:+ modelName +:+ " (" +:+ table' +:+ " table)")
          (Ok tt)]
  else [].

(** The events of one pass of the second callback in which nothing throws:
    the file is loaded and called, the model defined, [id] removed when the
    parameters ask for it, the methods assigned, the definition assigned,
    the record logged. *)
Definition passEvents (directory : string) (sequelize : value)
    (options : Options) (models : registry) (modelFileName : string)
    (modelFile types definition0 : value) (models1 : registry)
    (modelName : string) (definition model : value)
    (prototypes : list value) (table table' : string) : list event :=
  [ERequire directory modelFileName (Ok modelFile);
   EGetProperty sequelize "Sequelize" (Ok types);
   ECallModelFile modelFileName modelFile types models (context options)
     (Ok (definition0, models1));
   EDefine sequelize modelName (Js.get definition "fields")
     (Js.get definition "params") (Ok model)]
  ++ (if Js.truthy (Js.get (Js.get definition "params") "noPrimaryKey")
      then [ERemoveAttribute model "id" (Ok tt)] else [])
  ++ classEvents model (methodEntries (Js.get definition "classMethods"))
  ++ instanceEvents model
       (zip (methodEntries (Js.get definition "instanceMethods")) prototypes)
  ++ ESetProperty model "definition" definition (Ok tt)
     :: logEvents options modelName model table table'.

(** The registry handed to one model file after another: the first file
    gets [start]; the next file gets what the file before it left, with the
    model defined for that file put under its name. *)
Definition accumulated (start : registry)
    (calls : list (string * registry * outcome (value * registry)))
    (defined : list (string * value)) : Prop :=
  (forall file models answer,
      calls !! 0 = Some (file, models, answer) -> models = start)
  /\ (forall i file models answer file' models' answer',
         calls !! i = Some (file, models, answer) ->
         calls !! S i = Some (file', models', answer') ->
         exists definition models1 name model,
           answer = Ok (definition, models1)
           /\ defined !! i = Some (name, model)
           /\ models' = <[name := model]> models1).

(** The events that load no file, call no file and define no model. *)
Definition silent (e : event) : bool :=
  match e with
  | EGetProperty _ _ _ | ESetProperty _ _ _ _ | ERemoveAttribute _ _ _
  | EGetTableName _ _ | ELoggerInfo _ _ _ _ => true
  | _ => false
  end.

(** A property of the world that no collaborator undoes. *)
Definition stable {W : Type} (env : Collaborators W) (I : W -> Prop) : Prop :=
  (forall directory w r w',
      readdirSync env directory w = (r, w') -> I w -> I w')
  /\ (forall directory modelFileName w r w',
         require env directory modelFileName w = (r, w') -> I w -> I w')
  /\ (forall object key w r w',
         getProperty env object key w = (r, w') -> I w -> I w')
  /\ (forall modelFile types models ctx w r w',
         callModelFile env modelFile types models ctx w = (r, w') ->
         I w -> I w')
  /\ (forall sequelize modelName fields params w r w',
         define env sequelize modelName fields params w = (r, w') ->
         I w -> I w')
  /\ (forall model attribute w r w',
         removeAttribute env model attribute w = (r, w') -> I w -> I w')
  /\ (forall object key v w r w',
         setProperty env object key v w = (r, w') -> I w -> I w')
  /\ (forall model w r w',
         getTableName env model w = (r, w') -> I w -> I w')
  /\ (forall log fields message w r w',
         loggerInfo env log fields message w = (r, w') -> I w -> I w').

(** The removals a run should ask for: [id], from every model whose
    parameters, as given to [define], have a truthy [noPrimaryKey]. *)
Definition removalsAskedFor (defined : list (string * value * value))
    (models : list (string * value)) : list (value * string) :=
  flat_map (fun '((_, _, params), (_, model)) =>
              if Js.truthy (Js.get params "noPrimaryKey")
              then [(model, "id")] else [])
           (zip defined models).

(** The models asked for their table name, in order, with the answers. *)
Definition tableNameCalls (t : list event) : list (value * outcome string) :=
  omap (fun e => match e with
                 | EGetTableName model answer => Some (model, answer)
                 | _ => None
                 end) t.

(** The records given to the logger: the logger, the fields, the message. *)
Definition logRecords (t : list event) : list (value * value * string) :=
  omap (fun e => match e with
                 | ELoggerInfo log fields message _ => Some (log, fields, message)
                 | _ => None
                 end) t.

(** Lines 146-147 over a run: each model defined is asked twice for its
    table name, [tables] being the two answers per model. *)
Definition tableNamesAsked (defined : list (string * value))
    (tables : list (string * string)) : list (value * outcome string) :=
  flat_map (fun '((_, model), (table, table')) =>
              [(model, Ok table); (model, Ok table')])
           (zip defined tables).

(** Lines 146-147 over a run: one record per model defined, with the
    model's name and the table names it answered. *)
Definition recordsLogged (options : Options) (defined : list (string * value))
    (tables : list (string * string)) : list (value * value * string) :=
  map (fun '((modelName, _), (table, table')) =>
         (logger options,
          VObj [("modelName", VStr modelName); ("table", VStr table)],
          "Loaded model: " +:+ modelName +:+ " (" +:+ table' +:+ " table)"))
      (zip defined tables).

(** What an answer throws, when it throws. *)
Definition failure {A : Type} (answer : outcome A) : option exn :=
  match answer with
  | Ok _ => None
  | Throw e => Some e
  end.

(** What the call recorded by an event threw, when it threw. *)
Definition thrown (e : event) : option exn :=
  match e with
  | EReaddirSync _ answer => failure answer
  | ERequire _ _ answer => failure answer
  | EGetProperty _ _ answer => failure answer
  | ECallModelFile _ _ _ _ _ answer => failure answer
  | EDefine _ _ _ _ answer => failure answer
  | ERemoveAttribute _ _ answer => failure answer
  | ESetProperty _ _ _ answer => failure answer
  | EGetTableName _ answer => failure answer
  | ELoggerInfo _ _ _ answer => failure answer
  end.

(** The calls the loader can make when it is given [directory], [sequelize]
    and [options]: each constructor is one call site of the source. *)
Inductive issued (directory : string) (sequelize : value) (options : Options)
  : event -> Prop :=
| issued_readdirSync answer :
    issued directory sequelize options (EReaddirSync directory answer)
| issued_require modelFileName answer :
    issued directory sequelize options
      (ERequire directory modelFileName answer)
| issued_Sequelize answer :
    issued directory sequelize options
      (EGetProperty sequelize "Sequelize" answer)
| issued_call modelFileName modelFile types models answer :
    issued directory sequelize options
      (ECallModelFile modelFileName modelFile types models (context options)
         answer)
| issued_define modelName fields params answer :
    issued directory sequelize options
      (EDefine sequelize modelName fields params answer)
| issued_removeAttribute model answer :
    issued directory sequelize options (ERemoveAttribute model "id" answer)
| issued_prototype model answer :
    issued directory sequelize options (EGetProperty model "prototype" answer)
| issued_assignment object key v answer :
    issued directory sequelize options (ESetProperty object key v answer)
| issued_getTableName model answer :
    Js.truthy (logger options) = true ->
    issued directory sequelize options (EGetTableName model answer)
| issued_info fields message answer :
    Js.truthy (logger options) = true ->
    issued directory sequelize options
      (ELoggerInfo (logger options) fields message answer).

(** Every call a computation makes, however it ends, is one of [P]. *)
Definition traced {W A : Type} (P : event -> Prop) (m : M W A) : Prop :=
  forall w r w' t, m w = (r, w', t) -> Forall P t.

(** Where a throw of the loader comes from: it is the loader's own error
    for a file that returned nothing, or a [TypeError] of the language, or
    what the last call made threw. *)
Definition accounted (e : exn) (t : list event) : Prop :=
  (exists modelFileName,
      e = Error ("Missing return value from model file, " +:+ modelFileName))
  \/ e = TypeError
  \/ (exists ev, last t = Some ev /\ thrown ev = Some e).

(** Every throw of a computation is accounted for. *)
Definition explained {W A : Type} (m : M W A) : Prop :=
  forall w e w' t, m w = (Throw e, w', t) -> accounted e t.


(** ** A concrete world

    Directories with model files, an ORM that keeps model classes in a
    heap, and English inflection rules: something to run the loader on. *)

Module Demo.

Definition is_upper (c : ascii) : bool :=
  (65 <=? nat_of_ascii c)%nat && (nat_of_ascii c <=? 90)%nat.

Definition to_lower (c : ascii) : ascii :=
  if is_upper c then ascii_of_nat (nat_of_ascii c + 32) else c.

Fixpoint snake (s : string) : string :=
  match s with
  | EmptyString => EmptyString
  | String c rest =>
      if is_upper c then String "_" (String (to_lower c) (snake rest))
      else String c (snake rest)
  end.

(** Modelled from the spec: the inflection package is not under src/.  The
    spec calls [underscore] underscore-casing (snake case) and gives
    ["UserAccount"] becoming ["user_account"]: an underscore goes before
    every capital, the capital becomes a small letter, and an underscore at
    the very start is dropped. *)
Definition snake_case (s : string) : string :=
  match snake s with
  | String "_" rest => rest
  | other => other
  end.

Definition vowel (c : ascii) : bool :=
  existsb (Ascii.eqb c) ["a"; "e"; "i"; "o"; "u"; "y"]%char.

Definition consonant_y (word : string) : bool :=
  match String.get (String.length word - 2) word,
        String.get (String.length word - 1) word with
  | Some before, Some last =>
      (2 <=? String.length word)%nat && Ascii.eqb last "y" && negb (vowel before)
  | _, _ => false
  end.

(** Modelled from the spec: the inflection package is not under src/.  The
    spec has [pluralize] turn ["user"] into ["users"] and ["account"] into
    ["accounts"]; these are the regular English rules. *)
Definition plural (word : string) : string :=
  if JsString.endsWith word "x" || JsString.endsWith word "ch"
     || JsString.endsWith word "ss" || JsString.endsWith word "sh"
  then word +:+ "es"
  else if JsString.endsWith word "s" then word
  else if consonant_y word
  then substring 0 (String.length word - 1) word +:+ "ies"
  else word +:+ "s".

Definition inflection : Inflection :=
  {| underscore := snake_case; pluralize := plural |}.

(** An object of the heap: its own properties and, for a model class, its
    attributes. *)
Record object : Type := {
  own : list (string * value);
  attributes : list string
}.

(** The world is the heap; [VRef r] is the object at index [r]. *)
Abbreviation world := (list object).

Definition plain (props : list (string * value)) : object :=
  {| own := props; attributes := [] |}.

Definition sequelize : value := VRef 0.
Definition STRING : value := VRef 2.
Definition INTEGER : value := VRef 3.
Definition findByEmail : value := VRef 6.
Definition greet : value := VRef 7.
Definition bunyan : value := VRef 8.

(** The ORM instance, its type namespace with two data types, what
    [a.model.js] and [b.model.js] export, two functions, a logger, and what
    [c.model.js] exports. *)
Definition start : world :=
  [ plain [("Sequelize", VRef 1)];
    plain [("STRING", STRING); ("INTEGER", INTEGER)];
    plain []; plain [];
    plain []; plain [];
    plain []; plain [];
    plain []; plain [] ].

Definition userDefinition : value :=
  VObj [("fields", VObj [("email", STRING)]);
        ("params", VObj [("noPrimaryKey", VBool true)]);
        ("classMethods", VObj [("findByEmail", findByEmail)]);
        ("instanceMethods", VObj [("greet", greet)])].

(** [b.model.js] needs the model of [a.model.js]: it returns nothing when
    the registry has no model [a]. *)
Definition bookDefinition (models : registry) : value :=
  match models !! "a" with
  | Some a =>
      VObj [("name", VStr "LibraryBook");
            ("fields", VObj [("owner", a)]);
            ("params", VObj [("tableName", VStr "library")])]
  | None => VUndefined
  end.

(** [c.model.js] names its model [a], as [a.model.js] does by its file
    name. *)
Definition shelfDefinition : value :=
  VObj [("name", VStr "a"); ("fields", VObj [("title", STRING)])].

(** Three directories: [models] with three model files and another file,
    [orphans] with [b.model.js] alone, [shelves] with [c.model.js] alone. *)
Definition demo_readdirSync (directory : string) (w : world)
  : outcome (list string) * world :=
  if String.eqb directory "models"
  then (Ok ["c.model.js"; "b.model.js"; "notes.txt"; "a.model.js"], w)
  else if String.eqb directory "orphans"
  then (Ok ["b.model.js"], w)
  else if String.eqb directory "shelves"
  then (Ok ["c.model.js"], w)
  else (Throw (Raised (VStr "ENOENT")), w).

Definition demo_require (directory modelFileName : string) (w : world)
  : outcome value * world :=
  if String.eqb modelFileName "a.model.js" then (Ok (VRef 4), w)
  else if String.eqb modelFileName "b.model.js" then (Ok (VRef 5), w)
  else if String.eqb modelFileName "c.model.js" then (Ok (VRef 9), w)
  else (Throw (Raised (VStr "MODULE_NOT_FOUND")), w).

Definition demo_getProperty (o : value) (key : string) (w : world)
  : outcome value * world :=
  match o with
  | VRef r =>
      match w !! r with
      | Some obj => (Ok (default VUndefined (Js.lookup_prop key (own obj))), w)
      | None => (Throw TypeError, w)
      end
  | VUndefined | VNull => (Throw TypeError, w)
  | _ => (Ok (Js.get o key), w)
  end.

Definition demo_callModelFile (modelFile types : value) (models : registry)
    (ctx : value) (w : world) : outcome (value * registry) * world :=
  match modelFile with
  | VRef 4 => (Ok (userDefinition, models), w)
  | VRef 5 => (Ok (bookDefinition models, models), w)
  | VRef 9 => (Ok (shelfDefinition, models), w)
  | _ => (Throw TypeError, w)
  end.

(** A new model class starts with the primary key [id] and one attribute
    per field; its instance prototype is a new object too. *)
Definition demo_define (orm : value) (modelName : string) (fields params : value)
    (w : world) : outcome value * world :=
  let prototype := VRef (length w) in
  let model :=
    {| own := [("name", VStr modelName);
               ("tableName", Js.get params "tableName");
               ("prototype", prototype)];
       attributes := "id" :: map fst (Js.entries fields) |} in
  (Ok (VRef (S (length w))), w ++ [plain []; model]).

Definition demo_removeAttribute (model : value) (attribute : string) (w : world)
  : outcome unit * world :=
  match model with
  | VRef r =>
      match w !! r with
      | Some obj =>
          (Ok tt,
           <[r := {| own := own obj;
                     attributes :=
                       List.filter (fun a => negb (String.eqb a attribute))
                                   (attributes obj) |}]> w)
      | None => (Throw TypeError, w)
      end
  | _ => (Throw TypeError, w)
  end.

Definition demo_setProperty (o : value) (key : string) (v : value) (w : world)
  : outcome unit * world :=
  match o with
  | VRef r =>
      match w !! r with
      | Some obj =>
          (Ok tt,
           <[r := {| own := Js.assign_prop key v (own obj);
                     attributes := attributes obj |}]> w)
      | None => (Throw TypeError, w)
      end
  | _ => (Throw TypeError, w)
  end.

Definition demo_getTableName (model : value) (w : world)
  : outcome string * world :=
  match demo_getProperty model "tableName" w with
  | (Ok (VStr table), w') => (Ok table, w')
  | (Ok _, w') => (Throw TypeError, w')
  | (Throw e, w') => (Throw e, w')
  end.

Definition demo_loggerInfo (log fields : value) (message : string) (w : world)
  : outcome unit * world :=
  (Ok tt, w).

Definition env : Collaborators world :=
  {| readdirSync := demo_readdirSync;
     require := demo_require;
     getProperty := demo_getProperty;
     callModelFile := demo_callModelFile;
     define := demo_define;
     removeAttribute := demo_removeAttribute;
     setProperty := demo_setProperty;
     getTableName := demo_getTableName;
     loggerInfo := demo_loggerInfo |}.

(** [model] is an object of the heap and [a] is not among its attributes. *)
Definition lacks (w : world) (model : value) (a : string) : Prop :=
  match model with
  | VRef r =>
      match w !! r with
      | Some obj => a ∉ attributes obj
      | None => False
      end
  | _ => False
  end.

Definition options : Options :=
  {| schema := VStr "public"; logger := bunyan; context := VUndefined |}.

(** The loader on the directory [models], and on [orphans]. *)
Definition run : outcome registry * world * list event :=
  module_exports env inflection "models" sequelize options start.

Definition orphans : outcome registry * world * list event :=
  module_exports env inflection "orphans" sequelize options start.

(** The first copy of the loader on [models]. *)
Definition run_first : outcome registry * world * list event :=
  module_exports_first env inflection "models" sequelize options start.

(** The first copy of the loader on [shelves]. *)
Definition shelves_first : outcome registry * world * list event :=
  module_exports_first env inflection "shelves" sequelize options start.

(** One pass of the callback, on [a.model.js], from the start. *)
Definition pass : outcome registry * world * list event :=
  eachModelFile env inflection "models" sequelize options ∅ "a.model.js" start.

End Demo.

(** ** Further worlds

    The concrete world with another file system or other model files. *)

Module Odd.

(** A directory without model files. *)
Definition bare : Collaborators Demo.world :=
  {| readdirSync := fun _ w => (Ok ["notes.txt"; "model.js"; "a.model.json"], w);
     require := Demo.demo_require;
     getProperty := Demo.demo_getProperty;
     callModelFile := Demo.demo_callModelFile;
     define := Demo.demo_define;
     removeAttribute := Demo.demo_removeAttribute;
     setProperty := Demo.demo_setProperty;
     getTableName := Demo.demo_getTableName;
     loggerInfo := Demo.demo_loggerInfo |}.

(** A directory with one model file, which returns [true]. *)
Definition flag : Collaborators Demo.world :=
  {| readdirSync := fun _ w => (Ok ["flag.model.js"], w);
     require := fun _ _ w => (Ok (VRef 4), w);
     getProperty := Demo.demo_getProperty;
     callModelFile := fun _ _ models _ w => (Ok (VBool true, models), w);
     define := Demo.demo_define;
     removeAttribute := Demo.demo_removeAttribute;
     setProperty := Demo.demo_setProperty;
     getTableName := Demo.demo_getTableName;
     loggerInfo := Demo.demo_loggerInfo |}.

(** Options without logger and without schema. *)
Definition quiet : Options :=
  {| schema := VUndefined; logger := VUndefined; context := VStr "shop" |}.

Definition bare_run : outcome registry * Demo.world * list event :=
  module_exports bare Demo.inflection "models" Demo.sequelize Demo.options
    Demo.start.

Definition flag_run : outcome registry * Demo.world * list event :=
  module_exports flag Demo.inflection "models" Demo.sequelize Demo.options
    Demo.start.

Definition quiet_run : outcome registry * Demo.world * list event :=
  module_exports Demo.env Demo.inflection "models" Demo.sequelize quiet
    Demo.start.

Definition nowhere : outcome registry * Demo.world * list event :=
  module_exports Demo.env Demo.inflection "nowhere" Demo.sequelize Demo.options
    Demo.start.

(** A directory with one model file, which puts an entry of its own into
    the registry it is given. *)
Definition helper : Collaborators Demo.world :=
  {| readdirSync := fun _ w => (Ok ["a.model.js"], w);
     require := Demo.demo_require;
     getProperty := Demo.demo_getProperty;
     callModelFile := fun _ _ models _ w =>
       (Ok (Demo.userDefinition, <["helpers" := VRef 3]> models), w);
     define := Demo.demo_define;
     removeAttribute := Demo.demo_removeAttribute;
     setProperty := Demo.demo_setProperty;
     getTableName := Demo.demo_getTableName;
     loggerInfo := Demo.demo_loggerInfo |}.

Definition helper_run : outcome registry * Demo.world * list event :=
  module_exports helper Demo.inflection "models" Demo.sequelize Demo.options
    Demo.start.



End Odd.

(** * Properties *)

(** ** Strings *)

Lemma split_free_of (sep : ascii) (s : string) :
  JsString.free_of sep s = true -> JsString.split sep s = [s].
Proof.
  induction s as [|c rest IH]; simpl; [reflexivity|].
  destruct (Ascii.eqb c sep); simpl; [discriminate|].
  intros Hfree. rewrite (IH Hfree). reflexivity.
Qed.

Lemma split_append_sep (sep : ascii) (s rest : string) :
  JsString.free_of sep s = true ->
  JsString.split sep (s +:+ String sep rest) = s :: JsString.split sep rest.
Proof.
  induction s as [|c s' IH]; simpl.
  - intros _. rewrite Ascii.eqb_refl. reflexivity.
  - destruct (Ascii.eqb c sep); simpl; [discriminate|].
    intros Hfree. rewrite (IH Hfree). reflexivity.
Qed.

(** Splitting what was joined gives the pieces back, when no piece holds the
    separator.  (No pieces at all join to the empty string, which splits
    into one empty piece.) *)
Lemma split_join (sep : ascii) (pieces : list string) :
  pieces <> [] ->
  Forall (fun piece => JsString.free_of sep piece = true) pieces ->
  JsString.split sep (JsString.join (String sep EmptyString) pieces) = pieces.
Proof.
  intros Hne Hfree. induction Hfree as [|piece rest Hpiece Hrest IH];
    [congruence|].
  destruct rest as [|piece' rest'].
  - simpl. apply split_free_of, Hpiece.
  - change (JsString.join (String sep EmptyString) (piece :: piece' :: rest'))
      with (piece +:+ String sep
              (JsString.join (String sep EmptyString) (piece' :: rest'))).
    rewrite (split_append_sep _ _ _ Hpiece), IH; [reflexivity|discriminate].
Qed.

Lemma substring_all (s : string) : substring 0 (String.length s) s = s.
Proof.
  induction s as [|c rest IH]; simpl; [reflexivity|]. rewrite IH. reflexivity.
Qed.

Lemma substring_split (s : string) (n : nat) :
  n <= String.length s ->
  substring 0 n s +:+ substring n (String.length s - n) s = s.
Proof.
  revert n. induction s as [|c rest IH]; intros [|n] Hn.
  - reflexivity.
  - simpl in Hn. lia.
  - rewrite Nat.sub_0_r, substring_all. reflexivity.
  - simpl in Hn.
    change (String c (substring 0 n rest
                      +:+ substring n (String.length rest - n) rest)
            = String c rest).
    rewrite IH by lia. reflexivity.
Qed.

(** A name that ends with a suffix is what is before the suffix, then the
    suffix. *)
Lemma endsWith_strip (s suffix : string) :
  JsString.endsWith s suffix = true ->
  substring 0 (String.length s - String.length suffix) s +:+ suffix = s.
Proof.
  unfold JsString.endsWith. intros H.
  apply andb_true_iff in H as [Hlen Heq].
  apply Nat.leb_le in Hlen. apply String.eqb_eq in Heq.
  pose proof (substring_split s (String.length s - String.length suffix))
    as Hsplit.
  replace (String.length s - (String.length s - String.length suffix))
    with (String.length suffix) in Hsplit by lia.
  rewrite Heq in Hsplit. apply Hsplit. lia.
Qed.

Lemma take_component_free (l : list ascii) :
  forallb (fun c => negb (Ascii.eqb c "/")) l = true ->
  Path.take_component l = l.
Proof.
  induction l as [|c l IH]; simpl; [reflexivity|].
  destruct (Ascii.eqb c "/"); simpl; [discriminate|].
  intros H. rewrite (IH H). reflexivity.
Qed.

Lemma drop_slashes_free (l : list ascii) :
  forallb (fun c => negb (Ascii.eqb c "/")) l = true ->
  Path.drop_slashes l = l.
Proof.
  destruct l as [|c l]; simpl; [reflexivity|].
  destruct (Ascii.eqb c "/"); simpl; [discriminate|reflexivity].
Qed.

Lemma free_of_forallb (sep : ascii) (s : string) :
  JsString.free_of sep s
  = forallb (fun c => negb (Ascii.eqb c sep)) (list_ascii_of_string s).
Proof.
  induction s as [|c rest IH]; simpl; [reflexivity|]. rewrite IH. reflexivity.
Qed.

(** A name without separator is its own last component. *)
Lemma last_component_free (name : string) :
  JsString.free_of "/" name = true -> Path.last_component name = name.
Proof.
  intros Hfree. unfold Path.last_component.
  rewrite free_of_forallb in Hfree.
  assert (Hrev : forallb (fun c => negb (Ascii.eqb c "/"))
                   (rev (list_ascii_of_string name)) = true).
  { apply forallb_forall. intros c Hc. apply in_rev in Hc.
    revert c Hc. apply forallb_forall. exact Hfree. }
  rewrite (drop_slashes_free _ Hrev), (take_component_free _ Hrev).
  rewrite rev_involutive. apply string_of_list_ascii_of_string.
Qed.

(** ** C1: the default table name *)

(** C1.  For every model name the default table name is the underscored
    name, split on ["_"], each segment pluralized on its own, joined with
    ["_"] again: when the underscored name is the segments [s1 ... sn]
    joined with ["_"], the table name is [pluralize s1 ... pluralize sn]
    joined with ["_"].  In particular ["UserAccount"], which underscores to
    ["user_account"], gives ["users_accounts"] when ["user"] and ["account"]
    pluralize to ["users"] and ["accounts"]. *)
Theorem defaultTableName_pluralizes_segments (inflection : Inflection) :
  (forall (modelName : string) (segments : list string),
      segments <> [] ->
      Forall (fun segment => JsString.free_of "_" segment = true) segments ->
      underscore inflection modelName = JsString.join "_" segments ->
      defaultTableName inflection modelName
      = JsString.join "_" (map (pluralize inflection) segments))
  /\ (underscore inflection "UserAccount" = "user_account" ->
      pluralize inflection "user" = "users" ->
      pluralize inflection "account" = "accounts" ->
      defaultTableName inflection "UserAccount" = "users_accounts").
Proof.
  assert (Hgeneral :
    forall (modelName : string) (segments : list string),
      segments <> [] ->
      Forall (fun segment => JsString.free_of "_" segment = true) segments ->
      underscore inflection modelName = JsString.join "_" segments ->
      defaultTableName inflection modelName
      = JsString.join "_" (map (pluralize inflection) segments)).
  { intros modelName segments Hne Hfree Hunder. unfold defaultTableName.
    rewrite Hunder, (split_join "_" segments Hne Hfree). reflexivity. }
  split; [exact Hgeneral|].
  intros Hunder Huser Haccount.
  rewrite (Hgeneral "UserAccount" ["user"; "account"]).
  - simpl. rewrite Huser, Haccount. reflexivity.
  - discriminate.
  - repeat constructor.
  - exact Hunder.
Qed.

Lemma defaultTableName_pluralizes_segments_witness :
  defaultTableName Demo.inflection "UserAccount"
  = JsString.join "_" (map (pluralize Demo.inflection) ["user"; "account"])
  /\ defaultTableName Demo.inflection "UserAccount" = "users_accounts".
Proof.
  split.
  - apply (proj1 (defaultTableName_pluralizes_segments Demo.inflection)
             "UserAccount" ["user"; "account"]).
    + discriminate.
    + repeat constructor.
    + reflexivity.
  - apply (proj2 (defaultTableName_pluralizes_segments Demo.inflection));
      reflexivity.
Defined.

(** ** Objects *)

Lemma lookup_assign_prop (key key' : string) (v : value)
    (props : list (string * value)) :
  Js.lookup_prop key' (Js.assign_prop key v props)
  = if String.eqb key' key then Some v else Js.lookup_prop key' props.
Proof.
  induction props as [|[k x] rest IH]; simpl.
  - destruct (String.eqb key' key); reflexivity.
  - destruct (String.eqb_spec key k) as [->|Hne]; simpl.
    + destruct (String.eqb key' k); reflexivity.
    + rewrite IH. destruct (String.eqb_spec key' k) as [->|Hne'];
        [|reflexivity].
      destruct (String.eqb_spec k key); [congruence|reflexivity].
Qed.

Lemma get_set (object object' : value) (key key' : string) (v : value) :
  Js.set object key v = Ok object' ->
  Js.get object' key' = if String.eqb key' key then v else Js.get object key'.
Proof.
  destruct object; simpl; try discriminate.
  intros [= <-]. simpl. rewrite lookup_assign_prop.
  destruct (String.eqb key' key); reflexivity.
Qed.

Lemma set_object (props : list (string * value)) (key : string) (v : value) :
  Js.set (VObj props) key v = Ok (VObj (Js.assign_prop key v props)).
Proof. reflexivity. Qed.

Lemma get_path_undefined (path : list string) :
  Js.get_path VUndefined path = VUndefined.
Proof. induction path as [|key rest IH]; simpl; [reflexivity|exact IH]. Qed.

(** Induction on values that reaches into the properties of an object. *)
Lemma value_nested_ind (P : value -> Prop)
    (Hundefined : P VUndefined) (Hnull : P VNull)
    (Hbool : forall b, P (VBool b)) (Hnum : forall n, P (VNum n))
    (Hstr : forall s, P (VStr s)) (Href : forall r, P (VRef r))
    (Hobj : forall props, Forall (fun kv => P (snd kv)) props -> P (VObj props)) :
  forall v, P v.
Proof.
  fix IH 1. intros [| | b | n | s | r | props].
  - exact Hundefined.
  - exact Hnull.
  - apply Hbool.
  - apply Hnum.
  - apply Hstr.
  - apply Href.
  - apply Hobj. induction props as [|kv rest IHrest]; constructor.
    + apply IH.
    + exact IHrest.
Qed.

(** ** The model of lodash.defaultsdeep *)

(** Merging defaults, whatever they are, leaves every settled value of the
    object where it is, at any depth. *)
Lemma mergeDefault_keeps_settled (merge : value -> value -> value)
    (k : string) (srcValue : value) (props : list (string * value))
    (key : string) (rest : list string) :
  (forall object path,
      settled (Js.get_path object path) ->
      Js.get_path (merge object srcValue) path = Js.get_path object path) ->
  settled (Js.get_path (VObj props) (key :: rest)) ->
  Js.get_path (VObj (mergeDefault merge k srcValue props)) (key :: rest)
  = Js.get_path (VObj props) (key :: rest).
Proof.
  intros Hmerge Hsettled. unfold mergeDefault. simpl in *.
  assert (Hfill : Js.lookup_prop k props = None
                  \/ Js.lookup_prop k props = Some VUndefined ->
    Js.get_path
      (default VUndefined (Js.lookup_prop key (Js.assign_prop k srcValue props)))
      rest
    = Js.get_path (default VUndefined (Js.lookup_prop key props)) rest).
  { intros Hk. rewrite lookup_assign_prop.
    destruct (String.eqb_spec key k) as [->|Hne]; [|reflexivity].
    exfalso. destruct Hk as [Hk|Hk]; rewrite Hk in Hsettled;
      simpl in Hsettled; rewrite get_path_undefined in Hsettled;
      exact Hsettled. }
  destruct (Js.lookup_prop k props) as [objValue|] eqn:Hk; [|auto].
  assert (Hboth :
    Js.get_path
      (default VUndefined
         (Js.lookup_prop key
            (if Js.isObject objValue && Js.isObject srcValue
             then Js.assign_prop k (merge objValue srcValue) props
             else props))) rest
    = Js.get_path (default VUndefined (Js.lookup_prop key props)) rest).
  { destruct (Js.isObject objValue && Js.isObject srcValue); [|reflexivity].
    rewrite lookup_assign_prop.
    destruct (String.eqb_spec key k) as [->|Hne]; [|reflexivity].
    rewrite Hk in *. simpl in *. apply Hmerge, Hsettled. }
  destruct objValue; auto.
Qed.

Lemma defaultsDeep_keeps_settled (source object : value) (path : list string) :
  settled (Js.get_path object path) ->
  Js.get_path (defaultsDeep object source) path = Js.get_path object path.
Proof.
  revert object path.
  induction source as [| | | | | |defaults IH] using value_nested_ind;
    intros object path Hsettled;
    try (destruct object; reflexivity).
  destruct object as [| | | | | |props]; try reflexivity.
  destruct path as [|key rest]; [contradiction|].
  cbn [defaultsDeep]. revert props Hsettled.
  induction IH as [|[k srcValue] defaults' Hsrc _ IHdefaults];
    intros props Hsettled; [reflexivity|].
  cbn [mergeDefaults].
  pose proof (mergeDefault_keeps_settled defaultsDeep k srcValue props key rest
                Hsrc Hsettled) as Hstep.
  rewrite IHdefaults; [exact Hstep|]. rewrite Hstep. exact Hsettled.
Qed.

(** ** C3: the default parameters *)

Lemma mergeDefault_tableName (tableName : string)
    (props : list (string * value)) (path : list string) :
  path <> [] ->
  Js.get_path (VObj props) path <> VUndefined ->
  Js.get_path
    (VObj (mergeDefault defaultsDeep "tableName" (VStr tableName) props)) path
  = Js.get_path (VObj props) path.
Proof.
  destruct path as [|key rest]; [congruence|]. intros _ Hdefined.
  unfold mergeDefault. simpl in *.
  assert (Hfill : Js.lookup_prop "tableName" props = None
                  \/ Js.lookup_prop "tableName" props = Some VUndefined ->
    Js.get_path
      (default VUndefined
         (Js.lookup_prop key
            (Js.assign_prop "tableName" (VStr tableName) props))) rest
    = Js.get_path (default VUndefined (Js.lookup_prop key props)) rest).
  { intros Hk. rewrite lookup_assign_prop.
    destruct (String.eqb_spec key "tableName") as [->|Hne]; [|reflexivity].
    exfalso. apply Hdefined.
    destruct Hk as [Hk|Hk]; rewrite Hk; simpl; apply get_path_undefined. }
  destruct (Js.lookup_prop "tableName" props) as [objValue|] eqn:Hk; [|auto].
  destruct objValue; auto.
Qed.

(** With a parameters object, [setupDefinition] merges the default table
    name into it. *)
Lemma setupDefinition_merges (inflection : Inflection)
    (dprops props : list (string * value)) (name : string) :
  Js.get (VObj dprops) "params" = VObj props ->
  setupDefinition inflection (VObj dprops) (VStr name)
  = Ok (VObj (Js.assign_prop "params"
                (VObj (mergeDefault defaultsDeep "tableName"
                         (VStr (defaultTableName inflection name)) props))
                dprops)).
Proof.
  intros Hparams. unfold setupDefinition. rewrite Hparams. reflexivity.
Qed.

(** Without one, it assigns a new object with the default table name. *)
Lemma setupDefinition_fresh (inflection : Inflection)
    (dprops : list (string * value)) (name : string) :
  Js.truthy (Js.get (VObj dprops) "params") = false ->
  setupDefinition inflection (VObj dprops) (VStr name)
  = Ok (VObj (Js.assign_prop "params"
                (VObj [("tableName", VStr (defaultTableName inflection name))])
                dprops)).
Proof.
  intros Hparams. unfold setupDefinition. rewrite Hparams. reflexivity.
Qed.

(** [setupDefinition] changes nothing but [params], and in [params] nothing
    but [tableName]. *)
Lemma setupDefinition_frame (inflection : Inflection)
    (definition modelName definition' : value) :
  setupDefinition inflection definition modelName = Ok definition' ->
  (forall key, key <> "params" ->
               Js.get definition' key = Js.get definition key)
  /\ (forall key, key <> "tableName" ->
                  Js.get (Js.get definition' "params") key
                  = Js.get (Js.get definition "params") key).
Proof.
  unfold setupDefinition. destruct modelName; try discriminate.
  intros Hsetup. split.
  - intros key Hkey.
    destruct (negb (Js.truthy (Js.get definition "params")));
      rewrite (get_set _ _ _ key _ Hsetup);
      destruct (String.eqb_spec key "params"); congruence.
  - intros key Hkey.
    destruct (negb (Js.truthy (Js.get definition "params"))) eqn:Hfalsy;
      rewrite (get_set _ _ _ "params" _ Hsetup); simpl.
    + destruct (String.eqb_spec key "tableName"); [congruence|].
      destruct (Js.get definition "params"); try reflexivity; discriminate.
    + destruct (Js.get definition "params") as [| | | | | |props];
        try reflexivity.
      simpl. unfold mergeDefault.
      assert (Hassign : forall v,
        default VUndefined
          (Js.lookup_prop key (Js.assign_prop "tableName" v props))
        = default VUndefined (Js.lookup_prop key props)).
      { intros v. rewrite lookup_assign_prop.
        destruct (String.eqb_spec key "tableName"); congruence. }
      destruct (Js.lookup_prop "tableName" props) as [objValue|]; [|auto].
      destruct objValue; auto.
Qed.

(** C3.  For a definition with a parameters object, [setupDefinition]
    succeeds, leaves the other fields of the definition alone, and leaves
    every value the parameters hold where it is, at any depth (a property is
    set when it resolves to something other than [undefined]); in
    particular parameters [{tableName: "custom"}] keep ["custom"].  For a
    definition without parameters (none, or a falsy value), it assigns a
    new object that holds the default table name and nothing else. *)
Theorem setupDefinition_never_overwrites (inflection : Inflection)
    (dprops : list (string * value)) (modelName : string) :
  (forall props,
      Js.get (VObj dprops) "params" = VObj props ->
      exists definition',
        setupDefinition inflection (VObj dprops) (VStr modelName)
        = Ok definition'
        /\ (forall key, key <> "params" ->
                        Js.get definition' key = Js.get (VObj dprops) key)
        /\ (forall path,
               path <> [] ->
               Js.get_path (VObj props) path <> VUndefined ->
               Js.get_path (Js.get definition' "params") path
               = Js.get_path (VObj props) path))
  /\ (Js.get (VObj dprops) "params" = VObj [("tableName", VStr "custom")] ->
      exists definition',
        setupDefinition inflection (VObj dprops) (VStr modelName)
        = Ok definition'
        /\ Js.get (Js.get definition' "params") "tableName" = VStr "custom")
  /\ (Js.truthy (Js.get (VObj dprops) "params") = false ->
      exists definition',
        setupDefinition inflection (VObj dprops) (VStr modelName)
        = Ok definition'
        /\ Js.get definition' "params"
           = VObj [("tableName",
                    VStr (defaultTableName inflection modelName))]).
Proof.
  assert (Hkeeps : forall props,
      Js.get (VObj dprops) "params" = VObj props ->
      exists definition',
        setupDefinition inflection (VObj dprops) (VStr modelName)
        = Ok definition'
        /\ (forall key, key <> "params" ->
                        Js.get definition' key = Js.get (VObj dprops) key)
        /\ (forall path,
               path <> [] ->
               Js.get_path (VObj props) path <> VUndefined ->
               Js.get_path (Js.get definition' "params") path
               = Js.get_path (VObj props) path)).
  { intros props Hparams.
    pose proof (setupDefinition_merges inflection dprops props modelName
                  Hparams) as Hsetup.
    eexists. split; [exact Hsetup|]. split.
    - apply (setupDefinition_frame _ _ _ _ Hsetup).
    - intros path Hpath Hdefined.
      rewrite (get_set _ _ _ "params" _ (set_object dprops "params" _)).
      simpl. apply mergeDefault_tableName; assumption. }
  split; [exact Hkeeps|]. split.
  - intros Hparams. destruct (Hkeeps _ Hparams) as (d' & Hsetup & _ & Hpaths).
    exists d'. split; [exact Hsetup|].
    apply (Hpaths ["tableName"]); discriminate.
  - intros Hfalsy. eexists. split.
    + apply setupDefinition_fresh, Hfalsy.
    + rewrite (get_set _ _ _ "params" _ (set_object dprops "params" _)).
      reflexivity.
Qed.

Lemma setupDefinition_never_overwrites_witness :
  (exists definition',
      setupDefinition Demo.inflection
        (VObj [("params", VObj [("tableName", VStr "custom")])])
        (VStr "UserAccount") = Ok definition'
      /\ Js.get (Js.get definition' "params") "tableName" = VStr "custom")
  /\ (exists definition',
         setupDefinition Demo.inflection (VObj [("fields", VObj [])])
           (VStr "UserAccount") = Ok definition'
         /\ Js.get definition' "params"
            = VObj [("tableName",
                     VStr (defaultTableName Demo.inflection "UserAccount"))]).
Proof.
  split.
  - apply (proj1 (proj2 (setupDefinition_never_overwrites Demo.inflection
                           [("params", VObj [("tableName", VStr "custom")])]
                           "UserAccount"))).
    reflexivity.
  - apply (proj2 (proj2 (setupDefinition_never_overwrites Demo.inflection
                           [("fields", VObj [])] "UserAccount"))).
    reflexivity.
Defined.

(** ** C4: the schema option *)

(** What the schema of the parameters is after lines 124-125, from what it
    was before. *)
Lemma applySchemaOption_schema (options : Options) (definition definition' : value) :
  applySchemaOption options definition = Ok definition' ->
  Js.get (Js.get definition' "params") "schema"
  = if Js.truthy (Js.get (Js.get definition "params") "schema")
    then Js.get (Js.get definition "params") "schema"
    else if Js.truthy (schema options) then schema options
         else Js.get (Js.get definition "params") "schema".
Proof.
  unfold applySchemaOption.
  destruct (Js.truthy (Js.get (Js.get definition "params") "schema"));
    simpl; [intros [= <-]; reflexivity|].
  destruct (Js.truthy (schema options)); [|intros [= <-]; reflexivity].
  destruct (Js.set (Js.get definition "params") "schema" (schema options))
    as [params'|e] eqn:Hparams; [|discriminate].
  intros Hset.
  rewrite (get_set _ _ _ "params" _ Hset). simpl.
  rewrite (get_set _ _ _ "schema" _ Hparams). reflexivity.
Qed.

Lemma prepareDefinition_inv (inflection : Inflection) (options : Options)
    (definition : value) (modelFileName name : string) (definition' : value) :
  prepareDefinition inflection options definition modelFileName
  = Ok (name, definition') ->
  exists definition1,
    nameForDefinition definition modelFileName = Ok (VStr name)
    /\ setupDefinition inflection definition (VStr name) = Ok definition1
    /\ applySchemaOption options definition1 = Ok definition'.
Proof.
  unfold prepareDefinition, obind.
  destruct (nameForDefinition definition modelFileName) as [modelName|];
    [|discriminate].
  destruct (setupDefinition inflection definition modelName)
    as [definition1|] eqn:Hsetup; [|discriminate].
  destruct (applySchemaOption options definition1) as [definition2|] eqn:Happly;
    [|discriminate].
  destruct modelName; try discriminate.
  intros [= <- <-]. eauto.
Qed.

(** C4 as stated fails: it is not so that whatever value other
    than [undefined] a definition gives its schema is kept.  The definition
    sets [schema] to the empty string, the loader is given
    [schema: "public"], and the parameters end up with ["public"]. *)
Lemma schema_option_replaces_falsy_schema :
  ~ (forall (inflection : Inflection) (options : Options)
            (definition : value) (modelFileName name : string)
            (definition' : value),
        Js.get (Js.get definition "params") "schema" <> VUndefined ->
        prepareDefinition inflection options definition modelFileName
        = Ok (name, definition') ->
        Js.get (Js.get definition' "params") "schema"
        = Js.get (Js.get definition "params") "schema").
Proof.
  intros Hclaim.
  specialize (Hclaim Demo.inflection
    {| schema := VStr "public"; logger := VUndefined; context := VUndefined |}
    (VObj [("params", VObj [("schema", VStr EmptyString)])]) "a.model.js" "a" _
    ltac:(discriminate) eq_refl).
  discriminate Hclaim.
Qed.

(** C4, amended.  Whenever the definition is prepared without a throw, the
    schema of its parameters is: the schema the definition gave when that
    is truthy; otherwise the schema option of the loader when that is
    truthy; otherwise what the definition gave.  So the option never
    replaces a truthy schema, and a schema that is missing or falsy
    ([undefined], [null], [false], [0], the empty string) gives way to the
    option.  A definition with a parameters object, or with none, and a
    name that is a string is prepared without a throw. *)
Theorem schema_option_is_a_fallback (inflection : Inflection)
    (options : Options) (definition : value) (modelFileName : string) :
  (forall name definition',
      prepareDefinition inflection options definition modelFileName
      = Ok (name, definition') ->
      Js.get (Js.get definition' "params") "schema"
      = if Js.truthy (Js.get (Js.get definition "params") "schema")
        then Js.get (Js.get definition "params") "schema"
        else if Js.truthy (schema options) then schema options
             else Js.get (Js.get definition "params") "schema")
  /\ (forall dprops name,
         definition = VObj dprops ->
         nameForDefinition definition modelFileName = Ok (VStr name) ->
         (Js.truthy (Js.get definition "params") = false
          \/ exists props, Js.get definition "params" = VObj props) ->
         exists definition',
           prepareDefinition inflection options definition modelFileName
           = Ok (name, definition')).
Proof.
  split.
  - intros name definition' Hprepare.
    apply prepareDefinition_inv in Hprepare
      as (definition1 & _ & Hsetup & Happly).
    rewrite (applySchemaOption_schema _ _ _ Happly).
    destruct (setupDefinition_frame _ _ _ _ Hsetup) as [_ Hparams].
    rewrite (Hparams "schema") by discriminate. reflexivity.
  - intros dprops name -> Hname Hparams.
    unfold prepareDefinition, obind. rewrite Hname.
    assert (Hsetup : exists dprops1 props1,
      setupDefinition inflection (VObj dprops) (VStr name) = Ok (VObj dprops1)
      /\ Js.get (VObj dprops1) "params" = VObj props1).
    { destruct Hparams as [Hfalsy|[props Hprops]].
      - rewrite (setupDefinition_fresh _ _ _ Hfalsy). do 2 eexists.
        split; [reflexivity|].
        rewrite (get_set _ _ _ "params" _ (set_object dprops "params" _)).
        reflexivity.
      - rewrite (setupDefinition_merges _ _ _ _ Hprops). do 2 eexists.
        split; [reflexivity|].
        rewrite (get_set _ _ _ "params" _ (set_object dprops "params" _)).
        reflexivity. }
    destruct Hsetup as (dprops1 & props1 & -> & Hparams1).
    unfold applySchemaOption. rewrite Hparams1.
    destruct (negb (Js.truthy (Js.get (VObj props1) "schema"))
              && Js.truthy (schema options)); simpl; eauto.
Qed.

Lemma schema_option_is_a_fallback_witness :
  (exists definition',
      prepareDefinition Demo.inflection Demo.options
        (VObj [("params", VObj [("schema", VStr "private")])]) "a.model.js"
      = Ok ("a", definition')
      /\ Js.get (Js.get definition' "params") "schema" = VStr "private")
  /\ (exists definition',
         prepareDefinition Demo.inflection Demo.options
           (VObj [("fields", VObj [])]) "a.model.js"
         = Ok ("a", definition')
         /\ Js.get (Js.get definition' "params") "schema" = VStr "public").
Proof.
  split.
  - destruct (proj2 (schema_option_is_a_fallback Demo.inflection Demo.options
                       (VObj [("params", VObj [("schema", VStr "private")])])
                       "a.model.js")
                _ "a" eq_refl eq_refl (or_intror (ex_intro _ _ eq_refl)))
      as [definition' Hprepare].
    exists definition'. split; [exact Hprepare|].
    apply (proj1 (schema_option_is_a_fallback Demo.inflection Demo.options
                    _ _) _ _ Hprepare).
  - destruct (proj2 (schema_option_is_a_fallback Demo.inflection Demo.options
                       (VObj [("fields", VObj [])]) "a.model.js")
                _ "a" eq_refl eq_refl (or_introl eq_refl))
      as [definition' Hprepare].
    exists definition'. split; [exact Hprepare|].
    apply (proj1 (schema_option_is_a_fallback Demo.inflection Demo.options _ _)
             _ _ Hprepare).
Defined.

(** Without options nothing is added: the parameters of a definition that
    gives no schema have none. *)
Example no_options_no_schema :
  exists definition',
    prepareDefinition Demo.inflection no_options Demo.userDefinition
      "a.model.js" = Ok ("a", definition')
    /\ Js.get (Js.get definition' "params") "schema" = VUndefined
    /\ Js.get (Js.get definition' "params") "tableName" = VStr "as".
Proof. eexists. repeat split; reflexivity. Qed.

(** ** Running computations *)

Lemma bind_inv {W A B : Type} (m : M W A) (k : A -> M W B)
    (w w' : W) (r : outcome B) (t : list event) :
  bind m k w = (r, w', t) ->
  (exists e, m w = (Throw e, w', t) /\ r = Throw e)
  \/ (exists a w1 t1 t2,
         m w = (Ok a, w1, t1) /\ k a w1 = (r, w', t2) /\ t = t1 ++ t2).
Proof.
  unfold bind. destruct (m w) as [[[a|e] w1] t1].
  - destruct (k a w1) as [[r2 w2] t2] eqn:Hk. intros [= <- <- <-].
    right. exists a, w1, t1, t2. auto.
  - intros [= <- <- <-]. left. eauto.
Qed.

Lemma bind_ok_inv {W A B : Type} (m : M W A) (k : A -> M W B)
    (w w' : W) (b : B) (t : list event) :
  bind m k w = (Ok b, w', t) ->
  exists a w1 t1 t2,
    m w = (Ok a, w1, t1) /\ k a w1 = (Ok b, w', t2) /\ t = t1 ++ t2.
Proof.
  intros H. apply bind_inv in H as [(e & _ & [=])|H]. exact H.
Qed.

Lemma call_inv {W A : Type} (op : W -> outcome A * W) (ev : outcome A -> event)
    (w w' : W) (r : outcome A) (t : list event) :
  call op ev w = (r, w', t) -> op w = (r, w') /\ t = [ev r].
Proof.
  unfold call. destruct (op w) as [r0 w0]. intros [= <- <- <-]. auto.
Qed.

Lemma lift_inv {W A : Type} (x r : outcome A) (w w' : W) (t : list event) :
  lift x w = (r, w', t) -> r = x /\ w' = w /\ t = [].
Proof. unfold lift. intros [= <- <- <-]. auto. Qed.

Lemma ret_inv {W A : Type} (a : A) (r : outcome A) (w w' : W) (t : list event) :
  ret a w = (r, w', t) -> r = Ok a /\ w' = w /\ t = [].
Proof. unfold ret. intros [= <- <- <-]. auto. Qed.

Lemma throw_inv {W A : Type} (e : exn) (r : outcome A) (w w' : W)
    (t : list event) :
  @throw W A e w = (r, w', t) -> r = Throw e /\ w' = w /\ t = [].
Proof. unfold throw. intros [= <- <- <-]. auto. Qed.

(** Take a run that ended well apart, one step at a time. *)
Ltac ok_step H :=
  let a := fresh "a" in
  let w := fresh "w" in
  let t1 := fresh "t" in
  let t2 := fresh "t" in
  let Hm := fresh "Hstep" in
  let Ht := fresh "Htrace" in
  apply bind_ok_inv in H as (a & w & t1 & t2 & Hm & H & Ht).

(** ** The loops over the methods *)

Section Runs.

Context {W : Type}.
Variable env : Collaborators W.
Variable inflection : Inflection.

Lemma classMethods_ok (model : value) (methods : list (string * value))
    (w w' : W) (u : unit) (t : list event) :
  forOf methods
    (fun '(methodName, methodFn) =>
       call (setProperty env model methodName methodFn)
            (ESetProperty model methodName methodFn)) w
  = (Ok u, w', t) ->
  t = classEvents model methods.
Proof.
  revert w t. induction methods as [|[methodName methodFn] rest IH];
    intros w t Hrun; simpl in Hrun.
  - apply ret_inv in Hrun as (_ & _ & ->). reflexivity.
  - ok_step Hrun. apply call_inv in Hstep as [_ ->]. subst t.
    destruct a. simpl. f_equal. eapply IH, Hrun.
Qed.

Lemma instanceMethods_ok (model : value) (methods : list (string * value))
    (w w' : W) (u : unit) (t : list event) :
  forOf methods
    (fun '(methodName, methodFn) =>
       let* prototype :=
         call (getProperty env model "prototype")
              (EGetProperty model "prototype") in
       call (setProperty env prototype methodName methodFn)
            (ESetProperty prototype methodName methodFn)) w
  = (Ok u, w', t) ->
  exists prototypes,
    length prototypes = length methods
    /\ t = instanceEvents model (zip methods prototypes).
Proof.
  revert w t. induction methods as [|[methodName methodFn] rest IH];
    intros w t Hrun; simpl in Hrun.
  - apply ret_inv in Hrun as (_ & _ & ->). exists []. auto.
  - ok_step Hrun. ok_step Hstep.
    apply call_inv in Hstep0 as [_ ->]. apply call_inv in Hstep as [_ ->].
    destruct (IH _ _ Hrun) as (prototypes & Hlen & ->).
    exists (a0 :: prototypes). split; [simpl; congruence|].
    subst. destruct a. reflexivity.
Qed.

End Runs.

(** ** One model file, when nothing throws *)

Section OneFile.

Context {W : Type}.
Variable env : Collaborators W.
Variable inflection : Inflection.
Variables (directory : string) (sequelize : value) (options : Options).

Lemma obtainDefinition_ok (models : registry) (modelFileName : string)
    (w w' : W) (definition : value) (models1 : registry) (t : list event) :
  obtainDefinition env directory sequelize options models modelFileName w
  = (Ok (definition, models1), w', t) ->
  Js.truthy definition = true
  /\ exists modelFile types,
       t = [ERequire directory modelFileName (Ok modelFile);
            EGetProperty sequelize "Sequelize" (Ok types);
            ECallModelFile modelFileName modelFile types models
              (context options) (Ok (definition, models1))].
Proof.
  unfold obtainDefinition. intros Hrun.
  ok_step Hrun. ok_step Hrun. ok_step Hrun.
  apply call_inv in Hstep as [_ ->]. apply call_inv in Hstep0 as [_ ->].
  apply call_inv in Hstep1 as [_ ->]. destruct a1 as [definition0 models0].
  destruct (Js.truthy definition0) eqn:Htruthy; simpl in Hrun.
  - apply ret_inv in Hrun as ([= -> ->] & _ & ->). subst.
    split; [exact Htruthy|]. eauto.
  - apply throw_inv in Hrun as ([=] & _).
Qed.

Lemma dropPrimaryKey_ok (definition model : value) (w w' : W) (u : unit)
    (t : list event) :
  dropPrimaryKey env definition model w = (Ok u, w', t) ->
  t = if Js.truthy (Js.get (Js.get definition "params") "noPrimaryKey")
      then [ERemoveAttribute model "id" (Ok tt)] else [].
Proof.
  unfold dropPrimaryKey.
  destruct (Js.truthy (Js.get (Js.get definition "params") "noPrimaryKey")).
  - intros Hrun. apply call_inv in Hrun as [_ ->]. destruct u. reflexivity.
  - intros Hrun. apply ret_inv in Hrun as (_ & _ & ->). reflexivity.
Qed.

Lemma attachMethods_ok (definition model : value) (w w' : W) (u : unit)
    (t : list event) :
  attachMethods env definition model w = (Ok u, w', t) ->
  exists prototypes,
    length prototypes
    = length (methodEntries (Js.get definition "instanceMethods"))
    /\ t = classEvents model (methodEntries (Js.get definition "classMethods"))
           ++ instanceEvents model
                (zip (methodEntries (Js.get definition "instanceMethods"))
                     prototypes).
Proof.
  unfold attachMethods. intros Hrun. ok_step Hrun.
  apply classMethods_ok in Hstep as ->.
  apply instanceMethods_ok in Hrun as (prototypes & Hlen & ->).
  subst. eauto.
Qed.

Lemma exposeDefinition_ok (modelName : string) (definition model : value)
    (w w' : W) (u : unit) (t : list event) :
  exposeDefinition env options modelName definition model w = (Ok u, w', t) ->
  exists table table',
    t = ESetProperty model "definition" definition (Ok tt)
        :: logEvents options modelName model table table'.
Proof.
  unfold exposeDefinition, logEvents. intros Hrun. ok_step Hrun.
  apply call_inv in Hstep as [_ ->]. destruct a. subst t.
  destruct (Js.truthy (logger options)).
  - ok_step Hrun. ok_step Hrun.
    apply call_inv in Hstep as [_ ->]. apply call_inv in Hstep0 as [_ ->].
    apply call_inv in Hrun as [_ ->]. destruct u. subst.
    exists a, a0. reflexivity.
  - apply ret_inv in Hrun as (_ & _ & ->). exists EmptyString, EmptyString. reflexivity.
Qed.

(** What one pass of the callback does when it ends well: the file is
    loaded and called, what it returns is truthy and is prepared into a name
    and a definition, the ORM defines the model, which goes into the
    registry the call left, under the name; then the removal of [id] when
    asked for, the methods, the definition, the log record. *)
Lemma eachModelFile_ok (models : registry) (modelFileName : string)
    (w w' : W) (models' : registry) (t : list event) :
  eachModelFile env inflection directory sequelize options models
    modelFileName w = (Ok models', w', t) ->
  exists modelFile types definition0 models1 modelName definition model
         prototypes table table',
    Js.truthy definition0 = true
    /\ prepareDefinition inflection options definition0 modelFileName
       = Ok (modelName, definition)
    /\ models' = <[modelName := model]> models1
    /\ length prototypes
       = length (methodEntries (Js.get definition "instanceMethods"))
    /\ t = passEvents directory sequelize options models modelFileName
              modelFile types definition0 models1 modelName definition model
              prototypes table table'.
Proof.
  unfold eachModelFile, passEvents. intros Hrun.
  ok_step Hrun. destruct a as [definition0 models1].
  apply obtainDefinition_ok in Hstep as (Htruthy & modelFile & types & ->).
  ok_step Hrun. destruct a as [modelName definition].
  apply lift_inv in Hstep as (Hprepare & -> & ->).
  ok_step Hrun. apply call_inv in Hstep as [_ ->].
  ok_step Hrun. apply dropPrimaryKey_ok in Hstep as ->.
  ok_step Hrun. apply attachMethods_ok in Hstep as (prototypes & Hlen & ->).
  ok_step Hrun. apply exposeDefinition_ok in Hstep as (table & table' & ->).
  apply ret_inv in Hrun as ([= ->] & _ & ->).
  exists modelFile, types, definition0, models1, modelName, definition, a,
    prototypes, table, table'.
  subst. rewrite app_nil_r, <- !app_assoc. auto.
Qed.

End OneFile.

(** ** One model file, whatever happens *)

Ltac any_step H :=
  let e := fresh "e" in
  let a := fresh "a" in
  let w := fresh "w" in
  let t1 := fresh "t" in
  let t2 := fresh "t" in
  let Hm := fresh "Hstep" in
  let Hr := fresh "Hr" in
  apply bind_inv in H
    as [(e & H & Hr)|(a & w & t1 & t2 & Hm & H & ->)];
  [first [discriminate Hr | injection Hr as -> | subst]|].

Lemma omap_silent {B : Type} (g : event -> option B) (t : list event) :
  (forall e, silent e = true -> g e = None) ->
  Forall (fun e => silent e = true) t ->
  omap g t = [].
Proof.
  intros Hg Ht. induction Ht as [|e t He _ IH]; [reflexivity|].
  simpl. rewrite (Hg e He). exact IH.
Qed.

Lemma requiredFiles_silent (t : list event) :
  Forall (fun e => silent e = true) t -> requiredFiles t = [].
Proof. apply omap_silent. intros [] ?; done. Qed.

Lemma invocations_silent (t : list event) :
  Forall (fun e => silent e = true) t -> invocations t = [].
Proof. apply omap_silent. intros [] ?; done. Qed.

Lemma registrations_silent (t : list event) :
  Forall (fun e => silent e = true) t -> registrations t = [].
Proof. apply omap_silent. intros [] ?; done. Qed.

Lemma definitions_silent (t : list event) :
  Forall (fun e => silent e = true) t -> definitions t = [].
Proof. apply omap_silent. intros [] ?; done. Qed.

Lemma resolvedNames_silent (t : list event) :
  Forall (fun e => silent e = true) t -> resolvedNames t = [].
Proof. apply omap_silent. intros [] ?; done. Qed.

Lemma requiredFiles_app (t1 t2 : list event) :
  requiredFiles (t1 ++ t2) = requiredFiles t1 ++ requiredFiles t2.
Proof. apply omap_app. Qed.

Lemma invocations_app (t1 t2 : list event) :
  invocations (t1 ++ t2) = invocations t1 ++ invocations t2.
Proof. apply omap_app. Qed.

Lemma registrations_app (t1 t2 : list event) :
  registrations (t1 ++ t2) = registrations t1 ++ registrations t2.
Proof. apply omap_app. Qed.

Lemma definitions_app (t1 t2 : list event) :
  definitions (t1 ++ t2) = definitions t1 ++ definitions t2.
Proof. apply omap_app. Qed.

Lemma resolvedNames_app (t1 t2 : list event) :
  resolvedNames (t1 ++ t2) = resolvedNames t1 ++ resolvedNames t2.
Proof. apply omap_app. Qed.

Lemma removals_app (t1 t2 : list event) :
  removals (t1 ++ t2) = removals t1 ++ removals t2.
Proof. apply omap_app. Qed.

Lemma propertyWrites_app (t1 t2 : list event) :
  propertyWrites (t1 ++ t2) = propertyWrites t1 ++ propertyWrites t2.
Proof. apply omap_app. Qed.

Section OneFileAny.

Context {W : Type}.
Variable env : Collaborators W.
Variable inflection : Inflection.
Variables (directory : string) (sequelize : value) (options : Options).

Lemma classMethods_silent (model : value) (methods : list (string * value))
    (w w' : W) (r : outcome unit) (t : list event) :
  forOf methods
    (fun '(methodName, methodFn) =>
       call (setProperty env model methodName methodFn)
            (ESetProperty model methodName methodFn)) w
  = (r, w', t) ->
  Forall (fun e => silent e = true) t.
Proof.
  revert w t. induction methods as [|[methodName methodFn] rest IH];
    intros w t Hrun; simpl in Hrun.
  - apply ret_inv in Hrun as (_ & _ & ->). constructor.
  - any_step Hrun.
    + apply call_inv in Hrun as [_ ->]. repeat constructor.
    + apply call_inv in Hstep as [_ ->]. constructor; [reflexivity|].
      eapply IH, Hrun.
Qed.

Lemma instanceMethods_silent (model : value) (methods : list (string * value))
    (w w' : W) (r : outcome unit) (t : list event) :
  forOf methods
    (fun '(methodName, methodFn) =>
       let* prototype :=
         call (getProperty env model "prototype")
              (EGetProperty model "prototype") in
       call (setProperty env prototype methodName methodFn)
            (ESetProperty prototype methodName methodFn)) w
  = (r, w', t) ->
  Forall (fun e => silent e = true) t.
Proof.
  revert w t. induction methods as [|[methodName methodFn] rest IH];
    intros w t Hrun; simpl in Hrun.
  - apply ret_inv in Hrun as (_ & _ & ->). constructor.
  - any_step Hrun.
    + any_step Hrun.
      * apply call_inv in Hrun as [_ ->]. repeat constructor.
      * apply call_inv in Hstep as [_ ->]. apply call_inv in Hrun as [_ ->].
        repeat constructor.
    + any_step Hstep.
      apply call_inv in Hstep0 as [_ ->]. apply call_inv in Hstep as [_ ->].
      simpl. repeat (constructor; [reflexivity|]). eapply IH, Hrun.
Qed.

Lemma dropPrimaryKey_silent (definition model : value) (w w' : W)
    (r : outcome unit) (t : list event) :
  dropPrimaryKey env definition model w = (r, w', t) ->
  Forall (fun e => silent e = true) t.
Proof.
  unfold dropPrimaryKey.
  destruct (Js.truthy (Js.get (Js.get definition "params") "noPrimaryKey"));
    intros Hrun.
  - apply call_inv in Hrun as [_ ->]. repeat constructor.
  - apply ret_inv in Hrun as (_ & _ & ->). constructor.
Qed.

Lemma attachMethods_silent (definition model : value) (w w' : W)
    (r : outcome unit) (t : list event) :
  attachMethods env definition model w = (r, w', t) ->
  Forall (fun e => silent e = true) t.
Proof.
  unfold attachMethods. intros Hrun. any_step Hrun.
  - eapply classMethods_silent, Hrun.
  - apply Forall_app. split.
    + eapply classMethods_silent, Hstep.
    + eapply instanceMethods_silent, Hrun.
Qed.

Lemma exposeDefinition_silent (modelName : string) (definition model : value)
    (w w' : W) (r : outcome unit) (t : list event) :
  exposeDefinition env options modelName definition model w = (r, w', t) ->
  Forall (fun e => silent e = true) t.
Proof.
  unfold exposeDefinition. intros Hrun. any_step Hrun.
  - apply call_inv in Hrun as [_ ->]. repeat constructor.
  - apply call_inv in Hstep as [_ ->]. constructor; [reflexivity|].
    destruct (Js.truthy (logger options)).
    + any_step Hrun.
      * apply call_inv in Hrun as [_ ->]. repeat constructor.
      * apply call_inv in Hstep as [_ ->]. constructor; [reflexivity|].
        any_step Hrun.
        -- apply call_inv in Hrun as [_ ->]. repeat constructor.
        -- apply call_inv in Hstep as [_ ->]. apply call_inv in Hrun as [_ ->].
           repeat constructor.
    + apply ret_inv in Hrun as (_ & _ & ->). constructor.
Qed.

Lemma afterDefine_silent (modelName : string) (definition model : value)
    (models : registry) (w w' : W) (r : outcome registry) (t : list event) :
  (let* _ := dropPrimaryKey env definition model in
   let* _ := attachMethods env definition model in
   let* _ := exposeDefinition env options modelName definition model in
   ret models) w = (r, w', t) ->
  Forall (fun e => silent e = true) t.
Proof.
  intros Hrun.
  any_step Hrun; [eapply dropPrimaryKey_silent; eassumption|].
  apply Forall_app. split; [eapply dropPrimaryKey_silent; eassumption|].
  any_step Hrun; [eapply attachMethods_silent; eassumption|].
  apply Forall_app. split; [eapply attachMethods_silent; eassumption|].
  any_step Hrun; [eapply exposeDefinition_silent; eassumption|].
  apply Forall_app. split; [eapply exposeDefinition_silent; eassumption|].
  apply ret_inv in Hrun as (_ & _ & ->). constructor.
Qed.

(** Loading and calling the file: the file is loaded, whatever the answer;
    when it is called, it is called with the registry as it is; and a falsy
    return value is the one case in which this part throws on its own. *)
Lemma obtainDefinition_any (models : registry) (modelFileName : string)
    (w w' : W) (r : outcome (value * registry)) (t : list event) :
  obtainDefinition env directory sequelize options models modelFileName w
  = (r, w', t) ->
  requiredFiles t = [modelFileName]
  /\ registrations t = []
  /\ ((invocations t = [] /\ exists e, r = Throw e)
      \/ exists answer,
           invocations t = [(modelFileName, models, answer)]
           /\ r = match answer with
                  | Ok (definition, models1) =>
                      if Js.truthy definition then Ok (definition, models1)
                      else Throw (Error ("Missing return value from model file, "
                                         +:+ modelFileName))
                  | Throw e => Throw e
                  end).
Proof.
  unfold obtainDefinition. intros Hrun. any_step Hrun.
  { apply call_inv in Hrun as [_ ->]. do 2 (split; [reflexivity|]).
    left. eauto. }
  apply call_inv in Hstep as [_ ->]. any_step Hrun.
  { apply call_inv in Hrun as [_ ->]. do 2 (split; [reflexivity|]).
    left. eauto. }
  apply call_inv in Hstep as [_ ->]. any_step Hrun.
  { apply call_inv in Hrun as [_ ->]. do 2 (split; [reflexivity|]).
    right. eauto. }
  apply call_inv in Hstep as [_ ->]. destruct a1 as [definition models1].
  destruct (Js.truthy definition) eqn:Htruthy; simpl in Hrun.
  - apply ret_inv in Hrun as (-> & _ & ->).
    do 2 (split; [reflexivity|]). right. eexists. split; [reflexivity|].
    simpl. rewrite Htruthy. reflexivity.
  - apply throw_inv in Hrun as (-> & _ & ->).
    do 2 (split; [reflexivity|]). right. eexists. split; [reflexivity|].
    simpl. rewrite Htruthy. reflexivity.
Qed.

Lemma eachModelFile_any (models : registry) (modelFileName : string)
    (w w' : W) (r : outcome registry) (t : list event) :
  eachModelFile env inflection directory sequelize options models
    modelFileName w = (r, w', t) ->
  requiredFiles t = [modelFileName]
  /\ (invocations t = []
      \/ exists answer, invocations t = [(modelFileName, models, answer)])
  /\ (forall file given definition models1,
         (file, given, Ok (definition, models1)) ∈ invocations t ->
         Js.truthy definition = false ->
         r = Throw (Error ("Missing return value from model file, " +:+ file))).
Proof.
  unfold eachModelFile. intros Hrun. any_step Hrun.
  { apply obtainDefinition_any in Hrun as (Hreq & _ & Hinv).
    split; [exact Hreq|]. destruct Hinv as [[Hinv _]|(answer & Hinv & Hr)].
    - rewrite Hinv. split; [auto|]. intros ? ? ? ? Hin.
      apply elem_of_nil in Hin as [].
    - rewrite Hinv. split; [eauto|]. intros file given definition models1 Hin.
      apply list_elem_of_singleton in Hin as [= -> -> <-].
      intros Hfalsy. rewrite Hfalsy in Hr. injection Hr as ->.
      reflexivity. }
  destruct a as [definition0 models1].
  apply obtainDefinition_any in Hstep as (Hreq & _ & Hinv).
  assert (Hhead : invocations t0
                  = [(modelFileName, models, Ok (definition0, models1))]
                  /\ Js.truthy definition0 = true).
  { destruct Hinv as [[_ [e [=]]]|(answer & Hinv & Hr)].
    destruct answer as [[definition models2]|e]; [|discriminate].
    destruct (Js.truthy definition) eqn:Htruthy; [|discriminate].
    injection Hr as -> ->. auto. }
  destruct Hhead as [Hhead Htruthy].
  assert (Hrest : requiredFiles t1 = [] /\ invocations t1 = []).
  { any_step Hrun.
    { apply lift_inv in Hrun as (_ & _ & ->). auto. }
    destruct a as [modelName definition].
    apply lift_inv in Hstep as (_ & -> & ->). simpl. any_step Hrun.
    { apply call_inv in Hrun as [_ ->]. auto. }
    apply call_inv in Hstep as [_ ->].
    apply afterDefine_silent in Hrun.
    rewrite requiredFiles_app, invocations_app.
    rewrite (requiredFiles_silent _ Hrun), (invocations_silent _ Hrun).
    auto. }
  destruct Hrest as (Hreq1 & Hinv1).
  rewrite requiredFiles_app, invocations_app.
  rewrite Hreq, Hreq1, Hhead, Hinv1. simpl.
  split; [reflexivity|]. split; [eauto|].
  intros file given definition models2 Hin.
  apply list_elem_of_singleton in Hin as [= -> -> <- <-]. congruence.
Qed.

End OneFileAny.

(** ** What the events of a pass amount to *)

Lemma classEvents_silent (model : value) (methods : list (string * value)) :
  Forall (fun e => silent e = true) (classEvents model methods).
Proof.
  induction methods as [|[methodName methodFn] rest IH]; constructor;
    [reflexivity|exact IH].
Qed.

Lemma instanceEvents_silent (model : value)
    (methods : list (string * value * value)) :
  Forall (fun e => silent e = true) (instanceEvents model methods).
Proof.
  induction methods as [|[[methodName methodFn] prototype] rest IH];
    simpl; repeat constructor. exact IH.
Qed.

Lemma logEvents_silent (options : Options) (modelName : string) (model : value)
    (table table' : string) :
  Forall (fun e => silent e = true)
         (logEvents options modelName model table table').
Proof.
  unfold logEvents. destruct (Js.truthy (logger options)); repeat constructor.
Qed.

Lemma classEvents_removals (model : value) (methods : list (string * value)) :
  removals (classEvents model methods) = [].
Proof.
  induction methods as [|[methodName methodFn] rest IH]; [reflexivity|exact IH].
Qed.

Lemma instanceEvents_removals (model : value)
    (methods : list (string * value * value)) :
  removals (instanceEvents model methods) = [].
Proof.
  induction methods as [|[[methodName methodFn] prototype] rest IH];
    [reflexivity|exact IH].
Qed.

Lemma logEvents_removals (options : Options) (modelName : string)
    (model : value) (table table' : string) :
  removals (logEvents options modelName model table table') = [].
Proof. unfold logEvents. destruct (Js.truthy (logger options)); reflexivity. Qed.

Lemma classEvents_writes (model : value) (methods : list (string * value)) :
  propertyWrites (classEvents model methods)
  = map (fun '(methodName, methodFn) => (model, methodName, methodFn)) methods.
Proof.
  induction methods as [|[methodName methodFn] rest IH]; [reflexivity|].
  simpl. f_equal. exact IH.
Qed.

Lemma instanceEvents_writes (model : value)
    (methods : list (string * value * value)) :
  propertyWrites (instanceEvents model methods)
  = map (fun '(methodName, methodFn, prototype) =>
           (prototype, methodName, methodFn)) methods.
Proof.
  induction methods as [|[[methodName methodFn] prototype] rest IH];
    [reflexivity|].
  simpl. f_equal. exact IH.
Qed.

Lemma logEvents_writes (options : Options) (modelName : string)
    (model : value) (table table' : string) :
  propertyWrites (logEvents options modelName model table table') = [].
Proof. unfold logEvents. destruct (Js.truthy (logger options)); reflexivity. Qed.

Lemma classEvents_reads (model : value) (methods : list (string * value)) :
  propertyReads (classEvents model methods) = [].
Proof.
  induction methods as [|[methodName methodFn] rest IH]; [reflexivity|exact IH].
Qed.

Lemma instanceEvents_reads (model : value)
    (methods : list (string * value * value)) :
  propertyReads (instanceEvents model methods)
  = map (fun '(_, _, prototype) => (model, "prototype", Ok prototype)) methods.
Proof.
  induction methods as [|[[methodName methodFn] prototype] rest IH];
    [reflexivity|].
  simpl. f_equal. exact IH.
Qed.

Lemma logEvents_reads (options : Options) (modelName : string)
    (model : value) (table table' : string) :
  propertyReads (logEvents options modelName model table table') = [].
Proof. unfold logEvents. destruct (Js.truthy (logger options)); reflexivity. Qed.

Lemma propertyReads_app (t1 t2 : list event) :
  propertyReads (t1 ++ t2) = propertyReads t1 ++ propertyReads t2.
Proof. apply omap_app. Qed.

(** Preparing a definition changes its [params] and nothing else. *)
Lemma prepareDefinition_frame (inflection : Inflection) (options : Options)
    (definition : value) (modelFileName name : string) (definition' : value) :
  prepareDefinition inflection options definition modelFileName
  = Ok (name, definition') ->
  forall key, key <> "params" -> Js.get definition' key = Js.get definition key.
Proof.
  intros Hprepare key Hkey.
  apply prepareDefinition_inv in Hprepare as (definition1 & _ & Hsetup & Happly).
  destruct (setupDefinition_frame _ _ _ _ Hsetup) as [Hframe _].
  rewrite <- (Hframe key Hkey). clear Hsetup Hframe.
  unfold applySchemaOption in Happly.
  destruct (negb (Js.truthy (Js.get (Js.get definition1 "params") "schema"))
            && Js.truthy (schema options)); [|congruence].
  destruct (Js.set (Js.get definition1 "params") "schema" (schema options));
    [|discriminate].
  rewrite (get_set _ _ _ key _ Happly).
  destruct (String.eqb_spec key "params"); congruence.
Qed.

(** What the events of a pass amount to. *)
Lemma passEvents_silent_tail (options : Options) (modelName : string)
    (definition model : value) (prototypes : list value)
    (table table' : string) :
  Forall (fun e => silent e = true)
    ((if Js.truthy (Js.get (Js.get definition "params") "noPrimaryKey")
      then [ERemoveAttribute model "id" (Ok tt)] else [])
     ++ classEvents model (methodEntries (Js.get definition "classMethods"))
     ++ instanceEvents model
          (zip (methodEntries (Js.get definition "instanceMethods")) prototypes)
     ++ ESetProperty model "definition" definition (Ok tt)
        :: logEvents options modelName model table table').
Proof.
  repeat (apply Forall_app; split).
  - destruct (Js.truthy (Js.get (Js.get definition "params") "noPrimaryKey"));
      repeat constructor.
  - apply classEvents_silent.
  - apply instanceEvents_silent.
  - constructor; [reflexivity|apply logEvents_silent].
Qed.

Lemma passEvents_projections (directory : string) (sequelize : value)
    (options : Options) (models : registry) (modelFileName : string)
    (modelFile types definition0 : value) (models1 : registry)
    (modelName : string) (definition model : value)
    (prototypes : list value) (table table' : string) :
  let t := passEvents directory sequelize options models modelFileName
             modelFile types definition0 models1 modelName definition model
             prototypes table table' in
  requiredFiles t = [modelFileName]
  /\ invocations t = [(modelFileName, models, Ok (definition0, models1))]
  /\ definitions t
     = [(modelName, Js.get definition "fields", Js.get definition "params")]
  /\ registrations t = [(modelName, model)]
  /\ removals t
     = (if Js.truthy (Js.get (Js.get definition "params") "noPrimaryKey")
        then [(model, "id")] else [])
  /\ propertyReads t
     = (sequelize, "Sequelize", Ok types)
       :: map (fun '(_, _, prototype) => (model, "prototype", Ok prototype))
              (zip (methodEntries (Js.get definition "instanceMethods"))
                   prototypes)
  /\ propertyWrites t
     = map (fun '(methodName, methodFn) => (model, methodName, methodFn))
           (methodEntries (Js.get definition "classMethods"))
       ++ map (fun '(methodName, methodFn, prototype) =>
                 (prototype, methodName, methodFn))
              (zip (methodEntries (Js.get definition "instanceMethods"))
                   prototypes)
       ++ [(model, "definition", definition)].
Proof.
  intros t. subst t. unfold passEvents.
  pose proof (passEvents_silent_tail options modelName definition model
                prototypes table table') as Htail.
  rewrite requiredFiles_app, invocations_app, definitions_app,
    registrations_app.
  rewrite (requiredFiles_silent _ Htail), (invocations_silent _ Htail),
    (definitions_silent _ Htail), (registrations_silent _ Htail).
  do 4 (split; [reflexivity|]).
  rewrite !removals_app, !propertyReads_app, !propertyWrites_app.
  rewrite classEvents_removals, instanceEvents_removals, classEvents_reads,
    instanceEvents_reads, classEvents_writes, instanceEvents_writes.
  change (removals (?e :: logEvents ?a ?b ?c ?d ?f))
    with (removals (logEvents a b c d f)).
  change (propertyReads (?e :: logEvents ?a ?b ?c ?d ?f))
    with (propertyReads (logEvents a b c d f)).
  change (propertyWrites (ESetProperty ?o ?k ?v ?r :: logEvents ?a ?b ?c ?d ?f))
    with ((o, k, v) :: propertyWrites (logEvents a b c d f)).
  rewrite logEvents_removals, logEvents_reads, logEvents_writes.
  destruct (Js.truthy (Js.get (Js.get definition "params") "noPrimaryKey"));
    simpl; rewrite !app_nil_r; auto.
Qed.

Lemma passEvents_resolvedNames (directory : string) (sequelize : value)
    (options : Options) (models : registry) (modelFileName : string)
    (modelFile types definition0 : value) (models1 : registry)
    (modelName : string) (definition model : value)
    (prototypes : list value) (table table' : string) :
  nameForDefinition definition0 modelFileName = Ok (VStr modelName) ->
  resolvedNames
    (passEvents directory sequelize options models modelFileName
       modelFile types definition0 models1 modelName definition model
       prototypes table table')
  = [modelName].
Proof.
  intros Hname. unfold passEvents.
  rewrite resolvedNames_app,
    (resolvedNames_silent _ (passEvents_silent_tail _ _ _ _ _ _ _)).
  simpl. rewrite Hname. reflexivity.
Qed.

Section OneFileSummary.

Context {W : Type}.
Variable env : Collaborators W.
Variable inflection : Inflection.
Variables (directory : string) (sequelize : value) (options : Options).

(** A pass that ends well, seen through the trace. *)
Lemma eachModelFile_registers (models : registry) (modelFileName : string)
    (w w' : W) (models' : registry) (t : list event) :
  eachModelFile env inflection directory sequelize options models
    modelFileName w = (Ok models', w', t) ->
  exists definition0 models1 modelName definition model,
    Js.truthy definition0 = true
    /\ prepareDefinition inflection options definition0 modelFileName
       = Ok (modelName, definition)
    /\ models' = <[modelName := model]> models1
    /\ requiredFiles t = [modelFileName]
    /\ invocations t = [(modelFileName, models, Ok (definition0, models1))]
    /\ definitions t
       = [(modelName, Js.get definition "fields", Js.get definition "params")]
    /\ registrations t = [(modelName, model)]
    /\ resolvedNames t = [modelName]
    /\ removals t
       = if Js.truthy (Js.get (Js.get definition "params") "noPrimaryKey")
         then [(model, "id")] else [].
Proof.
  intros Hrun.
  apply eachModelFile_ok in Hrun
    as (modelFile & types & definition0 & models1 & modelName & definition
        & model & prototypes & table & table' & Htruthy & Hprepare & Hmodels
        & _ & ->).
  exists definition0, models1, modelName, definition, model.
  destruct (passEvents_projections directory sequelize options models
              modelFileName modelFile types definition0 models1 modelName
              definition model prototypes table table')
    as (Hfiles & Hcalls & Hdefs & Hdefined & Hremovals & _).
  split; [exact Htruthy|]. split; [exact Hprepare|]. split; [exact Hmodels|].
  split; [exact Hfiles|]. split; [exact Hcalls|]. split; [exact Hdefs|].
  split; [exact Hdefined|]. split; [|exact Hremovals].
  apply prepareDefinition_inv in Hprepare as (_ & Hname & _).
  apply passEvents_resolvedNames, Hname.
Qed.

End OneFileSummary.

(** ** All the files *)




Section AllFiles.

Context {W : Type}.
Variable env : Collaborators W.
Variable inflection : Inflection.
Variables (directory : string) (sequelize : value) (options : Options).

(** The files are loaded in the order of the array, up to the first pass
    that throws. *)
Lemma forEach_requiredFiles (files : list string) (models : registry)
    (w w' : W) (r : outcome registry) (t : list event) :
  forEach files (eachModelFile env inflection directory sequelize options)
    models w = (r, w', t) ->
  requiredFiles t `prefix_of` files
  /\ (forall result, r = Ok result -> requiredFiles t = files).
Proof.
  revert models w t. induction files as [|file rest IH];
    intros models w t Hrun; simpl in Hrun.
  - apply ret_inv in Hrun as (_ & _ & ->). split; [apply prefix_nil|auto].
  - any_step Hrun.
    + apply eachModelFile_any in Hrun as (-> & _).
      split; [apply prefix_cons, prefix_nil|discriminate].
    + apply eachModelFile_any in Hstep as (Hfile & _).
      rewrite requiredFiles_app, Hfile.
      destruct (IH _ _ _ Hrun) as [Hprefix Hall]. split.
      * apply prefix_cons, Hprefix.
      * intros result Hr. simpl. f_equal. eapply Hall, Hr.
Qed.

(** Each file is called with the registry as the files before it left it. *)
Lemma forEach_accumulated (files : list string) (models : registry)
    (w w' : W) (r : outcome registry) (t : list event) :
  forEach files (eachModelFile env inflection directory sequelize options)
    models w = (r, w', t) ->
  accumulated models (invocations t) (registrations t).
Proof.
  revert models w t. induction files as [|file rest IH];
    intros models w t Hrun; simpl in Hrun.
  - apply ret_inv in Hrun as (_ & _ & ->). split; intros; discriminate.
  - any_step Hrun.
    + apply eachModelFile_any in Hrun as (_ & [->|[answer ->]] & _);
        split; intros; simplify_eq/=; reflexivity.
    + apply IH in Hrun as [Hfirst Hnext].
      apply eachModelFile_registers in Hstep
        as (definition0 & models1 & modelName & definition & model & _ & _
            & -> & _ & Hcalls & _ & Hdefined & _).
      rewrite invocations_app, registrations_app, Hcalls, Hdefined.
      split.
      * intros file0 given answer Hi. simpl in Hi. congruence.
      * intros [|i] file0 given answer file1 given1 answer1 Hi Hsucc;
          simpl in Hi, Hsucc.
        -- injection Hi as <- <- <-.
           exists definition0, models1, modelName, model.
           repeat split. eapply Hfirst, Hsucc.
        -- simpl. eapply Hnext; eassumption.
Qed.

(** A file that returns something falsy ends the run with the error that
    names it. *)
Lemma forEach_missing (files : list string) (models : registry)
    (w w' : W) (r : outcome registry) (t : list event) :
  forEach files (eachModelFile env inflection directory sequelize options)
    models w = (r, w', t) ->
  forall file given definition models1,
    (file, given, Ok (definition, models1)) ∈ invocations t ->
    Js.truthy definition = false ->
    r = Throw (Error ("Missing return value from model file, " +:+ file)).
Proof.
  revert models w t. induction files as [|file rest IH];
    intros models w t Hrun file0 given definition models1 Hin Hfalsy;
    simpl in Hrun.
  - apply ret_inv in Hrun as (_ & _ & ->). apply elem_of_nil in Hin as [].
  - any_step Hrun.
    + apply eachModelFile_any in Hrun as (_ & _ & Hmissing). eauto.
    + rewrite invocations_app in Hin. apply elem_of_app in Hin as [Hin|Hin].
      * apply eachModelFile_any in Hstep as (_ & _ & Hmissing).
        specialize (Hmissing _ _ _ _ Hin Hfalsy). discriminate.
      * eapply IH; eassumption.
Qed.


(** The exported function: the directory is read; when that throws the run
    throws; otherwise the model files of the listing are gone through,
    starting from an empty registry. *)
Lemma module_exports_inv (w w' : W) (r : outcome registry) (t : list event) :
  module_exports env inflection directory sequelize options w = (r, w', t) ->
  (exists e, readdirSync env directory w = (Throw e, w')
             /\ r = Throw e /\ t = [EReaddirSync directory (Throw e)])
  \/ (exists names w0 t',
         readdirSync env directory w = (Ok names, w0)
         /\ forEach (modelFilesOf names)
              (eachModelFile env inflection directory sequelize options)
              ∅ w0 = (r, w', t')
         /\ t = EReaddirSync directory (Ok names) :: t').
Proof.
  unfold module_exports, getModelFileNames. intros Hrun. any_step Hrun.
  - any_step Hrun.
    + apply call_inv in Hrun as [Hread ->]. left. eauto.
    + apply ret_inv in Hrun as ([=] & _).
  - any_step Hstep. apply call_inv in Hstep0 as [Hread ->].
    apply ret_inv in Hstep as ([= ->] & -> & ->).
    right. do 3 eexists. split; [exact Hread|]. split; [exact Hrun|].
    reflexivity.
Qed.

End AllFiles.

Section AllFilesOk.

Context {W : Type}.
Variable env : Collaborators W.
Variable inflection : Inflection.
Variables (directory : string) (sequelize : value) (options : Options).

(** In a run that ends well every file of the array is called, defined and
    registered, once, under the name it resolves to. *)
Lemma forEach_names (files : list string) (models : registry)
    (w w' : W) (result : registry) (t : list event) :
  forEach files (eachModelFile env inflection directory sequelize options)
    models w = (Ok result, w', t) ->
  map (fun c => c.1.1) (invocations t) = files
  /\ map (fun d => d.1.1) (definitions t) = resolvedNames t
  /\ map fst (registrations t) = resolvedNames t.
Proof.
  revert models w t. induction files as [|file rest IH];
    intros models w t Hrun; simpl in Hrun.
  - apply ret_inv in Hrun as (_ & _ & ->). auto.
  - ok_step Hrun. subst t.
    apply eachModelFile_registers in Hstep
      as (definition0 & models1 & modelName & definition & model & _ & _
          & _ & _ & Hcalls & Hdefs & Hdefined & Hnames & _).
    destruct (IH _ _ _ Hrun) as (Hfiles & Hdefs' & Hdefined').
    rewrite invocations_app, definitions_app, registrations_app,
      resolvedNames_app, Hcalls, Hdefs, Hdefined, Hnames.
    simpl. rewrite Hfiles, Hdefs', Hdefined'. auto.
Qed.

End AllFilesOk.

Lemma run_eta {A B C : Type} (x : A * B * C) : x = (x.1.1, x.1.2, x.2).
Proof. destruct x as [[a b] c]. reflexivity. Qed.

(** ** C2: which files, in which order, with which registry *)

(** The model files of a listing: sorted, and exactly the names of the
    listing that end with [.model.js]. *)
Lemma modelFilesOf_spec (names : list string) :
  Sorted String.le (modelFilesOf names)
  /\ modelFilesOf names
     ≡ₚ List.filter
          (fun name => JsString.endsWith name kModelFileNameSuffix) names
  /\ (forall file,
         file ∈ modelFilesOf names
         <-> file ∈ names /\ JsString.endsWith file ".model.js" = true).
Proof.
  unfold modelFilesOf, JsString.sort. split; [|split].
  - apply Sorted_merge_sort. apply _.
  - apply merge_sort_Permutation.
  - intros file. rewrite merge_sort_Permutation.
    rewrite !list_elem_of_In, filter_In. reflexivity.
Qed.

(** C2.  When the directory can be read, the files the loader goes through
    are the names of the listing that end with [.model.js], sorted code
    unit by code unit: the files loaded are a prefix of that array, in its
    order, and all of it when the run ends well, and then each of them is
    called.  The first file is called with the empty registry, and every
    further file with the registry the file before it left, in which the
    model defined for that file has been put under its name: so the model
    of the file before is there when the next file is called. *)
Theorem loader_goes_through_model_files_in_order {W : Type}
    (env : Collaborators W) (inflection : Inflection) (directory : string)
    (sequelize : value) (options : Options) (w w' w0 : W)
    (r : outcome registry) (t : list event) (names : list string) :
  module_exports env inflection directory sequelize options w = (r, w', t) ->
  readdirSync env directory w = (Ok names, w0) ->
  Sorted String.le (modelFilesOf names)
  /\ (forall file,
         file ∈ modelFilesOf names
         <-> file ∈ names /\ JsString.endsWith file ".model.js" = true)
  /\ requiredFiles t `prefix_of` modelFilesOf names
  /\ (forall result,
         r = Ok result ->
         requiredFiles t = modelFilesOf names
         /\ map (fun c => c.1.1) (invocations t) = modelFilesOf names)
  /\ accumulated ∅ (invocations t) (registrations t)
  /\ (forall i file models answer file' models' answer',
         invocations t !! i = Some (file, models, answer) ->
         invocations t !! S i = Some (file', models', answer') ->
         exists name model,
           registrations t !! i = Some (name, model)
           /\ models' !! name = Some model).
Proof.
  intros Hrun Hread.
  destruct (modelFilesOf_spec names) as (Hsorted & _ & Hexactly).
  apply module_exports_inv in Hrun
    as [(e & Hthrow & _)|(names' & w1 & t' & Hread' & Hrun & ->)];
    [congruence|].
  rewrite Hread in Hread'. injection Hread' as <- <-.
  destruct (forEach_requiredFiles _ _ _ _ _ _ _ _ _ _ _ Hrun)
    as [Hprefix Hall].
  pose proof (forEach_accumulated _ _ _ _ _ _ _ _ _ _ _ Hrun) as Hacc.
  change (requiredFiles (EReaddirSync directory (Ok names) :: t'))
    with (requiredFiles t').
  change (invocations (EReaddirSync directory (Ok names) :: t'))
    with (invocations t').
  change (registrations (EReaddirSync directory (Ok names) :: t'))
    with (registrations t').
  split; [exact Hsorted|]. split; [exact Hexactly|].
  split; [exact Hprefix|]. split.
  { intros result ->. split; [eapply Hall; reflexivity|].
    eapply forEach_names, Hrun. }
  split; [exact Hacc|].
  intros i file models answer file' models' answer' Hi Hsucc.
  destruct Hacc as [_ Hnext].
  destruct (Hnext _ _ _ _ _ _ _ Hi Hsucc)
    as (definition & models1 & name & model & _ & Hdefined & ->).
  exists name, model. split; [exact Hdefined|apply lookup_insert_eq].
Qed.

Lemma loader_goes_through_model_files_in_order_witness :
  requiredFiles Demo.run.2 = ["a.model.js"; "b.model.js"; "c.model.js"]
  /\ exists models answer,
       invocations Demo.run.2 !! 1 = Some ("b.model.js", models, answer)
       /\ models !! "a" = Some (VRef 11).
Proof.
  destruct (loader_goes_through_model_files_in_order
              Demo.env Demo.inflection "models" Demo.sequelize Demo.options
              Demo.start Demo.run.1.2 Demo.start Demo.run.1.1 Demo.run.2
              ["c.model.js"; "b.model.js"; "notes.txt"; "a.model.js"]
              (run_eta Demo.run) eq_refl)
    as (_ & _ & _ & Hall & _ & Hnext).
  split.
  - apply (Hall _ eq_refl).
  - destruct (Hnext 0 _ _ _ _ _ _ eq_refl eq_refl)
      as (name & model & Hdefined & Hthere).
    injection Hdefined as <- <-. eauto.
Defined.

(** ** C5: a file that returns nothing *)

(** C5.  In every run in which the call of some model file returns a falsy
    value, the loader throws the error whose message names that file, and
    so returns no registry. *)
Theorem missing_return_value_fails_the_run {W : Type}
    (env : Collaborators W) (inflection : Inflection) (directory : string)
    (sequelize : value) (options : Options) (w w' : W)
    (r : outcome registry) (t : list event)
    (file : string) (given : registry) (definition : value)
    (models1 : registry) :
  module_exports env inflection directory sequelize options w = (r, w', t) ->
  (file, given, Ok (definition, models1)) ∈ invocations t ->
  Js.truthy definition = false ->
  r = Throw (Error ("Missing return value from model file, " +:+ file))
  /\ forall result, r <> Ok result.
Proof.
  intros Hrun Hin Hfalsy.
  assert (Hr : r = Throw (Error ("Missing return value from model file, "
                                 +:+ file))).
  { apply module_exports_inv in Hrun
      as [(e & _ & _ & ->)|(names & w0 & t' & _ & Hrun & ->)].
    - apply list_elem_of_In in Hin. destruct Hin.
    - eapply forEach_missing; eassumption. }
  split; [exact Hr|]. rewrite Hr. discriminate.
Qed.

Lemma missing_return_value_fails_the_run_witness :
  Demo.orphans.1.1
  = Throw (Error "Missing return value from model file, b.model.js")
  /\ forall result, Demo.orphans.1.1 <> Ok result.
Proof.
  apply (missing_return_value_fails_the_run
           Demo.env Demo.inflection "orphans" Demo.sequelize Demo.options
           Demo.start Demo.orphans.1.2 Demo.orphans.1.1 Demo.orphans.2
           "b.model.js" ∅ VUndefined ∅ (run_eta Demo.orphans)).
  - apply list_elem_of_In. left. reflexivity.
  - reflexivity.
Defined.

(** ** C7: the name of a model *)






(** ** What the collaborators keep, the loader keeps *)

Section Stable.

Context {W : Type}.
Variable env : Collaborators W.
Variable inflection : Inflection.
Variables (directory : string) (sequelize : value) (options : Options).
Variable I : W -> Prop.
Hypothesis HI : stable env I.

Lemma call_stable {A : Type} (op : W -> outcome A * W)
    (ev : outcome A -> event) (w w' : W) (r : outcome A) (t : list event) :
  (forall r w', op w = (r, w') -> I w -> I w') ->
  call op ev w = (r, w', t) -> I w -> I w'.
Proof. intros Hop Hrun. apply call_inv in Hrun as [Hrun _]. eauto. Qed.

Lemma bind_stable {A B : Type} (m : M W A) (k : A -> M W B) :
  (forall w r w' t, m w = (r, w', t) -> I w -> I w') ->
  (forall a w r w' t, k a w = (r, w', t) -> I w -> I w') ->
  forall w r w' t, bind m k w = (r, w', t) -> I w -> I w'.
Proof.
  intros Hm Hk w r w' t Hrun Hw.
  apply bind_inv in Hrun as [(e & Hrun & _)|(a & w1 & t1 & t2 & H1 & H2 & _)];
    eauto.
Qed.

Lemma forOf_stable {A : Type} (items : list A) (body : A -> M W unit) :
  (forall item w r w' t, body item w = (r, w', t) -> I w -> I w') ->
  forall w r w' t, forOf items body w = (r, w', t) -> I w -> I w'.
Proof.
  intros Hbody. induction items as [|item rest IH]; simpl.
  - intros w r w' t Hrun. apply ret_inv in Hrun as (_ & -> & _). auto.
  - apply bind_stable; [apply Hbody|]. intros _. exact IH.
Qed.

Lemma pure_stable {A : Type} (m : M W A) :
  (forall w, exists r, m w = (r, w, [])) ->
  forall w r w' t, m w = (r, w', t) -> I w -> I w'.
Proof.
  intros Hpure w r w' t Hrun. destruct (Hpure w) as [r0 Hr0].
  rewrite Hr0 in Hrun. injection Hrun as _ <- _. auto.
Qed.

Lemma dropPrimaryKey_stable (definition model : value) (w w' : W)
    (r : outcome unit) (t : list event) :
  dropPrimaryKey env definition model w = (r, w', t) -> I w -> I w'.
Proof.
  unfold dropPrimaryKey. destruct (Js.truthy _).
  - apply call_stable. intros r0 w0. apply HI.
  - apply pure_stable. intros w0. eexists. reflexivity.
Qed.

Lemma attachMethods_stable (definition model : value) (w w' : W)
    (r : outcome unit) (t : list event) :
  attachMethods env definition model w = (r, w', t) -> I w -> I w'.
Proof.
  unfold attachMethods. revert w r w' t. apply bind_stable.
  - apply forOf_stable. intros [methodName methodFn] w r w' t.
    apply call_stable. intros r0 w0. apply HI.
  - intros _. apply forOf_stable. intros [methodName methodFn].
    apply bind_stable.
    + intros w r w' t. apply call_stable. intros r0 w0. apply HI.
    + intros prototype w r w' t. apply call_stable. intros r0 w0. apply HI.
Qed.

Lemma exposeDefinition_stable (modelName : string) (definition model : value)
    (w w' : W) (r : outcome unit) (t : list event) :
  exposeDefinition env options modelName definition model w = (r, w', t) ->
  I w -> I w'.
Proof.
  unfold exposeDefinition. revert w r w' t. apply bind_stable.
  - intros w r w' t. apply call_stable. intros r0 w0. apply HI.
  - intros _. destruct (Js.truthy (logger options)).
    + apply bind_stable.
      { intros w r w' t. apply call_stable. intros r0 w0. apply HI. }
      intros table. apply bind_stable.
      { intros w r w' t. apply call_stable. intros r0 w0. apply HI. }
      intros table' w r w' t. apply call_stable. intros r0 w0. apply HI.
    + apply pure_stable. intros w0. eexists. reflexivity.
Qed.

Lemma obtainDefinition_stable (models : registry) (modelFileName : string)
    (w w' : W) (r : outcome (value * registry)) (t : list event) :
  obtainDefinition env directory sequelize options models modelFileName w
  = (r, w', t) -> I w -> I w'.
Proof.
  unfold obtainDefinition. revert w r w' t. apply bind_stable.
  { intros w r w' t. apply call_stable. intros r0 w0. apply HI. }
  intros modelFile. apply bind_stable.
  { intros w r w' t. apply call_stable. intros r0 w0. apply HI. }
  intros types. apply bind_stable.
  { intros w r w' t. apply call_stable. intros r0 w0. apply HI. }
  intros [definition models1]. apply pure_stable. intros w0.
  destruct (negb (Js.truthy definition)); eexists; reflexivity.
Qed.

Lemma eachModelFile_stable (models : registry) (modelFileName : string)
    (w w' : W) (r : outcome registry) (t : list event) :
  eachModelFile env inflection directory sequelize options models
    modelFileName w = (r, w', t) -> I w -> I w'.
Proof.
  unfold eachModelFile. revert w r w' t. apply bind_stable.
  { intros w r w' t. apply obtainDefinition_stable. }
  intros [definition0 models1]. apply bind_stable.
  { apply pure_stable. intros w0. eexists. reflexivity. }
  intros [modelName definition]. apply bind_stable.
  { intros w r w' t. apply call_stable. intros r0 w0. apply HI. }
  intros model. apply bind_stable.
  { intros w r w' t. apply dropPrimaryKey_stable. }
  intros _. apply bind_stable.
  { intros w r w' t. apply attachMethods_stable. }
  intros _. apply bind_stable.
  { intros w r w' t. apply exposeDefinition_stable. }
  intros _. apply pure_stable. intros w0. eexists. reflexivity.
Qed.

Lemma forEach_stable (files : list string) (models : registry)
    (w w' : W) (r : outcome registry) (t : list event) :
  forEach files (eachModelFile env inflection directory sequelize options)
    models w = (r, w', t) -> I w -> I w'.
Proof.
  revert models w r w' t. induction files as [|file rest IH]; simpl.
  - intros models. apply pure_stable. intros w0. eexists. reflexivity.
  - intros models. apply bind_stable.
    + intros w r w' t. apply eachModelFile_stable.
    + intros models'. apply IH.
Qed.

End Stable.

(** ** C6: the primary key *)

Section PrimaryKey.

Context {W : Type}.
Variable env : Collaborators W.
Variable inflection : Inflection.
Variables (directory : string) (sequelize : value) (options : Options).

(** In a pass that ends well for a model whose parameters ask for no
    primary key, the ORM has removed [id] from the model, and from then to
    the end of the pass only collaborators have touched the world. *)
Lemma eachModelFile_removal (models : registry) (modelFileName : string)
    (w w' : W) (models' : registry) (t : list event)
    (name : string) (fields params model : value) :
  eachModelFile env inflection directory sequelize options models
    modelFileName w = (Ok models', w', t) ->
  definitions t = [(name, fields, params)] ->
  registrations t = [(name, model)] ->
  Js.truthy (Js.get params "noPrimaryKey") = true ->
  exists w1 w2,
    removeAttribute env model "id" w1 = (Ok tt, w2)
    /\ forall I, stable env I -> I w2 -> I w'.
Proof.
  unfold eachModelFile. intros Hrun Hdefs Hdefined Hflag.
  apply bind_ok_inv in Hrun
    as ([definition0 models1] & w1 & t1 & t1' & Hobtain & Hrun & ->).
  apply bind_ok_inv in Hrun
    as ([modelName definition] & w2 & t2 & t2' & Hprepare & Hrun & ->).
  apply lift_inv in Hprepare as (_ & -> & ->).
  apply bind_ok_inv in Hrun as (a & w3 & t3 & t3' & Hdefine & Hrun & ->).
  apply call_inv in Hdefine as [_ ->].
  apply bind_ok_inv in Hrun as (u4 & w4 & t4 & t4' & Hdrop & Hrun & ->).
  apply bind_ok_inv in Hrun as (u5 & w5 & t5 & t5' & Hattach & Hrun & ->).
  apply bind_ok_inv in Hrun as (u6 & w6 & t6 & t6' & Hexpose & Hrun & ->).
  apply ret_inv in Hrun as (_ & -> & ->).
  pose proof (obtainDefinition_ok _ _ _ _ _ _ _ _ _ _ _ Hobtain)
    as (_ & modelFile & types & ->).
  pose proof (dropPrimaryKey_silent _ _ _ _ _ _ _ Hdrop) as Ht4.
  pose proof (attachMethods_silent _ _ _ _ _ _ _ Hattach) as Ht5.
  pose proof (exposeDefinition_silent _ _ _ _ _ _ _ _ _ Hexpose) as Ht6.
  assert (Htail : Forall (fun e => silent e = true) (t4 ++ t5 ++ t6 ++ [])).
  { repeat (apply Forall_app; split); try assumption. constructor. }
  set (tail := t4 ++ t5 ++ t6 ++ []) in *.
  rewrite !definitions_app, (definitions_silent _ Htail) in Hdefs.
  rewrite !registrations_app, (registrations_silent _ Htail) in Hdefined.
  simpl in Hdefs, Hdefined.
  injection Hdefs as _ _ <-. injection Hdefined as _ <-.
  unfold dropPrimaryKey in Hdrop. rewrite Hflag in Hdrop.
  apply call_inv in Hdrop as [Hremove _]. destruct u4.
  exists w3, w4. split; [exact Hremove|].
  intros I HI Hw4.
  eapply exposeDefinition_stable; [exact HI|exact Hexpose|].
  eapply attachMethods_stable; [exact HI|exact Hattach|exact Hw4].
Qed.

(** The removals of a run that ends well are the removals asked for. *)
Lemma forEach_removals (files : list string) (models : registry)
    (w w' : W) (result : registry) (t : list event) :
  forEach files (eachModelFile env inflection directory sequelize options)
    models w = (Ok result, w', t) ->
  removals t = removalsAskedFor (definitions t) (registrations t).
Proof.
  revert models w t. induction files as [|file rest IH];
    intros models w t Hrun; simpl in Hrun.
  - apply ret_inv in Hrun as (_ & _ & ->). reflexivity.
  - ok_step Hrun. subst t.
    apply eachModelFile_registers in Hstep
      as (definition0 & models1 & modelName & definition & model & _ & _
          & _ & _ & _ & Hdefs & Hdefined & _ & Hremovals).
    rewrite removals_app, definitions_app, registrations_app, Hdefs, Hdefined,
      Hremovals, (IH _ _ _ Hrun).
    reflexivity.
Qed.

(** When the ORM removes what it is asked to remove and no collaborator
    brings an attribute back, the models of a run that ends well whose
    parameters ask for no primary key have none at the end. *)
Lemma forEach_removed (lacks : W -> value -> string -> Prop)
    (files : list string) (models : registry)
    (w w' : W) (result : registry) (t : list event) :
  (forall model attribute w1 w2,
      removeAttribute env model attribute w1 = (Ok tt, w2) ->
      lacks w2 model attribute) ->
  (forall model attribute, stable env (fun w => lacks w model attribute)) ->
  forEach files (eachModelFile env inflection directory sequelize options)
    models w = (Ok result, w', t) ->
  forall i name fields params model,
    definitions t !! i = Some (name, fields, params) ->
    registrations t !! i = Some (name, model) ->
    Js.truthy (Js.get params "noPrimaryKey") = true ->
    lacks w' model "id".
Proof.
  intros Hremove Hstable. revert models w t.
  induction files as [|file rest IH]; intros models w t Hrun; simpl in Hrun.
  - apply ret_inv in Hrun as (_ & _ & ->). intros; discriminate.
  - ok_step Hrun. subst t.
    pose proof (eachModelFile_registers _ _ _ _ _ _ _ _ _ _ _ Hstep)
      as (definition0 & models1 & modelName & definition & model0 & _ & _
          & _ & _ & _ & Hdefs & Hdefined & _).
    rewrite definitions_app, registrations_app, Hdefs, Hdefined.
    intros [|i] name fields params model Hi Hi' Hflag; simpl in Hi, Hi'.
    + injection Hi as <- <- <-. injection Hi' as <-.
      destruct (eachModelFile_removal _ _ _ _ _ _ _ _ _ _ Hstep Hdefs
                  Hdefined Hflag) as (w1 & w2 & Hrem & Hkept).
      eapply (forEach_stable env inflection directory sequelize options
                (fun w => lacks w model0 "id")); [apply Hstable|exact Hrun|].
      apply Hkept; [apply Hstable|]. eapply Hremove, Hrem.
    + eapply IH; eassumption.
Qed.

End PrimaryKey.

(** The concrete ORM removes what it is asked to remove. *)
Lemma demo_removeAttribute_removes (model : value) (attribute : string)
    (w1 w2 : Demo.world) :
  removeAttribute Demo.env model attribute w1 = (Ok tt, w2) ->
  Demo.lacks w2 model attribute.
Proof.
  simpl. unfold Demo.demo_removeAttribute, Demo.lacks.
  destruct model as [| | | | |r|]; try discriminate.
  destruct (w1 !! r) as [obj|] eqn:Hobj; [|discriminate].
  intros [= <-].
  rewrite list_lookup_insert_eq by (eapply lookup_lt_Some, Hobj). simpl.
  rewrite list_elem_of_In, filter_In. intros [_ Hne].
  rewrite String.eqb_refl in Hne. discriminate.
Qed.

(** Nothing in the concrete world brings an attribute back. *)
Lemma demo_lacks_stable (model : value) (attribute : string) :
  stable Demo.env (fun w => Demo.lacks w model attribute).
Proof.
  unfold stable. simpl.
  assert (Hupdate : forall (w : Demo.world) r obj own' attributes',
    w !! r = Some obj ->
    (attribute ∉ Demo.attributes obj -> attribute ∉ attributes') ->
    Demo.lacks w model attribute ->
    Demo.lacks
      (<[r := {| Demo.own := own'; Demo.attributes := attributes' |}]> w)
      model attribute).
  { intros w r obj own' attributes' Hobj Hattributes. unfold Demo.lacks.
    destruct model as [| | | | |r'|]; try contradiction.
    destruct (decide (r = r')) as [<-|Hne].
    - rewrite Hobj, list_lookup_insert_eq by (eapply lookup_lt_Some, Hobj).
      exact Hattributes.
    - rewrite list_lookup_insert_ne by exact Hne. auto. }
  repeat split.
  - intros directory w r w'. unfold Demo.demo_readdirSync.
    repeat case_match; intros [= _ <-]; auto.
  - intros directory modelFileName w r w'. unfold Demo.demo_require.
    repeat case_match; intros [= _ <-]; auto.
  - intros object key w r w'. unfold Demo.demo_getProperty.
    repeat case_match; intros [= _ <-]; auto.
  - intros modelFile types models ctx w r w'. unfold Demo.demo_callModelFile.
    repeat case_match; intros [= _ <-]; auto.
  - intros orm modelName fields params w r w'. unfold Demo.demo_define.
    intros [= _ <-]. unfold Demo.lacks.
    destruct model as [| | | | |r'|]; try contradiction.
    destruct (w !! r') as [obj|] eqn:Hobj; [|contradiction].
    rewrite (lookup_app_l_Some _ _ _ _ Hobj). auto.
  - intros target removed w r w'. unfold Demo.demo_removeAttribute.
    destruct target as [| | | | |r'|]; try (intros [= _ <-]; auto).
    destruct (w !! r') as [obj|] eqn:Hobj; [|intros [= _ <-]; auto].
    intros [= _ <-]. eapply Hupdate; [exact Hobj|].
    intros Hnot Hin. apply Hnot.
    apply list_elem_of_In, filter_In in Hin as [Hin _].
    apply list_elem_of_In, Hin.
  - intros object key v w r w'. unfold Demo.demo_setProperty.
    destruct object as [| | | | |r'|]; try (intros [= _ <-]; auto).
    destruct (w !! r') as [obj|] eqn:Hobj; [|intros [= _ <-]; auto].
    intros [= _ <-]. eapply Hupdate; [exact Hobj|auto].
  - intros target w r w'. unfold Demo.demo_getTableName, Demo.demo_getProperty.
    repeat case_match; intros [= _ <-]; simplify_eq; auto.
  - intros log fields message w r w'. unfold Demo.demo_loggerInfo.
    intros [= _ <-]; auto.
Qed.

(** C6.  In a run that ends well the loader asks the ORM to remove an
    attribute exactly once for every model whose parameters, as resolved
    and given to [define], have a truthy [noPrimaryKey], in the order of
    the models; the attribute is [id] and the model is the one the ORM
    defined, which is the one in the registry; for no other model does it
    ask.  When the ORM removes what it is asked to remove, and nothing the
    collaborators do brings an attribute back, each such model is without
    [id] when the run ends. *)
Theorem primary_key_is_removed_when_asked {W : Type}
    (env : Collaborators W) (inflection : Inflection) (directory : string)
    (sequelize : value) (options : Options) (w w' : W)
    (result : registry) (t : list event) :
  module_exports env inflection directory sequelize options w
  = (Ok result, w', t) ->
  removals t = removalsAskedFor (definitions t) (registrations t)
  /\ forall lacks : W -> value -> string -> Prop,
       (forall model attribute w1 w2,
           removeAttribute env model attribute w1 = (Ok tt, w2) ->
           lacks w2 model attribute) ->
       (forall model attribute,
           stable env (fun w => lacks w model attribute)) ->
       forall i name fields params model,
         definitions t !! i = Some (name, fields, params) ->
         registrations t !! i = Some (name, model) ->
         Js.truthy (Js.get params "noPrimaryKey") = true ->
         lacks w' model "id".
Proof.
  intros Hrun.
  apply module_exports_inv in Hrun
    as [(e & _ & [=] & _)|(names & w0 & t' & _ & Hrun & ->)].
  change (removals (EReaddirSync directory (Ok names) :: t'))
    with (removals t').
  change (definitions (EReaddirSync directory (Ok names) :: t'))
    with (definitions t').
  change (registrations (EReaddirSync directory (Ok names) :: t'))
    with (registrations t').
  split.
  - eapply forEach_removals, Hrun.
  - intros lacks Hremove Hstable. eapply forEach_removed; eassumption.
Qed.

Lemma primary_key_is_removed_when_asked_witness :
  removals Demo.run.2 = [(VRef 11, "id")]
  /\ Demo.lacks Demo.run.1.2 (VRef 11) "id".
Proof.
  destruct (primary_key_is_removed_when_asked
              Demo.env Demo.inflection "models" Demo.sequelize Demo.options
              Demo.start Demo.run.1.2
              (<["a" := VRef 15]> (<["LibraryBook" := VRef 13]>
                                     (<["a" := VRef 11]> ∅)))
              Demo.run.2) as [Hasked Hremoved].
  { rewrite (run_eta Demo.run) at 1. reflexivity. }
  split; [exact Hasked|].
  apply (Hremoved Demo.lacks demo_removeAttribute_removes demo_lacks_stable
           0 "a" (VObj [("email", Demo.STRING)])
           (VObj [("noPrimaryKey", VBool true); ("tableName", VStr "as");
                  ("schema", VStr "public")]));
    reflexivity.
Defined.

(** ** C9: the methods *)

(** C9.  In every pass of the second loader function that ends well, the
    assignments made on collaborators' objects are, in this order: for each
    entry of the definition's [classMethods] (when truthy), in the order of
    the entries, the method under its name on the model the ORM defined,
    which is the model in the registry; for each entry of its
    [instanceMethods] (when truthy), the method under its name on what
    reading [model.prototype] gave just before; and last the definition
    under [definition] on the model.  The loader assigns nothing else, so
    every other property stays as the ORM left it. *)
Theorem methods_are_attached_by_name {W : Type}
    (env : Collaborators W) (inflection : Inflection) (directory : string)
    (sequelize : value) (options : Options) (models : registry)
    (modelFileName : string) (w w' : W) (models' : registry)
    (t : list event) :
  eachModelFile env inflection directory sequelize options models
    modelFileName w = (Ok models', w', t) ->
  exists definition0 models1 name definition model types prototypes,
    invocations t = [(modelFileName, models, Ok (definition0, models1))]
    /\ prepareDefinition inflection options definition0 modelFileName
       = Ok (name, definition)
    /\ registrations t = [(name, model)]
    /\ models' !! name = Some model
    /\ length prototypes
       = length (methodEntries (Js.get definition0 "instanceMethods"))
    /\ propertyReads t
       = (sequelize, "Sequelize", Ok types)
         :: map (fun prototype => (model, "prototype", Ok prototype))
                prototypes
    /\ propertyWrites t
       = map (fun '(methodName, methodFn) => (model, methodName, methodFn))
             (methodEntries (Js.get definition0 "classMethods"))
         ++ map (fun '(methodName, methodFn, prototype) =>
                   (prototype, methodName, methodFn))
                (zip (methodEntries (Js.get definition0 "instanceMethods"))
                     prototypes)
         ++ [(model, "definition", definition)].
Proof.
  intros Hrun.
  apply eachModelFile_ok in Hrun
    as (modelFile & types & definition0 & models1 & modelName & definition
        & model & prototypes & table & table' & _ & Hprepare & -> & Hlen & ->).
  destruct (passEvents_projections directory sequelize options models
              modelFileName modelFile types definition0 models1 modelName
              definition model prototypes table table')
    as (_ & Hcalls & _ & Hdefined & _ & Hreads & Hwrites).
  rewrite (prepareDefinition_frame _ _ _ _ _ _ Hprepare "classMethods")
    in * by discriminate.
  rewrite (prepareDefinition_frame _ _ _ _ _ _ Hprepare "instanceMethods")
    in * by discriminate.
  exists definition0, models1, modelName, definition, model, types, prototypes.
  split; [exact Hcalls|]. split; [exact Hprepare|]. split; [exact Hdefined|].
  split; [apply lookup_insert_eq|]. split; [exact Hlen|].
  split; [|exact Hwrites].
  rewrite Hreads. f_equal. clear -Hlen. revert Hlen.
  generalize (methodEntries (Js.get definition0 "instanceMethods")).
  intros methods. revert methods.
  induction prototypes as [|p rest IH]; intros [|[k fn] methods] Hlen;
    simpl in *; try reflexivity; try discriminate.
  f_equal. apply IH. congruence.
Qed.

Lemma methods_are_attached_by_name_witness :
  exists definition,
    registrations Demo.pass.2 = [("a", VRef 11)]
    /\ propertyWrites Demo.pass.2
       = [(VRef 11, "findByEmail", Demo.findByEmail);
          (VRef 10, "greet", Demo.greet);
          (VRef 11, "definition", definition)].
Proof.
  destruct (methods_are_attached_by_name
              Demo.env Demo.inflection "models" Demo.sequelize Demo.options
              ∅ "a.model.js" Demo.start Demo.pass.1.2
              (<["a" := VRef 11]> ∅) Demo.pass.2)
    as (definition0 & models1 & name & definition & model & types
        & prototypes & Hcalls & _ & Hdefined & _ & Hlen & Hreads & Hwrites).
  { rewrite (run_eta Demo.pass) at 1. reflexivity. }
  exists definition.
  injection Hcalls as <- _. injection Hdefined as <- <-.
  destruct prototypes as [|prototype [|other rest]]; try discriminate Hlen.
  injection Hreads as _ <-.
  split; [reflexivity|exact Hwrites].
Defined.

(** In the concrete world the model of [a.model.js] ends with its class
    method, its prototype with the instance method, and without [id]. *)
Example demo_model_after_the_run :
  exists class prototype,
    Demo.run.1.2 !! 11 = Some class
    /\ Demo.run.1.2 !! 10 = Some prototype
    /\ Js.lookup_prop "findByEmail" (Demo.own class) = Some Demo.findByEmail
    /\ Js.lookup_prop "prototype" (Demo.own class) = Some (VRef 10)
    /\ Js.lookup_prop "greet" (Demo.own prototype) = Some Demo.greet
    /\ Demo.attributes class = ["email"].
Proof. do 2 eexists. repeat split; reflexivity. Qed.

(** ** C10: the two copies of the loader *)

Lemma bind_throw {W A B : Type} (m : M W A) (k : A -> M W B)
    (w w' : W) (e : exn) (t : list event) :
  m w = (Throw e, w', t) -> bind m k w = (Throw e, w', t).
Proof. unfold bind. intros ->. reflexivity. Qed.

Lemma bind_ok {W A B : Type} (m : M W A) (k : A -> M W B)
    (w w1 w' : W) (a : A) (r : outcome B) (t1 t2 : list event) :
  m w = (Ok a, w1, t1) -> k a w1 = (r, w', t2) ->
  bind m k w = (r, w', t1 ++ t2).
Proof. unfold bind. intros -> ->. reflexivity. Qed.

(** Without entries to go over, lines 132-140 do nothing. *)
Lemma attachMethods_nothing {W : Type} (env : Collaborators W)
    (definition model : value) (w : W) :
  methodEntries (Js.get definition "classMethods") = [] ->
  methodEntries (Js.get definition "instanceMethods") = [] ->
  attachMethods env definition model w = (Ok tt, w, []).
Proof.
  unfold attachMethods. intros -> ->. reflexivity.
Qed.

Section TwoCopies.

Context {W : Type}.
Variable env : Collaborators W.
Variable inflection : Inflection.
Variables (directory : string) (sequelize : value) (options : Options).

(** On a file whose definition has no method to attach the two callbacks
    do the same. *)
Lemma eachModelFile_first_agrees (models : registry) (modelFileName : string)
    (w w' : W) (r : outcome registry) (t : list event) :
  eachModelFile_first env inflection directory sequelize options models
    modelFileName w = (r, w', t) ->
  (forall file given definition models1,
      (file, given, Ok (definition, models1)) ∈ invocations t ->
      methodEntries (Js.get definition "classMethods") = []
      /\ methodEntries (Js.get definition "instanceMethods") = []) ->
  eachModelFile env inflection directory sequelize options models
    modelFileName w = (r, w', t).
Proof.
  unfold eachModelFile_first, eachModelFile. intros Hrun Hnone.
  apply bind_inv in Hrun
    as [(e & Hobtain & ->)
       |([definition0 models1] & w1 & t1 & t1' & Hobtain & Hrun & ->)].
  { apply bind_throw, Hobtain. }
  eapply bind_ok; [exact Hobtain|].
  pose proof (obtainDefinition_ok _ _ _ _ _ _ _ _ _ _ _ Hobtain)
    as (_ & modelFile & types & Ht1).
  assert (Hmethods :
    methodEntries (Js.get definition0 "classMethods") = []
    /\ methodEntries (Js.get definition0 "instanceMethods") = []).
  { eapply Hnone. rewrite invocations_app, Ht1. apply elem_of_app. left.
    apply list_elem_of_singleton. reflexivity. }
  clear Hnone Ht1.
  apply bind_inv in Hrun
    as [(e & Hprepare & ->)
       |([modelName definition] & w2 & t2 & t2' & Hprepare & Hrun & ->)].
  { apply bind_throw, Hprepare. }
  eapply bind_ok; [exact Hprepare|].
  apply lift_inv in Hprepare as (Hprepare & _ & _). symmetry in Hprepare.
  apply bind_inv in Hrun
    as [(e & Hdefine & ->)|(model & w3 & t3 & t3' & Hdefine & Hrun & ->)].
  { apply bind_throw, Hdefine. }
  eapply bind_ok; [exact Hdefine|].
  apply bind_inv in Hrun
    as [(e & Hdrop & ->)|(u & w4 & t4 & t4' & Hdrop & Hrun & ->)].
  { apply bind_throw, Hdrop. }
  eapply bind_ok; [exact Hdrop|].
  change t4' with ([] ++ t4'). eapply bind_ok; [|exact Hrun].
  apply attachMethods_nothing.
  - rewrite (prepareDefinition_frame _ _ _ _ _ _ Hprepare) by discriminate.
    apply Hmethods.
  - rewrite (prepareDefinition_frame _ _ _ _ _ _ Hprepare) by discriminate.
    apply Hmethods.
Qed.

Lemma forEach_first_agrees (files : list string) (models : registry)
    (w w' : W) (r : outcome registry) (t : list event) :
  forEach files (eachModelFile_first env inflection directory sequelize options)
    models w = (r, w', t) ->
  (forall file given definition models1,
      (file, given, Ok (definition, models1)) ∈ invocations t ->
      methodEntries (Js.get definition "classMethods") = []
      /\ methodEntries (Js.get definition "instanceMethods") = []) ->
  forEach files (eachModelFile env inflection directory sequelize options)
    models w = (r, w', t).
Proof.
  revert models w t. induction files as [|file rest IH];
    intros models w t Hrun Hnone; simpl in *; [exact Hrun|].
  apply bind_inv in Hrun
    as [(e & Hpass & ->)|(models' & w1 & t1 & t2 & Hpass & Hrun & ->)].
  - apply bind_throw, eachModelFile_first_agrees; assumption.
  - eapply bind_ok.
    + apply eachModelFile_first_agrees; [exact Hpass|].
      intros file0 given definition models1 Hin. eapply Hnone.
      rewrite invocations_app. apply elem_of_app. left. exact Hin.
    + apply IH; [exact Hrun|].
      intros file0 given definition models1 Hin. eapply Hnone.
      rewrite invocations_app. apply elem_of_app. right. exact Hin.
Qed.

End TwoCopies.

(** C10 as stated fails: on the directory [models] of the
    concrete world, where the definition of [a.model.js] has a class method
    and an instance method, the second copy makes three calls that the first
    does not make. *)
Lemma the_two_exports_differ :
  ~ (forall (W : Type) (env : Collaborators W) (inflection : Inflection)
            (directory : string) (sequelize : value) (options : Options)
            (w : W),
        module_exports_first env inflection directory sequelize options w
        = module_exports env inflection directory sequelize options w).
Proof.
  intros Hclaim.
  specialize (Hclaim _ Demo.env Demo.inflection "models" Demo.sequelize
                Demo.options Demo.start).
  apply (f_equal (fun x => length x.2)) in Hclaim.
  vm_compute in Hclaim. discriminate Hclaim.
Qed.

(** On [models] the first copy assigns the definitions and nothing else;
    the second assigns the two methods of [a.model.js] as well. *)
Example demo_first_copy_attaches_nothing :
  map (fun write => write.1.2) (propertyWrites Demo.run_first.2)
  = ["definition"; "definition"; "definition"]
  /\ map (fun write => write.1.2) (propertyWrites Demo.run.2)
     = ["findByEmail"; "greet"; "definition"; "definition"; "definition"]
  /\ Demo.run_first.1.1 = Demo.run.1.1.
Proof. repeat split; reflexivity. Qed.

(** C10, amended.  Whenever no definition returned in a run of the first
    copy has a method to attach (its [classMethods] and [instanceMethods]
    are falsy or without entries), the second copy does the same from the
    same world: the same registry or the same throw, the same world at the
    end, the same calls with the same answers in the same order. *)
Theorem the_two_exports_agree_without_methods {W : Type}
    (env : Collaborators W) (inflection : Inflection) (directory : string)
    (sequelize : value) (options : Options) (w w' : W)
    (r : outcome registry) (t : list event) :
  module_exports_first env inflection directory sequelize options w
  = (r, w', t) ->
  (forall file given definition models1,
      (file, given, Ok (definition, models1)) ∈ invocations t ->
      methodEntries (Js.get definition "classMethods") = []
      /\ methodEntries (Js.get definition "instanceMethods") = []) ->
  module_exports env inflection directory sequelize options w = (r, w', t).
Proof.
  unfold module_exports_first, module_exports. intros Hrun Hnone.
  apply bind_inv in Hrun
    as [(e & Hfiles & ->)|(files & w1 & t1 & t2 & Hfiles & Hrun & ->)].
  - apply bind_throw, Hfiles.
  - eapply bind_ok; [exact Hfiles|].
    apply forEach_first_agrees; [exact Hrun|].
    intros file given definition models1 Hin. eapply Hnone.
    rewrite invocations_app. apply elem_of_app. right. exact Hin.
Qed.

Lemma the_two_exports_agree_without_methods_witness :
  module_exports Demo.env Demo.inflection "shelves" Demo.sequelize
    Demo.options Demo.start
  = (Demo.shelves_first.1.1, Demo.shelves_first.1.2, Demo.shelves_first.2)
  /\ exists result, Demo.shelves_first.1.1 = Ok result
                    /\ result !! "a" = Some (VRef 11).
Proof.
  split.
  - apply (the_two_exports_agree_without_methods
             Demo.env Demo.inflection "shelves" Demo.sequelize Demo.options
             Demo.start Demo.shelves_first.1.2 Demo.shelves_first.1.1
             Demo.shelves_first.2 (run_eta Demo.shelves_first)).
    intros file given definition models1 Hin.
    apply list_elem_of_In in Hin. simpl in Hin.
    destruct Hin as [[= _ _ <- _]|[]]. split; reflexivity.
  - eexists. split; reflexivity.
Defined.

(** * Further properties of the loader *)

(** ** The calls of a computation, one by one *)

Section Traced.

Context {W : Type}.
Variable P : event -> Prop.

Lemma traced_ret {A : Type} (a : A) : traced P (@ret W A a).
Proof. intros w r w' t Hrun. apply ret_inv in Hrun as (_ & _ & ->). constructor. Qed.

Lemma traced_throw {A : Type} (e : exn) : traced P (@throw W A e).
Proof.
  intros w r w' t Hrun. apply throw_inv in Hrun as (_ & _ & ->). constructor.
Qed.

Lemma traced_lift {A : Type} (x : outcome A) : traced P (@lift W A x).
Proof.
  intros w r w' t Hrun. apply lift_inv in Hrun as (_ & _ & ->). constructor.
Qed.

Lemma traced_call {A : Type} (op : W -> outcome A * W)
    (ev : outcome A -> event) :
  (forall answer, P (ev answer)) -> traced P (call op ev).
Proof.
  intros Hev w r w' t Hrun. apply call_inv in Hrun as (_ & ->).
  constructor; [apply Hev|constructor].
Qed.

Lemma traced_bind {A B : Type} (m : M W A) (k : A -> M W B) :
  traced P m -> (forall a, traced P (k a)) -> traced P (bind m k).
Proof.
  intros Hm Hk w r w' t Hrun.
  apply bind_inv in Hrun
    as [(e & Hrun & _)|(a & w1 & t1 & t2 & Hfirst & Hrest & ->)].
  - eapply Hm, Hrun.
  - apply Forall_app. split; [eapply Hm, Hfirst|eapply Hk, Hrest].
Qed.

Lemma traced_forOf {A : Type} (items : list A) (body : A -> M W unit) :
  (forall item, traced P (body item)) -> traced P (forOf items body).
Proof.
  intros Hbody. induction items as [|item rest IH]; simpl.
  - apply traced_ret.
  - apply traced_bind; [apply Hbody|]. intros _. exact IH.
Qed.

Lemma traced_forEach (array : list string)
    (callbackfn : registry -> string -> M W registry) (models : registry) :
  (forall models element, traced P (callbackfn models element)) ->
  traced P (forEach array callbackfn models).
Proof.
  intros Hcallback. revert models.
  induction array as [|element rest IH]; intros models; simpl.
  - apply traced_ret.
  - apply traced_bind; [apply Hcallback|]. intros models'. apply IH.
Qed.

End Traced.

(** ** X: the calls the loader makes *)

Section Issued.

Context {W : Type}.
Variable env : Collaborators W.
Variable inflection : Inflection.
Variables (directory : string) (sequelize : value) (options : Options).

Lemma obtainDefinition_issued (models : registry) (modelFileName : string) :
  traced (issued directory sequelize options)
    (obtainDefinition env directory sequelize options models modelFileName).
Proof.
  unfold obtainDefinition.
  apply traced_bind; [apply traced_call; intros; constructor|intros modelFile].
  apply traced_bind; [apply traced_call; intros; constructor|intros types].
  apply traced_bind; [apply traced_call; intros; constructor|].
  intros [definition models'].
  destruct (negb (Js.truthy definition)); [apply traced_throw|apply traced_ret].
Qed.

Lemma dropPrimaryKey_issued (definition model : value) :
  traced (issued directory sequelize options) (dropPrimaryKey env definition model).
Proof.
  unfold dropPrimaryKey.
  destruct (Js.truthy (Js.get (Js.get definition "params") "noPrimaryKey")).
  - apply traced_call. intros. constructor.
  - apply traced_ret.
Qed.

Lemma attachMethods_issued (definition model : value) :
  traced (issued directory sequelize options) (attachMethods env definition model).
Proof.
  unfold attachMethods. apply traced_bind.
  - apply traced_forOf. intros [methodName methodFn].
    apply traced_call. intros. constructor.
  - intros _. apply traced_forOf. intros [methodName methodFn].
    apply traced_bind; [apply traced_call; intros; constructor|].
    intros prototype. apply traced_call. intros. constructor.
Qed.

Lemma exposeDefinition_issued (modelName : string) (definition model : value) :
  traced (issued directory sequelize options) (exposeDefinition env options modelName definition model).
Proof.
  unfold exposeDefinition.
  apply traced_bind; [apply traced_call; intros; constructor|intros _].
  destruct (Js.truthy (logger options)) eqn:Hlogger; [|apply traced_ret].
  apply traced_bind; [apply traced_call; intros; constructor; exact Hlogger|].
  intros table.
  apply traced_bind; [apply traced_call; intros; constructor; exact Hlogger|].
  intros table'. apply traced_call. intros. constructor. exact Hlogger.
Qed.

Lemma eachModelFile_issued (models : registry) (modelFileName : string) :
  traced (issued directory sequelize options)
    (eachModelFile env inflection directory sequelize options models
       modelFileName).
Proof.
  unfold eachModelFile.
  apply traced_bind; [apply obtainDefinition_issued|].
  intros [definition models'].
  apply traced_bind; [apply traced_lift|intros [modelName definition']].
  apply traced_bind; [apply traced_call; intros; constructor|intros model].
  apply traced_bind; [apply dropPrimaryKey_issued|intros _].
  apply traced_bind; [apply attachMethods_issued|intros _].
  apply traced_bind; [apply exposeDefinition_issued|intros _].
  apply traced_ret.
Qed.

(** X1. Whatever the directory holds and however the run ends, every call
    the loader makes on its collaborators is one of these: listing the
    given directory, requiring a file of it, reading [sequelize.Sequelize],
    calling a model file with [options.context] as its last argument,
    [define] on the given [sequelize], [removeAttribute] of ["id"] (of no
    other attribute), reading a model's [prototype], assigning a property,
    and, only with a truthy [options.logger], [getTableName] and [info] on
    that very logger. *)
Theorem loader_makes_only_these_calls (w w' : W) (r : outcome registry)
    (t : list event) :
  module_exports env inflection directory sequelize options w = (r, w', t) ->
  Forall (issued directory sequelize options) t.
Proof.
  revert w r w' t.
  change (traced (issued directory sequelize options)
            (module_exports env inflection directory sequelize options)).
  unfold module_exports, getModelFileNames.
  apply traced_bind.
  - apply traced_bind; [apply traced_call; intros; constructor|].
    intros names. apply traced_ret.
  - intros modelFileNames. apply traced_forEach.
    intros models element. apply eachModelFile_issued.
Qed.

End Issued.

Lemma loader_makes_only_these_calls_witness :
  Forall (issued "models" Demo.sequelize Demo.options) Demo.run.2.
Proof.
  exact (loader_makes_only_these_calls
           Demo.env Demo.inflection "models" Demo.sequelize Demo.options
           Demo.start Demo.run.1.2 Demo.run.1.1 Demo.run.2
           (run_eta Demo.run)).
Defined.

(** ** X: where a throw comes from *)

Lemma has_throws (key : string) (object : value) (e : exn) :
  Js.has key object = Throw e -> e = TypeError.
Proof. destruct object; simpl; congruence. Qed.

Lemma set_throws (object : value) (key : string) (v : value) (e : exn) :
  Js.set object key v = Throw e -> e = TypeError.
Proof. destruct object; simpl; congruence. Qed.

Lemma nameForDefinition_throws (definition : value) (modelFileName : string)
    (e : exn) :
  nameForDefinition definition modelFileName = Throw e -> e = TypeError.
Proof.
  unfold nameForDefinition.
  destruct (Js.has "name" definition) as [[|]|e'] eqn:Hhas; try discriminate.
  intros [= <-]. eapply has_throws, Hhas.
Qed.

Lemma setupDefinition_throws (inflection : Inflection)
    (definition modelName : value) (e : exn) :
  setupDefinition inflection definition modelName = Throw e -> e = TypeError.
Proof.
  unfold setupDefinition. destruct modelName; try congruence.
  destruct (negb (Js.truthy (Js.get definition "params")));
    apply set_throws.
Qed.

Lemma applySchemaOption_throws (options : Options) (definition : value)
    (e : exn) :
  applySchemaOption options definition = Throw e -> e = TypeError.
Proof.
  unfold applySchemaOption.
  destruct (negb (Js.truthy (Js.get (Js.get definition "params") "schema"))
            && Js.truthy (schema options)); [|discriminate].
  destruct (Js.set (Js.get definition "params") "schema" (schema options))
    as [params'|e'] eqn:Hset.
  - apply set_throws.
  - intros [= <-]. eapply set_throws, Hset.
Qed.

Lemma prepareDefinition_throws (inflection : Inflection) (options : Options)
    (definition : value) (modelFileName : string) (e : exn) :
  prepareDefinition inflection options definition modelFileName = Throw e ->
  e = TypeError.
Proof.
  unfold prepareDefinition, obind.
  destruct (nameForDefinition definition modelFileName) as [modelName|e1]
    eqn:Hname.
  2: { intros [= <-]. eapply nameForDefinition_throws, Hname. }
  destruct (setupDefinition inflection definition modelName) as [d1|e1]
    eqn:Hsetup.
  2: { intros [= <-]. eapply setupDefinition_throws, Hsetup. }
  destruct (applySchemaOption options d1) as [d2|e1] eqn:Hschema.
  2: { intros [= <-]. eapply applySchemaOption_throws, Hschema. }
  destruct modelName; congruence.
Qed.

Section Explained.

Context {W : Type}.

Lemma explained_ret {A : Type} (a : A) : explained (@ret W A a).
Proof. intros w e w' t Hrun. apply ret_inv in Hrun as (? & _). discriminate. Qed.

Lemma explained_call {A : Type} (op : W -> outcome A * W)
    (ev : outcome A -> event) :
  (forall answer, thrown (ev answer) = failure answer) ->
  explained (call op ev).
Proof.
  intros Hev w e w' t Hrun. apply call_inv in Hrun as (_ & ->).
  right. right. exists (ev (Throw e)). split; [reflexivity|apply Hev].
Qed.

Lemma accounted_app (e : exn) (t1 t2 : list event) :
  accounted e t2 -> accounted e (t1 ++ t2).
Proof.
  intros [Hmissing|[Htype|(ev & Hlast & Hthrown)]].
  - left. exact Hmissing.
  - right. left. exact Htype.
  - right. right. exists ev. split; [|exact Hthrown].
    rewrite last_app, Hlast. reflexivity.
Qed.

Lemma explained_bind {A B : Type} (m : M W A) (k : A -> M W B) :
  explained m -> (forall a, explained (k a)) -> explained (bind m k).
Proof.
  intros Hm Hk w e w' t Hrun.
  apply bind_inv in Hrun
    as [(e' & Hrun & [= <-])|(a & w1 & t1 & t2 & Hfirst & Hrest & ->)].
  - eapply Hm, Hrun.
  - apply accounted_app. eapply Hk, Hrest.
Qed.

Lemma explained_forOf {A : Type} (items : list A) (body : A -> M W unit) :
  (forall item, explained (body item)) -> explained (forOf items body).
Proof.
  intros Hbody. induction items as [|item rest IH]; simpl.
  - apply explained_ret.
  - apply explained_bind; [apply Hbody|]. intros _. exact IH.
Qed.

Lemma explained_forEach (array : list string)
    (callbackfn : registry -> string -> M W registry) (models : registry) :
  (forall models element, explained (callbackfn models element)) ->
  explained (forEach array callbackfn models).
Proof.
  intros Hcallback. revert models.
  induction array as [|element rest IH]; intros models; simpl.
  - apply explained_ret.
  - apply explained_bind; [apply Hcallback|]. intros models'. apply IH.
Qed.

End Explained.

Section Provenance.

Context {W : Type}.
Variable env : Collaborators W.
Variable inflection : Inflection.
Variables (directory : string) (sequelize : value) (options : Options).

Lemma obtainDefinition_explained (models : registry) (modelFileName : string) :
  explained
    (obtainDefinition env directory sequelize options models modelFileName).
Proof.
  unfold obtainDefinition.
  apply explained_bind; [apply explained_call; reflexivity|intros modelFile].
  apply explained_bind; [apply explained_call; reflexivity|intros types].
  apply explained_bind; [apply explained_call; reflexivity|].
  intros [definition models'].
  destruct (negb (Js.truthy definition)); [|apply explained_ret].
  intros w e w' t Hrun. apply throw_inv in Hrun as ([= ->] & _).
  left. exists modelFileName. reflexivity.
Qed.

Lemma attachMethods_explained (definition model : value) :
  explained (attachMethods env definition model).
Proof.
  unfold attachMethods. apply explained_bind.
  - apply explained_forOf. intros [methodName methodFn].
    apply explained_call. reflexivity.
  - intros _. apply explained_forOf. intros [methodName methodFn].
    apply explained_bind; [apply explained_call; reflexivity|].
    intros prototype. apply explained_call. reflexivity.
Qed.

Lemma exposeDefinition_explained (modelName : string)
    (definition model : value) :
  explained (exposeDefinition env options modelName definition model).
Proof.
  unfold exposeDefinition.
  apply explained_bind; [apply explained_call; reflexivity|intros _].
  destruct (Js.truthy (logger options)); [|apply explained_ret].
  apply explained_bind; [apply explained_call; reflexivity|intros table].
  apply explained_bind; [apply explained_call; reflexivity|intros table'].
  apply explained_call. reflexivity.
Qed.

Lemma eachModelFile_explained (models : registry) (modelFileName : string) :
  explained
    (eachModelFile env inflection directory sequelize options models
       modelFileName).
Proof.
  unfold eachModelFile.
  apply explained_bind; [apply obtainDefinition_explained|].
  intros [definition models'].
  apply explained_bind.
  { intros w e w' t Hrun. apply lift_inv in Hrun as (Hprepare & _).
    right. left. symmetry in Hprepare.
    eapply prepareDefinition_throws, Hprepare. }
  intros [modelName definition'].
  apply explained_bind; [apply explained_call; reflexivity|intros model].
  apply explained_bind.
  { unfold dropPrimaryKey.
    destruct (Js.truthy (Js.get (Js.get definition' "params") "noPrimaryKey"));
      [apply explained_call; reflexivity|apply explained_ret]. }
  intros _.
  apply explained_bind; [apply attachMethods_explained|intros _].
  apply explained_bind; [apply exposeDefinition_explained|intros _].
  apply explained_ret.
Qed.

(** X2. When a run of the loader throws, the exception is one of three:
    the loader's own [Error] "Missing return value from model file, <file>",
    a [TypeError] of the language (the definition, or its [params], is not
    an object that can be assigned to, or the model name is no string), or
    the exception a collaborator threw, passed on unchanged; in the last
    case the call that threw is the last call of the run, so that nothing
    is loaded, defined or logged after it. *)
Theorem a_throw_is_accounted_for (w w' : W) (e : exn) (t : list event) :
  module_exports env inflection directory sequelize options w
  = (Throw e, w', t) ->
  (exists modelFileName,
     e = Error ("Missing return value from model file, " +:+ modelFileName))
  \/ e = TypeError
  \/ (exists ev, last t = Some ev /\ thrown ev = Some e).
Proof.
  revert w e w' t.
  change (explained (module_exports env inflection directory sequelize options)).
  unfold module_exports, getModelFileNames.
  apply explained_bind.
  - apply explained_bind; [apply explained_call; reflexivity|].
    intros names. apply explained_ret.
  - intros modelFileNames. apply explained_forEach.
    intros models element. apply eachModelFile_explained.
Qed.

End Provenance.

Lemma a_throw_is_accounted_for_witness :
  (exists modelFileName,
     Raised (VStr "ENOENT")
     = Error ("Missing return value from model file, " +:+ modelFileName))
  \/ Raised (VStr "ENOENT") = TypeError
  \/ (exists ev, last Odd.nowhere.2 = Some ev
                 /\ thrown ev = Some (Raised (VStr "ENOENT"))).
Proof.
  exact (a_throw_is_accounted_for
           Demo.env Demo.inflection "nowhere" Demo.sequelize Demo.options
           Demo.start Odd.nowhere.1.2 (Raised (VStr "ENOENT")) Odd.nowhere.2
           (run_eta Odd.nowhere)).
Defined.

(** ** X: the files gone through *)

Lemma modelFilesOf_none (names : list string) :
  (forall name, name ∈ names ->
     JsString.endsWith name kModelFileNameSuffix = false) ->
  modelFilesOf names = [].
Proof.
  intros Hnone. apply Permutation_nil_r.
  rewrite (proj1 (proj2 (modelFilesOf_spec names))).
  induction names as [|name rest IH]; simpl; [reflexivity|].
  rewrite (Hnone name) by left. apply IH.
  intros other Hother. apply Hnone. right. exact Hother.
Qed.

(** X3. A directory in which no name ends with [.model.js] (an empty
    directory too) is no error: the loader lists the directory, makes no
    other call, and returns the empty registry. *)
Theorem no_model_files_no_models {W : Type} (env : Collaborators W)
    (inflection : Inflection) (directory : string) (sequelize : value)
    (options : Options) (w w0 : W) (names : list string) :
  readdirSync env directory w = (Ok names, w0) ->
  (forall name, name ∈ names ->
     JsString.endsWith name kModelFileNameSuffix = false) ->
  module_exports env inflection directory sequelize options w
  = (Ok ∅, w0, [EReaddirSync directory (Ok names)]).
Proof.
  intros Hlisting Hnone.
  unfold module_exports, getModelFileNames, bind, call.
  rewrite Hlisting. simpl. rewrite (modelFilesOf_none names Hnone).
  reflexivity.
Qed.

Lemma no_model_files_no_models_witness :
  Odd.bare_run
  = (Ok ∅, Demo.start,
     [EReaddirSync "models" (Ok ["notes.txt"; "model.js"; "a.model.json"])]).
Proof.
  apply (no_model_files_no_models
           Odd.bare Demo.inflection "models" Demo.sequelize Demo.options
           Demo.start Demo.start ["notes.txt"; "model.js"; "a.model.json"]).
  - reflexivity.
  - intros name Hname.
    repeat (apply elem_of_cons in Hname as [->|Hname]; [reflexivity|]).
    apply elem_of_nil in Hname. destruct Hname.
Defined.

(** X4. The array of model files does not depend on the order in which
    [fs.readdirSync] lists the directory: two listings with the same names
    give the same array. *)
Theorem model_files_do_not_depend_on_listing_order (names names' : list string) :
  names ≡ₚ names' -> modelFilesOf names = modelFilesOf names'.
Proof.
  intros Hsame.
  destruct (modelFilesOf_spec names) as (Hsorted & Hfiltered & _).
  destruct (modelFilesOf_spec names') as (Hsorted' & Hfiltered' & _).
  apply (Sorted_unique String.le); [exact Hsorted|exact Hsorted'|].
  rewrite Hfiltered, Hfiltered'.
  clear -Hsame. induction Hsame as [|x l l' _ IH|x y l|l l' l'' _ IH _ IH'];
    simpl.
  - reflexivity.
  - destruct (JsString.endsWith x kModelFileNameSuffix);
      [apply perm_skip|]; exact IH.
  - destruct (JsString.endsWith x kModelFileNameSuffix),
             (JsString.endsWith y kModelFileNameSuffix);
      try reflexivity. apply perm_swap.
  - etransitivity; eassumption.
Qed.

Lemma model_files_do_not_depend_on_listing_order_witness :
  modelFilesOf ["b.model.js"; "a.model.js"; "notes.txt"]
  = modelFilesOf ["a.model.js"; "notes.txt"; "b.model.js"].
Proof.
  apply model_files_do_not_depend_on_listing_order.
  apply (Permutation_cons_append ["a.model.js"; "notes.txt"] "b.model.js").
Defined.

(** X5. No file is loaded twice: when the names of the listing are
    distinct, so are the files passed to [require], however the run
    ends. *)
Theorem no_file_is_required_twice {W : Type} (env : Collaborators W)
    (inflection : Inflection) (directory : string) (sequelize : value)
    (options : Options) (w w' w0 : W) (r : outcome registry)
    (t : list event) (names : list string) :
  module_exports env inflection directory sequelize options w = (r, w', t) ->
  readdirSync env directory w = (Ok names, w0) ->
  NoDup names ->
  NoDup (requiredFiles t).
Proof.
  intros Hrun Hlisting Hdistinct.
  apply module_exports_inv in Hrun
    as [(e & Hfailed & _)|(names' & w1 & t' & Hlisting' & Hloop & ->)];
    [congruence|].
  rewrite Hlisting in Hlisting'. injection Hlisting' as <- <-.
  apply forEach_requiredFiles in Hloop as [[rest Hprefix] _].
  change (requiredFiles (EReaddirSync directory (Ok names) :: t'))
    with (requiredFiles t').
  assert (Hfiles : NoDup (modelFilesOf names)).
  { rewrite (proj1 (proj2 (modelFilesOf_spec names))).
    apply NoDup_ListNoDup. apply List.NoDup_filter.
    apply NoDup_ListNoDup. exact Hdistinct. }
  rewrite Hprefix in Hfiles. apply NoDup_app in Hfiles as [Hfiles _].
  exact Hfiles.
Qed.

Lemma no_file_is_required_twice_witness :
  NoDup (requiredFiles Demo.run.2).
Proof.
  apply (no_file_is_required_twice
           Demo.env Demo.inflection "models" Demo.sequelize Demo.options
           Demo.start Demo.run.1.2 Demo.start Demo.run.1.1 Demo.run.2
           ["c.model.js"; "b.model.js"; "notes.txt"; "a.model.js"]
           (run_eta Demo.run)).
  - reflexivity.
  - apply (bool_decide_unpack _). vm_compute. exact I.
Defined.

(** ** X: names derived from file names *)

Lemma nameFromFileName_suffix (modelFileName : string) :
  JsString.free_of "/" modelFileName = true ->
  JsString.endsWith modelFileName kModelFileNameSuffix = true ->
  nameFromFileName modelFileName +:+ kModelFileNameSuffix = modelFileName.
Proof.
  intros Hfree Hends. unfold nameFromFileName, Path.basename.
  rewrite (last_component_free modelFileName Hfree), Hends.
  apply endsWith_strip, Hends.
Qed.

(** X6. Two different model files of a directory (names without [/] that
    end with [.model.js]) never get the same name from
    [nameFromFileName]: without the suffix put back, the name is the file
    name. *)
Theorem nameFromFileName_tells_files_apart (modelFileName modelFileName' : string) :
  JsString.free_of "/" modelFileName = true ->
  JsString.free_of "/" modelFileName' = true ->
  JsString.endsWith modelFileName kModelFileNameSuffix = true ->
  JsString.endsWith modelFileName' kModelFileNameSuffix = true ->
  modelFileName <> modelFileName' ->
  nameFromFileName modelFileName <> nameFromFileName modelFileName'.
Proof.
  intros Hfree Hfree' Hends Hends' Hdifferent Hsame.
  apply Hdifferent.
  rewrite <- (nameFromFileName_suffix modelFileName Hfree Hends).
  rewrite <- (nameFromFileName_suffix modelFileName' Hfree' Hends').
  rewrite Hsame. reflexivity.
Qed.

Lemma nameFromFileName_tells_files_apart_witness :
  nameFromFileName "user.model.js" <> nameFromFileName "users.model.js".
Proof.
  apply nameFromFileName_tells_files_apart;
    [reflexivity|reflexivity|reflexivity|reflexivity|discriminate].
Defined.

(** ** X: what [define] is given *)

Lemma applySchemaOption_frame (options : Options) (definition definition' : value) :
  applySchemaOption options definition = Ok definition' ->
  forall key, key <> "schema" ->
    Js.get (Js.get definition' "params") key
    = Js.get (Js.get definition "params") key.
Proof.
  unfold applySchemaOption. intros Happly key Hkey.
  destruct (negb (Js.truthy (Js.get (Js.get definition "params") "schema"))
            && Js.truthy (schema options)); [|congruence].
  destruct (Js.set (Js.get definition "params") "schema" (schema options))
    as [params'|e] eqn:Hset; [|discriminate].
  rewrite (get_set _ _ _ "params" _ Happly). simpl.
  rewrite (get_set _ _ _ key _ Hset).
  destruct (String.eqb_spec key "schema"); congruence.
Qed.

Lemma prepareDefinition_params (inflection : Inflection) (options : Options)
    (definition : value) (modelFileName name : string) (definition' : value) :
  prepareDefinition inflection options definition modelFileName
  = Ok (name, definition') ->
  forall key, key <> "tableName" -> key <> "schema" ->
    Js.get (Js.get definition' "params") key
    = Js.get (Js.get definition "params") key.
Proof.
  intros Hprepare key Htable Hschema.
  apply prepareDefinition_inv in Hprepare as (definition1 & _ & Hsetup & Happly).
  rewrite (applySchemaOption_frame _ _ _ Happly key Hschema).
  apply (setupDefinition_frame _ _ _ _ Hsetup), Htable.
Qed.

Lemma setupDefinition_tableName (inflection : Inflection)
    (definition definition' : value) (name : string) :
  setupDefinition inflection definition (VStr name) = Ok definition' ->
  Js.truthy (Js.get definition "params") = false
  \/ (exists props, Js.get definition "params" = VObj props) ->
  Js.get (Js.get definition' "params") "tableName"
  = match Js.get (Js.get definition "params") "tableName" with
    | VUndefined => VStr (defaultTableName inflection name)
    | own => own
    end.
Proof.
  unfold setupDefinition. intros Hsetup [Hfalsy|(props & Hparams)].
  - rewrite Hfalsy in Hsetup. simpl in Hsetup.
    rewrite (get_set _ _ _ "params" _ Hsetup). simpl.
    destruct (Js.get definition "params"); try reflexivity; discriminate.
  - rewrite Hparams in Hsetup. simpl in Hsetup.
    rewrite (get_set _ _ _ "params" _ Hsetup), Hparams. simpl.
    unfold mergeDefault.
    destruct (Js.lookup_prop "tableName" props) as [own|] eqn:Hown; simpl.
    + destruct own; simpl; rewrite ?andb_false_r;
        rewrite ?lookup_assign_prop, ?Hown; reflexivity.
    + rewrite lookup_assign_prop. reflexivity.
Qed.

Section Define.

Context {W : Type}.
Variable env : Collaborators W.
Variable inflection : Inflection.
Variables (directory : string) (sequelize : value) (options : Options).

(** X7. In a pass that ends well [define] is called once, with the
    [fields] exactly as the model file returned them and with parameters
    in which nothing but [tableName] and [schema] differs from the
    [params] the file returned. *)
Theorem define_gets_what_the_file_returned (models : registry)
    (modelFileName : string) (w w' : W) (models' : registry) (t : list event)
    (file : string) (given : registry) (definition0 : value)
    (models1 : registry) :
  eachModelFile env inflection directory sequelize options models
    modelFileName w = (Ok models', w', t) ->
  (file, given, Ok (definition0, models1)) ∈ invocations t ->
  exists modelName params,
    definitions t = [(modelName, Js.get definition0 "fields", params)]
    /\ forall key, key <> "tableName" -> key <> "schema" ->
         Js.get params key = Js.get (Js.get definition0 "params") key.
Proof.
  intros Hpass Hcalled.
  apply eachModelFile_registers in Hpass
    as (definition0' & models1' & modelName & definition & model & _
        & Hprepare & _ & _ & Hcalls & Hdefined & _).
  rewrite Hcalls in Hcalled.
  apply list_elem_of_singleton in Hcalled. injection Hcalled as _ _ <- _.
  exists modelName, (Js.get definition "params"). split.
  - rewrite Hdefined.
    rewrite (prepareDefinition_frame _ _ _ _ _ _ Hprepare "fields")
      by discriminate.
    reflexivity.
  - apply (prepareDefinition_params _ _ _ _ _ _ Hprepare).
Qed.

(** X8. In a pass that ends well, for a definition whose [params] is
    missing or falsy or a plain object, the [tableName] among the
    parameters [define] gets is the definition's own when it has one, and
    otherwise [defaultTableName] of the name the model is defined under. *)
Theorem table_name_is_own_or_default (models : registry)
    (modelFileName : string) (w w' : W) (models' : registry) (t : list event)
    (file : string) (given : registry) (definition0 : value)
    (models1 : registry) :
  eachModelFile env inflection directory sequelize options models
    modelFileName w = (Ok models', w', t) ->
  (file, given, Ok (definition0, models1)) ∈ invocations t ->
  Js.truthy (Js.get definition0 "params") = false
  \/ (exists props, Js.get definition0 "params" = VObj props) ->
  exists modelName fields params,
    definitions t = [(modelName, fields, params)]
    /\ Js.get params "tableName"
       = match Js.get (Js.get definition0 "params") "tableName" with
         | VUndefined => VStr (defaultTableName inflection modelName)
         | own => own
         end.
Proof.
  intros Hpass Hcalled Hparams.
  apply eachModelFile_registers in Hpass
    as (definition0' & models1' & modelName & definition & model & _
        & Hprepare & _ & _ & Hcalls & Hdefined & _).
  rewrite Hcalls in Hcalled.
  apply list_elem_of_singleton in Hcalled. injection Hcalled as _ _ <- _.
  exists modelName, (Js.get definition "fields"), (Js.get definition "params").
  split; [exact Hdefined|].
  apply prepareDefinition_inv in Hprepare as (definition1 & _ & Hsetup & Happly).
  rewrite (applySchemaOption_frame _ _ _ Happly "tableName") by discriminate.
  apply (setupDefinition_tableName _ _ _ _ Hsetup Hparams).
Qed.

End Define.

Lemma define_gets_what_the_file_returned_witness :
  exists modelName params,
    definitions Demo.pass.2
    = [(modelName, VObj [("email", Demo.STRING)], params)]
    /\ forall key, key <> "tableName" -> key <> "schema" ->
         Js.get params key = Js.get (VObj [("noPrimaryKey", VBool true)]) key.
Proof.
  apply (define_gets_what_the_file_returned
           Demo.env Demo.inflection "models" Demo.sequelize Demo.options
           ∅ "a.model.js" Demo.start Demo.pass.1.2
           (<["a" := VRef 11]> ∅) Demo.pass.2
           "a.model.js" ∅ Demo.userDefinition ∅).
  - rewrite (run_eta Demo.pass) at 1. reflexivity.
  - apply list_elem_of_In. left. reflexivity.
Defined.

Lemma table_name_is_own_or_default_witness :
  exists modelName fields params,
    definitions Demo.pass.2 = [(modelName, fields, params)]
    /\ Js.get params "tableName"
       = VStr (defaultTableName Demo.inflection modelName).
Proof.
  apply (table_name_is_own_or_default
           Demo.env Demo.inflection "models" Demo.sequelize Demo.options
           ∅ "a.model.js" Demo.start Demo.pass.1.2
           (<["a" := VRef 11]> ∅) Demo.pass.2
           "a.model.js" ∅ Demo.userDefinition ∅).
  - rewrite (run_eta Demo.pass) at 1. reflexivity.
  - apply list_elem_of_In. left. reflexivity.
  - right. eexists. reflexivity.
Defined.

(** ** X: the registry a later file sees *)




(** ** X: the log *)

Lemma issued_unlogged (directory : string) (sequelize : value)
    (options : Options) (t : list event) :
  Js.truthy (logger options) = false ->
  Forall (issued directory sequelize options) t ->
  tableNameCalls t = [] /\ logRecords t = [].
Proof.
  intros Hfalsy Ht. induction Ht as [|e t He _ [IHcalls IHrecords]];
    [split; reflexivity|].
  destruct He; simpl; try (split; assumption); congruence.
Qed.

Lemma classEvents_unlogged (model : value) (methods : list (string * value)) :
  tableNameCalls (classEvents model methods) = []
  /\ logRecords (classEvents model methods) = [].
Proof.
  induction methods as [|[methodName methodFn] rest IH];
    [split; reflexivity|exact IH].
Qed.

Lemma instanceEvents_unlogged (model : value)
    (methods : list (string * value * value)) :
  tableNameCalls (instanceEvents model methods) = []
  /\ logRecords (instanceEvents model methods) = [].
Proof.
  induction methods as [|[[methodName methodFn] prototype] rest IH];
    [split; reflexivity|exact IH].
Qed.

Lemma passEvents_logged (directory : string) (sequelize : value)
    (options : Options) (models : registry) (modelFileName : string)
    (modelFile types definition0 : value) (models1 : registry)
    (modelName : string) (definition model : value)
    (prototypes : list value) (table table' : string) :
  Js.truthy (logger options) = true ->
  let t := passEvents directory sequelize options models modelFileName
             modelFile types definition0 models1 modelName definition model
             prototypes table table' in
  tableNameCalls t = tableNamesAsked [(modelName, model)] [(table, table')]
  /\ logRecords t = recordsLogged options [(modelName, model)] [(table, table')].
Proof.
  intros Htruthy t. subst t. unfold passEvents, tableNameCalls, logRecords.
  rewrite !omap_app.
  destruct (classEvents_unlogged model
              (methodEntries (Js.get definition "classMethods")))
    as [Hclass Hclass'].
  destruct (instanceEvents_unlogged model
              (zip (methodEntries (Js.get definition "instanceMethods"))
                   prototypes))
    as [Hinstance Hinstance'].
  unfold tableNameCalls, logRecords in Hclass, Hclass', Hinstance, Hinstance'.
  rewrite Hclass, Hclass', Hinstance, Hinstance'.
  unfold logEvents. rewrite Htruthy.
  destruct (Js.truthy (Js.get (Js.get definition "params") "noPrimaryKey"));
    split; reflexivity.
Qed.

Section Log.

Context {W : Type}.
Variable env : Collaborators W.
Variable inflection : Inflection.
Variables (directory : string) (sequelize : value) (options : Options).

Lemma forEach_logged (files : list string) (models : registry)
    (w w' : W) (result : registry) (t : list event) :
  Js.truthy (logger options) = true ->
  forEach files (eachModelFile env inflection directory sequelize options)
    models w = (Ok result, w', t) ->
  exists tables,
    length tables = length (registrations t)
    /\ tableNameCalls t = tableNamesAsked (registrations t) tables
    /\ logRecords t = recordsLogged options (registrations t) tables.
Proof.
  intros Htruthy. revert models w t. induction files as [|file rest IH];
    intros models w t Hrun; simpl in Hrun.
  - apply ret_inv in Hrun as (_ & _ & ->). exists []. auto.
  - ok_step Hrun. subst t.
    apply eachModelFile_ok in Hstep
      as (modelFile & types & definition0 & models1 & modelName & definition
          & model & prototypes & table & table' & _ & _ & _ & _ & ->).
    destruct (IH _ _ _ Hrun) as (tables & Hlength & Hcalls & Hrecords).
    destruct (passEvents_projections directory sequelize options models file
                modelFile types definition0 models1 modelName definition
                model prototypes table table')
      as (_ & _ & _ & Hdefined & _).
    destruct (passEvents_logged directory sequelize options models file
                modelFile types definition0 models1 modelName definition
                model prototypes table table' Htruthy)
      as (Hasked & Hlogged).
    exists ((table, table') :: tables).
    rewrite registrations_app, Hdefined.
    unfold tableNameCalls, logRecords in *. rewrite !omap_app.
    rewrite Hasked, Hlogged, Hcalls, Hrecords. simpl. rewrite Hlength. auto.
Qed.

(** X10. With a truthy [options.logger], a run that ends well logs one
    record per model defined, in the order of definition, each to that
    logger with the name the model was defined under; and each model is
    asked for its table name twice, once for the [table] field of the
    record and once for the message. *)
Theorem one_log_record_per_model (w w' : W) (result : registry)
    (t : list event) :
  Js.truthy (logger options) = true ->
  module_exports env inflection directory sequelize options w
  = (Ok result, w', t) ->
  exists tables,
    length tables = length (registrations t)
    /\ tableNameCalls t = tableNamesAsked (registrations t) tables
    /\ logRecords t = recordsLogged options (registrations t) tables.
Proof.
  intros Htruthy Hrun.
  apply module_exports_inv in Hrun
    as [(e & _ & [=] & _)|(names & w0 & t' & _ & Hloop & ->)].
  apply (forEach_logged _ _ _ _ _ _ Htruthy Hloop).
Qed.

(** X11. Without a logger ([options.logger] missing or falsy) nothing is
    logged and no model is asked for its table name, however the run
    ends. *)
Theorem no_logger_no_log (w w' : W) (r : outcome registry) (t : list event) :
  Js.truthy (logger options) = false ->
  module_exports env inflection directory sequelize options w = (r, w', t) ->
  tableNameCalls t = [] /\ logRecords t = [].
Proof.
  intros Hfalsy Hrun.
  apply (issued_unlogged directory sequelize options t Hfalsy).
  apply module_exports_inv in Hrun
    as [(e & _ & _ & ->)|(names & w0 & t' & _ & Hloop & ->)].
  - repeat constructor.
  - constructor; [constructor|].
    apply (traced_forEach (issued directory sequelize options) _ _ _
             (eachModelFile_issued env inflection directory sequelize options)
             _ _ _ _ Hloop).
Qed.

End Log.

Lemma one_log_record_per_model_witness :
  exists tables,
    length tables = length (registrations Demo.run.2)
    /\ tableNameCalls Demo.run.2 = tableNamesAsked (registrations Demo.run.2) tables
    /\ logRecords Demo.run.2
       = recordsLogged Demo.options (registrations Demo.run.2) tables.
Proof.
  apply (one_log_record_per_model
           Demo.env Demo.inflection "models" Demo.sequelize Demo.options
           Demo.start Demo.run.1.2
           (<["a" := VRef 15]> (<["LibraryBook" := VRef 13]>
              (<["a" := VRef 11]> ∅)))
           Demo.run.2).
  - reflexivity.
  - rewrite (run_eta Demo.run) at 1. reflexivity.
Defined.

Lemma no_logger_no_log_witness :
  tableNameCalls Odd.quiet_run.2 = [] /\ logRecords Odd.quiet_run.2 = [].
Proof.
  apply (no_logger_no_log
           Demo.env Demo.inflection "models" Demo.sequelize Odd.quiet
           Demo.start Odd.quiet_run.1.2 Odd.quiet_run.1.1 Odd.quiet_run.2).
  - reflexivity.
  - apply (run_eta Odd.quiet_run).
Defined.

(** ** X: a definition that is no object *)

Lemma omap_none {B : Type} (g : event -> option B) (t : list event) :
  Forall (fun e => g e = None) t -> omap g t = [].
Proof.
  intros Ht. induction Ht as [|e t He _ IH]; [reflexivity|].
  simpl. rewrite He. exact IH.
Qed.

Lemma has_primitive (key : string) (object : value) :
  Js.isObject object = false -> Js.has key object = Throw TypeError.
Proof. destruct object; simpl; congruence. Qed.

Lemma prepareDefinition_primitive (inflection : Inflection) (options : Options)
    (definition : value) (modelFileName : string) :
  Js.isObject definition = false ->
  prepareDefinition inflection options definition modelFileName
  = Throw TypeError.
Proof.
  intros Hprimitive. unfold prepareDefinition, nameForDefinition.
  rewrite (has_primitive "name" definition Hprimitive). reflexivity.
Qed.

Section Stops.

Context {W : Type}.
Variable env : Collaborators W.
Variable inflection : Inflection.
Variables (directory : string) (sequelize : value) (options : Options).

Lemma obtainDefinition_defines_nothing (models : registry)
    (modelFileName : string) (w w' : W) (r : outcome (value * registry))
    (t : list event) :
  obtainDefinition env directory sequelize options models modelFileName w
  = (r, w', t) ->
  definitions t = [].
Proof.
  intros Hrun. apply omap_none. revert w r w' t Hrun. unfold obtainDefinition.
  apply traced_bind; [apply traced_call; reflexivity|intros modelFile].
  apply traced_bind; [apply traced_call; reflexivity|intros types].
  apply traced_bind; [apply traced_call; reflexivity|].
  intros [definition models'].
  destruct (negb (Js.truthy definition)); [apply traced_throw|apply traced_ret].
Qed.

Lemma eachModelFile_stops (models : registry) (modelFileName : string)
    (w w' : W) (r : outcome registry) (t : list event)
    (file : string) (given : registry) (definition : value)
    (models1 : registry) :
  eachModelFile env inflection directory sequelize options models
    modelFileName w = (r, w', t) ->
  (file, given, Ok (definition, models1)) ∈ invocations t ->
  Js.truthy definition = false \/ Js.isObject definition = false ->
  r = Throw (if Js.truthy definition then TypeError
             else Error ("Missing return value from model file, " +:+ file))
  /\ requiredFiles t = [file]
  /\ invocations t = [(file, given, Ok (definition, models1))]
  /\ definitions t = [].
Proof.
  unfold eachModelFile. intros Hrun Hcalled Hbad. any_step Hrun.
  { pose proof (obtainDefinition_defines_nothing _ _ _ _ _ _ Hrun) as Hnone.
    apply obtainDefinition_any in Hrun as (Hreq & _ & Hinv).
    destruct Hinv as [[Hinv _]|(answer & Hinv & Hr)]; rewrite Hinv in Hcalled.
    - apply elem_of_nil in Hcalled as [].
    - apply list_elem_of_singleton in Hcalled as [= -> -> <-].
      destruct (Js.truthy definition); [discriminate Hr|].
      injection Hr as ->. split; [reflexivity|]. split; [exact Hreq|].
      split; [exact Hinv|exact Hnone]. }
  destruct a as [definition0 models0].
  pose proof (obtainDefinition_defines_nothing _ _ _ _ _ _ Hstep) as Hnone.
  apply obtainDefinition_any in Hstep as (Hreq & _ & Hinv).
  destruct Hinv as [[_ [e [=]]]|(answer & Hinv & Hr)].
  destruct answer as [[definition' models2]|e]; [|discriminate].
  destruct (Js.truthy definition') eqn:Htruthy; [|discriminate].
  injection Hr as -> ->.
  any_step Hrun.
  - apply lift_inv in Hrun as (Hprepare & _ & ->).
    rewrite app_nil_r in *. rewrite Hinv in Hcalled.
    apply list_elem_of_singleton in Hcalled as [= -> -> -> ->].
    destruct Hbad as [Hfalsy|Hprimitive]; [congruence|].
    rewrite (prepareDefinition_primitive _ _ _ _ Hprimitive) in Hprepare.
    injection Hprepare as ->. rewrite Htruthy.
    split; [reflexivity|]. split; [exact Hreq|].
    split; [exact Hinv|exact Hnone].
  - destruct a as [modelName prepared].
    apply lift_inv in Hstep as (Hprepare & _ & ->).
    assert (Hobject : Js.isObject definition' = true).
    { destruct (Js.isObject definition') eqn:Hobject; [reflexivity|].
      rewrite (prepareDefinition_primitive _ _ _ _ Hobject) in Hprepare.
      discriminate. }
    assert (Hsame : definition = definition').
    { simpl in Hrun. any_step Hrun.
      - apply call_inv in Hrun as [_ ->].
        rewrite invocations_app, Hinv in Hcalled.
        apply list_elem_of_singleton in Hcalled as [= _ _ -> _]. reflexivity.
      - apply call_inv in Hstep as [_ ->].
        apply afterDefine_silent in Hrun.
        rewrite !invocations_app, Hinv in Hcalled. simpl in Hcalled.
        rewrite (invocations_silent _ Hrun) in Hcalled.
        apply list_elem_of_singleton in Hcalled as [= _ _ -> _]. reflexivity. }
    subst definition'. destruct Hbad; congruence.
Qed.

End Stops.

Section StopsTheRun.

Context {W : Type}.
Variable env : Collaborators W.
Variable inflection : Inflection.
Variables (directory : string) (sequelize : value) (options : Options).

Lemma forEach_stops (files : list string) (models : registry)
    (w w' : W) (r : outcome registry) (t : list event)
    (file : string) (given : registry) (definition : value)
    (models1 : registry) :
  forEach files (eachModelFile env inflection directory sequelize options)
    models w = (r, w', t) ->
  (file, given, Ok (definition, models1)) ∈ invocations t ->
  Js.truthy definition = false \/ Js.isObject definition = false ->
  r = Throw (if Js.truthy definition then TypeError
             else Error ("Missing return value from model file, " +:+ file))
  /\ last (requiredFiles t) = Some file
  /\ last (invocations t) = Some (file, given, Ok (definition, models1))
  /\ length (definitions t) + 1 = length (invocations t).
Proof.
  revert models w t. induction files as [|file0 rest IH];
    intros models w t Hrun Hcalled Hbad; simpl in Hrun.
  - apply ret_inv in Hrun as (_ & _ & ->). apply elem_of_nil in Hcalled as [].
  - any_step Hrun.
    + destruct (eachModelFile_stops env inflection directory sequelize
                  options _ _ _ _ _ _ _ _ _ _ Hrun Hcalled Hbad) as (Hr & Hreq & Hinv & Hdefs).
      rewrite Hreq, Hinv, Hdefs. auto.
    + rewrite invocations_app in Hcalled.
      apply elem_of_app in Hcalled as [Hcalled|Hcalled].
      { destruct (eachModelFile_stops env inflection directory sequelize
                    options _ _ _ _ _ _ _ _ _ _ Hstep Hcalled Hbad) as (Hr & _). discriminate Hr. }
      destruct (IH _ _ _ Hrun Hcalled Hbad) as (Hr & Hreq & Hinv & Hdefs).
      apply eachModelFile_registers in Hstep
        as (definition0 & models0 & modelName & prepared & model & _ & _ & _
            & _ & Hinv0 & Hdefs0 & _).
      rewrite requiredFiles_app, invocations_app, definitions_app.
      rewrite !last_app, Hreq, Hinv, !length_app, Hinv0, Hdefs0.
      split; [exact Hr|]. split; [reflexivity|]. split; [reflexivity|].
      simpl. lia.
Qed.

(** X12. A model file that returns something that is no object stops the
    run at that file: the run throws the loader's "Missing return value"
    [Error] when the value is falsy and a [TypeError] when it is a truthy
    primitive ([true], a number, a string; from ['name' in definition]);
    that file is the last one required and the last one called, and
    [define] is called for every file before it and not for it. *)
Theorem a_definition_that_is_no_object_stops_the_run (w w' : W)
    (r : outcome registry) (t : list event)
    (file : string) (given : registry) (definition : value)
    (models1 : registry) :
  module_exports env inflection directory sequelize options w = (r, w', t) ->
  (file, given, Ok (definition, models1)) ∈ invocations t ->
  Js.truthy definition = false \/ Js.isObject definition = false ->
  r = Throw (if Js.truthy definition then TypeError
             else Error ("Missing return value from model file, " +:+ file))
  /\ last (requiredFiles t) = Some file
  /\ last (invocations t) = Some (file, given, Ok (definition, models1))
  /\ length (definitions t) + 1 = length (invocations t).
Proof.
  intros Hrun Hcalled Hbad.
  apply module_exports_inv in Hrun
    as [(e & _ & _ & ->)|(names & w0 & t' & _ & Hloop & ->)].
  - apply elem_of_nil in Hcalled as [].
  - apply (forEach_stops _ _ _ _ _ _ _ _ _ _ Hloop Hcalled Hbad).
Qed.

End StopsTheRun.

Lemma a_definition_that_is_no_object_stops_the_run_witness :
  Odd.flag_run.1.1 = Throw TypeError
  /\ last (requiredFiles Odd.flag_run.2) = Some "flag.model.js"
  /\ last (invocations Odd.flag_run.2)
     = Some ("flag.model.js", ∅, Ok (VBool true, ∅))
  /\ length (definitions Odd.flag_run.2) + 1
     = length (invocations Odd.flag_run.2).
Proof.
  apply (a_definition_that_is_no_object_stops_the_run
           Odd.flag Demo.inflection "models" Demo.sequelize Demo.options
           Demo.start Odd.flag_run.1.2 Odd.flag_run.1.1 Odd.flag_run.2
           "flag.model.js" ∅ (VBool true) ∅ (run_eta Odd.flag_run)).
  - apply list_elem_of_In. left. reflexivity.
  - right. reflexivity.
Defined.

(** ** X: what a model file is called with *)

Lemma invocations_elem (t : list event) (file : string)
    (modelFile types : value) (given : registry) (ctx : value)
    (answer : outcome (value * registry)) :
  ECallModelFile file modelFile types given ctx answer ∈ t ->
  (file, given, answer) ∈ invocations t.
Proof.
  intros Hin. unfold invocations. apply list_elem_of_omap.
  eexists. split; [exact Hin|reflexivity].
Qed.

Section Linked.

Context {W : Type}.
Variable env : Collaborators W.
Variable inflection : Inflection.
Variables (directory : string) (sequelize : value) (options : Options).

Lemma obtainDefinition_linked (models : registry) (modelFileName : string)
    (w w' : W) (r : outcome (value * registry)) (t : list event)
    (file : string) (modelFile types : value) (given : registry)
    (ctx : value) (answer : outcome (value * registry)) :
  obtainDefinition env directory sequelize options models modelFileName w
  = (r, w', t) ->
  ECallModelFile file modelFile types given ctx answer ∈ t ->
  ERequire directory file (Ok modelFile) ∈ t
  /\ EGetProperty sequelize "Sequelize" (Ok types) ∈ t.
Proof.
  unfold obtainDefinition. intros Hrun Hin. any_step Hrun.
  { apply call_inv in Hrun as [_ ->].
    apply list_elem_of_singleton in Hin. discriminate Hin. }
  apply call_inv in Hstep as [_ ->]. any_step Hrun.
  { apply call_inv in Hrun as [_ ->].
    apply list_elem_of_In in Hin. simpl in Hin.
    destruct Hin as [Hin|[Hin|[]]]; discriminate Hin. }
  apply call_inv in Hstep as [_ ->].
  assert (Hcall : exists answer',
             t0 = [ECallModelFile modelFileName a a0 models (context options)
                     answer']).
  { any_step Hrun.
    - apply call_inv in Hrun as [_ ->]. eauto.
    - apply call_inv in Hstep as [_ ->]. destruct a1 as [definition models1].
      destruct (negb (Js.truthy definition)).
      + apply throw_inv in Hrun as (_ & _ & ->). eauto.
      + apply ret_inv in Hrun as (_ & _ & ->). eauto. }
  destruct Hcall as (answer' & ->).
  apply list_elem_of_In in Hin. simpl in Hin.
  destruct Hin as [Hin|[Hin|[Hin|[]]]]; try discriminate Hin.
  injection Hin as <- <- <- _ _ _.
  split; apply list_elem_of_In; simpl; auto.
Qed.

Lemma eachModelFile_linked (models : registry) (modelFileName : string)
    (w w' : W) (r : outcome registry) (t : list event)
    (file : string) (modelFile types : value) (given : registry)
    (ctx : value) (answer : outcome (value * registry)) :
  eachModelFile env inflection directory sequelize options models
    modelFileName w = (r, w', t) ->
  ECallModelFile file modelFile types given ctx answer ∈ t ->
  ERequire directory file (Ok modelFile) ∈ t
  /\ EGetProperty sequelize "Sequelize" (Ok types) ∈ t.
Proof.
  intros Hrun Hin.
  pose proof (eachModelFile_any env inflection directory sequelize options
                _ _ _ _ _ _ Hrun) as (_ & Hcount & _).
  unfold eachModelFile in Hrun. any_step Hrun.
  { eapply obtainDefinition_linked; eassumption. }
  destruct a as [definition0 models1].
  apply elem_of_app in Hin as [Hin|Hin].
  - destruct (obtainDefinition_linked _ _ _ _ _ _ _ _ _ _ _ _ Hstep Hin)
      as [Hrequired Hread].
    split; apply elem_of_app; left; assumption.
  - apply invocations_elem in Hin.
    apply obtainDefinition_any in Hstep as (_ & _ & Hinv).
    destruct Hinv as [[_ [e [=]]]|(answer' & Hinv & _)].
    rewrite invocations_app, Hinv in Hcount.
    destruct (invocations t1) as [|call calls];
      [apply elem_of_nil in Hin as []|].
    destruct Hcount as [Hcount|[answer'' Hcount]]; discriminate Hcount.
Qed.

Lemma forEach_linked (files : list string) (models : registry)
    (w w' : W) (r : outcome registry) (t : list event)
    (file : string) (modelFile types : value) (given : registry)
    (ctx : value) (answer : outcome (value * registry)) :
  forEach files (eachModelFile env inflection directory sequelize options)
    models w = (r, w', t) ->
  ECallModelFile file modelFile types given ctx answer ∈ t ->
  ERequire directory file (Ok modelFile) ∈ t
  /\ EGetProperty sequelize "Sequelize" (Ok types) ∈ t.
Proof.
  revert models w t. induction files as [|file0 rest IH];
    intros models w t Hrun Hin; simpl in Hrun.
  - apply ret_inv in Hrun as (_ & _ & ->). apply elem_of_nil in Hin as [].
  - any_step Hrun; [eapply eachModelFile_linked; eassumption|].
    apply elem_of_app in Hin as [Hin|Hin].
    + destruct (eachModelFile_linked _ _ _ _ _ _ _ _ _ _ _ _ Hstep Hin)
        as [Hrequired Hread].
      split; apply elem_of_app; left; assumption.
    + destruct (IH _ _ _ Hrun Hin) as [Hrequired Hread].
      split; apply elem_of_app; right; assumption.
Qed.

(** X13. Whatever a run calls as a model file is what [require] answered
    for that file of the directory, and its first argument is what reading
    [sequelize.Sequelize] gave: no model file is called that was not
    loaded first. *)
Theorem a_model_file_is_called_as_required (w w' : W) (r : outcome registry)
    (t : list event) (file : string) (modelFile types : value)
    (given : registry) (ctx : value) (answer : outcome (value * registry)) :
  module_exports env inflection directory sequelize options w = (r, w', t) ->
  ECallModelFile file modelFile types given ctx answer ∈ t ->
  ERequire directory file (Ok modelFile) ∈ t
  /\ EGetProperty sequelize "Sequelize" (Ok types) ∈ t.
Proof.
  intros Hrun Hin.
  apply module_exports_inv in Hrun
    as [(e & _ & _ & ->)|(names & w0 & t' & _ & Hloop & ->)].
  - apply list_elem_of_singleton in Hin. discriminate Hin.
  - apply elem_of_cons in Hin as [Hin|Hin]; [discriminate Hin|].
    destruct (forEach_linked _ _ _ _ _ _ _ _ _ _ _ _ Hloop Hin)
      as [Hrequired Hread].
    split; apply elem_of_cons; right; assumption.
Qed.

End Linked.

Lemma a_model_file_is_called_as_required_witness :
  ERequire "models" "flag.model.js" (Ok (VRef 4)) ∈ Odd.flag_run.2
  /\ EGetProperty Demo.sequelize "Sequelize" (Ok (VRef 1)) ∈ Odd.flag_run.2.
Proof.
  apply (a_model_file_is_called_as_required
           Odd.flag Demo.inflection "models" Demo.sequelize Demo.options
           Demo.start Odd.flag_run.1.2 Odd.flag_run.1.1 Odd.flag_run.2
           "flag.model.js" (VRef 4) (VRef 1) ∅ VUndefined
           (Ok (VBool true, ∅)) (run_eta Odd.flag_run)).
  apply list_elem_of_In. do 3 right. left. reflexivity.
Defined.

(** ** X: the registry returned *)

Section Returned.

Context {W : Type}.
Variable env : Collaborators W.
Variable inflection : Inflection.
Variables (directory : string) (sequelize : value) (options : Options).

Lemma forEach_returned (files : list string) (models : registry)
    (w w' : W) (result : registry) (t : list event) :
  forEach files (eachModelFile env inflection directory sequelize options)
    models w = (Ok result, w', t) ->
  match last (invocations t) with
  | None => result = models /\ registrations t = []
  | Some (_, _, answer) =>
      exists definition models1 name model,
        answer = Ok (definition, models1)
        /\ last (registrations t) = Some (name, model)
        /\ result = <[name := model]> models1
  end.
Proof.
  revert models w t. induction files as [|file rest IH];
    intros models w t Hrun; simpl in Hrun.
  - apply ret_inv in Hrun as ([= ->] & _ & ->). simpl. auto.
  - ok_step Hrun. subst t.
    apply eachModelFile_registers in Hstep
      as (definition0 & models1 & modelName & definition & model & _ & _
          & -> & _ & Hcalls & _ & Hdefined & _).
    specialize (IH _ _ _ Hrun).
    rewrite invocations_app, registrations_app, !last_app, Hcalls, Hdefined.
    destruct (last (invocations t1)) as [[[file' given'] answer']|].
    + destruct IH as (definition' & models' & name' & model' & -> & -> & ->).
      eauto 10.
    + destruct IH as [-> ->]. simpl. eauto 10.
Qed.

(** X14. The registry a run returns is the registry the last model file
    called left behind, with the model defined last put under its name:
    what model files add to the registry, or take out of it, shows in the
    result. *)
Theorem the_result_is_what_the_last_file_left (w w' : W) (result : registry)
    (t : list event) (file : string) (given : registry)
    (answer : outcome (value * registry)) :
  module_exports env inflection directory sequelize options w
  = (Ok result, w', t) ->
  last (invocations t) = Some (file, given, answer) ->
  exists definition models1 name model,
    answer = Ok (definition, models1)
    /\ last (registrations t) = Some (name, model)
    /\ result = <[name := model]> models1.
Proof.
  intros Hrun Hlast.
  apply module_exports_inv in Hrun
    as [(e & _ & [=] & _)|(names & w0 & t' & _ & Hloop & ->)].
  apply forEach_returned in Hloop.
  change (invocations (EReaddirSync directory (Ok names) :: t'))
    with (invocations t') in Hlast.
  change (registrations (EReaddirSync directory (Ok names) :: t'))
    with (registrations t').
  rewrite Hlast in Hloop. exact Hloop.
Qed.

End Returned.

Lemma the_result_is_what_the_last_file_left_witness :
  exists definition models1 name model,
    Ok (Demo.userDefinition, <["helpers" := VRef 3]> (∅ : registry))
    = Ok (definition, models1)
    /\ last (registrations Odd.helper_run.2) = Some (name, model)
    /\ <["a" := VRef 11]> (<["helpers" := VRef 3]> (∅ : registry))
       = <[name := model]> models1.
Proof.
  apply (the_result_is_what_the_last_file_left
           Odd.helper Demo.inflection "models" Demo.sequelize Demo.options
           Demo.start Odd.helper_run.1.2
           (<["a" := VRef 11]> (<["helpers" := VRef 3]> ∅))
           Odd.helper_run.2 "a.model.js" ∅).
  - rewrite (run_eta Odd.helper_run) at 1. reflexivity.
  - reflexivity.
Defined.

(** ** C8: the keys of the registry *)


Section Blameless.

Context {W : Type}.





End Blameless.


Section EndsWell.

Context {W : Type}.
Variable env : Collaborators W.
Variable inflection : Inflection.
Variables (directory : string) (sequelize : value) (options : Options).





End EndsWell.



